(** * Hybrid M-Plane test runner: discovery and execution pipeline

    A shallow embedding of [testcases/base.py], [testcases/discovery.py]
    and the constructors of [testcases/tc_hmp_001.py] to [tc_hmp_004.py]
    of the hybrid M-Plane test runner, with the properties its specification
    states about suites, discovery and the execution pipeline, and further
    properties of the same code.

    Python objects with identity (test case classes, hook callables) are
    addresses into tables; dictionaries are insertion-ordered, as Python's
    are; exceptions are an explicit outcome; the calls the pipeline makes
    into foreign code (hooks, constructors, [run]) and its [logging] calls
    are recorded, in program order, in a trace.

    A suite and the registry are read-only while the pipeline runs: hooks
    and test cases act on the world, not on them.
    [run_test_cases_by_category] iterates over a Python [set], whose
    order the language leaves open: the order is a parameter, [set_iter],
    of the definitions that depend on it. *)

From Stdlib Require Import String Ascii List PeanoNat Bool DecimalString.
From stdpp Require Import base strings gmap.

Import ListNotations.
Local Open Scope string_scope.
Local Open Scope list_scope.

(* ===================================================================== *)
(** ** Result document model  *)
(* ===================================================================== *)

(** Modelled from the spec: the module
    [hybrid_mplane_test_runner.models.testresult_models] (pydantic classes
    [TestCase], [TestGroup], [Metric], [Measurements], [Measurement],
    [ResultType], [TestStatus], [Units]) is not part of the sources; the
    records below carry the fields that the spec's result document shape
    lists and that [base.py] and [discovery.py] pass to the constructors.
    Constructing a model value is taken to succeed. *)
Module models.

Inductive ResultType := PASS | FAIL.

Inductive TestStatus := mandatory | conditionally_mandatory | optional.

Inductive Units := text.

Record Measurement := {
  m_name : string;
  m_values : list string;
  m_units : Units
}.

(** [models.Measurements] is a root model wrapping a list. *)
Definition Measurements := list Measurement.

Record Metric := {
  metric_description : string;
  metric_measurements : Measurements;
  metric_status : TestStatus;
  metric_result : ResultType
}.

Record TestCase := {
  tc_number : string;
  tc_name : string;
  tc_description : string;
  tc_result : ResultType;
  tc_status : TestStatus;
  tc_metrics : list Metric;
  tc_startDate : option string;
  tc_stopDate : option string;
  tc_notes : option (list string)
}.

(** [groupItems] is heterogeneous: test case results or nested groups. *)
Inductive TestGroup :=
| mkTestGroup (number name description : string) (groupItems : list GroupItem)
with GroupItem :=
| ItemCase (c : TestCase)
| ItemGroup (g : TestGroup).

Definition number (g : TestGroup) : string :=
  let (n, _, _, _) := g in n.
Definition name (g : TestGroup) : string :=
  let (_, n, _, _) := g in n.
Definition description (g : TestGroup) : string :=
  let (_, _, d, _) := g in d.
Definition groupItems (g : TestGroup) : list GroupItem :=
  let (_, _, _, l) := g in l.

End models.

(* ===================================================================== *)
(** ** Python strings  *)
(* ===================================================================== *)

(** [s.split(sep)[0]]: the text before the first separator, the whole
    string when there is none. *)
Fixpoint split_first (sep : ascii) (s : string) : string :=
  match s with
  | EmptyString => EmptyString
  | String c r => if Ascii.eqb c sep then EmptyString else String c (split_first sep r)
  end.

(** [s.split(sep)[-1]]: the text after the last separator. *)
Fixpoint split_last_aux (sep : ascii) (s acc : string) : string :=
  match s with
  | EmptyString => acc
  | String c r =>
      if Ascii.eqb c sep then split_last_aux sep r EmptyString
      else split_last_aux sep r (acc +:+ String c EmptyString)
  end.

Definition split_last (sep : ascii) (s : string) : string :=
  split_last_aux sep s EmptyString.

(** [", ".join(l)] *)
Fixpoint join (sep : string) (l : list string) : string :=
  match l with
  | [] => EmptyString
  | [x] => x
  | x :: r => x +:+ sep +:+ join sep r
  end.

(** [str(n)] for a length. *)
Definition str_of_nat (n : nat) : string :=
  NilEmpty.string_of_uint (Nat.to_uint n).

(* ===================================================================== *)
(** ** Insertion-ordered dictionaries  *)
(* ===================================================================== *)

(** A Python [dict] with [str] keys keeps its keys in insertion order;
    assigning to a key that is present replaces the value in place. *)
Module OrderedDict.

Definition t (V : Type) := list (string * V).

Definition empty {V} : t V := [].

Fixpoint get {V} (k : string) (d : t V) : option V :=
  match d with
  | [] => None
  | (k', v) :: r => if String.eqb k k' then Some v else get k r
  end.

(** [k in d] *)
Definition mem {V} (k : string) (d : t V) : bool :=
  match get k d with Some _ => true | None => false end.

(** [d[k] = v] *)
Fixpoint set {V} (k : string) (v : V) (d : t V) : t V :=
  match d with
  | [] => [(k, v)]
  | (k', v') :: r =>
      if String.eqb k k' then (k, v) :: r else (k', v') :: set k v r
  end.

Definition keys {V} (d : t V) : list string := map fst d.
Definition values {V} (d : t V) : list V := map snd d.
Definition items {V} (d : t V) : list (string * V) := d.
Definition len {V} (d : t V) : nat := List.length d.

End OrderedDict.


(* ===================================================================== *)
(** ** Exceptions, object references, the trace  *)
(* ===================================================================== *)

(** Exceptions are instances of Python's [Exception]; the class matters
    only where the source has separate [except] clauses. *)
Inductive ExnType := ImportError | AttributeError | TypeError | RuntimeError.

Record Exn := { exn_type : ExnType; exn_msg : string }.

Inductive Outcome (A : Type) :=
| Returned (a : A)
| Raised (e : Exn).
Arguments Returned {A} a.
Arguments Raised {A} e.

(** Test case classes and hook callables are compared by identity:
    they are addresses into a class table and a hook table. *)
Definition ClassRef := nat.
Definition HookRef := nat.

Inductive Level := DEBUG | INFO | WARNING | ERROR.

(** One constructor per [logging] call of [discovery.py]; [render] below
    gives the formatted text. *)
Inductive LogMsg :=
| MsgDiscovering (package_name : string)
| MsgDiscoveredCase (tc_id : string) (obj : ClassRef)
| MsgImportError (module_path : string) (e : Exn)
| MsgProcessError (module_path : string) (e : Exn)
| MsgDiscoveredCount (n_cases n_suites : nat)
| MsgTempInstanceFailed (cls : ClassRef) (e : Exn)
| MsgNotFound (tc_id : string).

(** A class attribute that discovery uses as a dictionary key (a member
    of [categories], the value of [suite]): a string, or an object that
    cannot be hashed, of the type named. *)
Inductive KeyAttr :=
| KeyStr (s : string)
| KeyUnhashable (type_name : string).

(** The class attributes [getattr(obj, "categories", [])] can find: none;
    an iterable of strings; an object that cannot be iterated; an
    iterable whose members are the strings [before], then a member that
    cannot be hashed, then the members [after]. *)
Inductive CategoriesAttr :=
| CatAbsent
| CatList (l : list string)
| CatNotIterable
| CatUnhashable (before : list string) (type_name : string) (after : list KeyAttr).

(** [TypeError: unhashable type: 'list'], raised by [key in d] and by
    [d[key]] for a key that cannot be hashed. *)
Definition unhashable (type_name : string) : Exn :=
  {| exn_type := TypeError; exn_msg := "unhashable type: '" +:+ type_name +:+ "'" |}.

(** What [inspect.getmembers(module)] yields: a test case class (a strict
    subclass of [HybridMPlaneTestCase]), the base class itself, or anything
    else. *)
Inductive Member :=
| MemTestCase (obj : ClassRef)
| MemBase
| MemOther.

Inductive ModuleImport :=
| ImportRaises (e : Exn)
| ImportOk (members : list (string * Member)).

(** What [importlib.import_module] and [pkgutil.iter_modules] find under a
    package name: the import raises, or the package lists its entries
    (name, sub-package or module) in iteration order. *)
Inductive Package :=
| PackageRaises (e : Exn)
| PackageOk (entries : list (string * Entry))
with Entry :=
| SubPackage (p : Package)
| IsModule (m : ModuleImport).

Section Runner.

(** The world outside the runner (controller state, network, simulator)
    and the controller handle passed to test cases. *)
Context {Env Controller : Type}.

Inductive Event :=
| ELog (lvl : Level) (msg : LogMsg)
| EHook (h : HookRef)
| EInit (c : ClassRef) (controller : option Controller)
| ERun (c : ClassRef).

(** A computation over a state [S]: the new state, the events it emitted
    and how it ended. *)
Definition M (S A : Type) : Type := S -> S * list Event * Outcome A.

Definition ret {S A} (a : A) : M S A := fun s => (s, [], Returned a).

Definition raise {S A} (e : Exn) : M S A := fun s => (s, [], Raised e).

Definition bind {S A B} (m : M S A) (k : A -> M S B) : M S B :=
  fun s =>
    match m s with
    | (s1, t1, Returned a) =>
        match k a s1 with
        | (s2, t2, r) => (s2, t1 ++ t2, r)
        end
    | (s1, t1, Raised e) => (s1, t1, Raised e)
    end.

Definition tell {S} (ev : Event) : M S unit := fun s => (s, [ev], Returned tt).

Definition get_state {S} : M S S := fun s => (s, [], Returned s).

Definition modify {S} (f : S -> S) : M S unit := fun s => (f s, [], Returned tt).

(** [try: body except Exception as e: handler(e)] *)
Definition try_except {S A} (body : M S A) (handler : Exn -> M S A) : M S A :=
  fun s =>
    match body s with
    | (s1, t1, Returned a) => (s1, t1, Returned a)
    | (s1, t1, Raised e) =>
        match handler e s1 with
        | (s2, t2, r) => (s2, t1 ++ t2, r)
        end
    end.

(** [try: body finally: cleanup]: the cleanup runs however the body ended;
    an exception raised by the cleanup replaces the body's outcome. *)
Definition try_finally {S A} (body : M S A) (cleanup : M S unit) : M S A :=
  fun s =>
    match body s with
    | (s1, t1, r) =>
        match cleanup s1 with
        | (s2, t2, Returned _) => (s2, t1 ++ t2, r)
        | (s2, t2, Raised e) => (s2, t1 ++ t2, Raised e)
        end
    end.

Notation "'let*' x ':=' m 'in' k" := (bind m (fun x => k))
  (at level 10, x name, m at level 100, k at level 200, only parsing).

(** [for x in xs: body(x)] *)
Fixpoint for_each {S A} (xs : list A) (body : A -> M S unit) : M S unit :=
  match xs with
  | [] => ret tt
  | x :: r => let* _ := body x in for_each r body
  end.

(** [for x in xs: results.append(body(x))] *)
Fixpoint collect {S A B} (xs : list A) (body : A -> M S B) : M S (list B) :=
  match xs with
  | [] => ret []
  | x :: r =>
      let* y := body x in
      let* ys := collect r body in
      ret (y :: ys)
  end.

(* ===================================================================== *)
(** ** base.py: HybridMPlaneTestCase  *)
(* ===================================================================== *)

(** The attributes of a test case object. [inst_number] is [None] when
    the object has no [number] attribute that is a [str] (a subclass that
    does not run the base constructor). *)
Record Instance := {
  inst_number : option string;
  inst_name : string;
  inst_description : string;
  inst_tc_model : models.TestCase;
  inst_controller : option Controller
}.

(** [HybridMPlaneTestCase.__init__(self, number, name, description, controller)] *)
Definition HybridMPlaneTestCase_init
    (number name description : string) (controller : option Controller) : Instance :=
  let metrics :=
    [ {| models.metric_description := "Generic metric";
         models.metric_measurements :=
           [ {| models.m_name := "Generic measurement";
                models.m_values := ["None"];
                models.m_units := models.text |} ];
         models.metric_status := models.optional;
         models.metric_result := models.FAIL |} ] in
  {| inst_number := Some number;
     inst_name := name;
     inst_description := description;
     inst_tc_model :=
       {| models.tc_number := number;
          models.tc_name := name;
          models.tc_description := description;
          models.tc_result := models.FAIL;
          models.tc_status := models.optional;
          models.tc_metrics := metrics;
          models.tc_startDate := None;
          models.tc_stopDate := None;
          models.tc_notes := None |};
     inst_controller := controller |}.

Definition get_test_case_model (self : Instance) : models.TestCase :=
  inst_tc_model self.

(** A test case class: its name, the class attributes discovery reads,
    its constructor [cls(controller)] and its [run] method. Constructor
    and [run] are foreign code: they act on the world and may raise.
    [number] is a string when the class has one (the base class declares
    [number: str]); nothing declares the types of [categories] and
    [suite], which are read as they are found. *)
Record TestCaseClass := {
  cls_name : string;
  cls_number : option string;
  cls_categories : CategoriesAttr;
  cls_suite : option KeyAttr;
  cls_init : option Controller -> Env -> Env * Outcome Instance;
  cls_run : Instance -> Env -> Env * Outcome models.TestCase
}.

(** A hook is a callable without arguments. *)
Definition Hook := Env -> Env * Outcome unit.

Variable classes : ClassRef -> TestCaseClass.
Variable hooks : HookRef -> Hook.


(* ===================================================================== *)
(** ** discovery.py: TestSuite  *)
(* ===================================================================== *)

Record TestSuite := {
  suite_name : string;
  suite_description : string;
  test_cases : list ClassRef;
  suite_categories : gset string;
  _setup_hooks : list HookRef;
  _teardown_hooks : list HookRef
}.

(** [TestSuite.__init__(self, name, description="")] *)
Definition TestSuite_init (name description : string) : TestSuite :=
  {| suite_name := name;
     suite_description := description;
     test_cases := [];
     suite_categories := ∅;
     _setup_hooks := [];
     _teardown_hooks := [] |}.

(** [test_case_class in self.test_cases]: classes compare by identity. *)
Definition class_in (c : ClassRef) (l : list ClassRef) : bool :=
  existsb (Nat.eqb c) l.

Definition add_test_case (self : TestSuite) (test_case_class : ClassRef) : TestSuite :=
  if negb (class_in test_case_class (test_cases self)) then
    {| suite_name := suite_name self;
       suite_description := suite_description self;
       test_cases := test_cases self ++ [test_case_class];
       suite_categories := suite_categories self;
       _setup_hooks := _setup_hooks self;
       _teardown_hooks := _teardown_hooks self |}
  else self.

Definition add_category (self : TestSuite) (category : string) : TestSuite :=
  {| suite_name := suite_name self;
     suite_description := suite_description self;
     test_cases := test_cases self;
     suite_categories := {[ category ]} ∪ suite_categories self;
     _setup_hooks := _setup_hooks self;
     _teardown_hooks := _teardown_hooks self |}.

Definition add_setup_hook (self : TestSuite) (hook : HookRef) : TestSuite :=
  {| suite_name := suite_name self;
     suite_description := suite_description self;
     test_cases := test_cases self;
     suite_categories := suite_categories self;
     _setup_hooks := _setup_hooks self ++ [hook];
     _teardown_hooks := _teardown_hooks self |}.

Definition add_teardown_hook (self : TestSuite) (hook : HookRef) : TestSuite :=
  {| suite_name := suite_name self;
     suite_description := suite_description self;
     test_cases := test_cases self;
     suite_categories := suite_categories self;
     _setup_hooks := _setup_hooks self;
     _teardown_hooks := _teardown_hooks self ++ [hook] |}.

(** [hook()] *)
Definition call_hook (h : HookRef) : M Env unit :=
  fun env =>
    match hooks h env with
    | (env1, r) => (env1, [EHook h], r)
    end.

(** [for hook in hook_list: hook()] *)
Definition run_hooks (hook_list : list HookRef) : M Env unit :=
  for_each hook_list call_hook.

Definition run_setup_hooks (self : TestSuite) : M Env unit :=
  run_hooks (_setup_hooks self).

Definition run_teardown_hooks (self : TestSuite) : M Env unit :=
  run_hooks (_teardown_hooks self).

(* ===================================================================== *)
(** ** discovery.py: TestDiscovery  *)
(* ===================================================================== *)

Record TestDiscovery := {
  _test_cases : OrderedDict.t ClassRef;
  _test_suites : OrderedDict.t TestSuite;
  _categories : OrderedDict.t (gset string)
}.

Definition TestDiscovery_init : TestDiscovery :=
  {| _test_cases := OrderedDict.empty;
     _test_suites := OrderedDict.empty;
     _categories := OrderedDict.empty |}.

(** The text of each log record. *)
Definition render (m : LogMsg) : string :=
  match m with
  | MsgDiscovering package_name =>
      "Discovering test cases in package: " +:+ package_name
  | MsgDiscoveredCase tc_id obj =>
      "Discovered test case: " +:+ tc_id +:+ " (" +:+ cls_name (classes obj) +:+ ")"
  | MsgImportError module_path e =>
      "Error importing module " +:+ module_path +:+ ": " +:+ exn_msg e
  | MsgProcessError module_path e =>
      "Error processing module " +:+ module_path +:+ ": " +:+ exn_msg e
  | MsgDiscoveredCount n_cases n_suites =>
      "Discovered " +:+ str_of_nat n_cases +:+ " test cases in "
        +:+ str_of_nat n_suites +:+ " suites"
  | MsgTempInstanceFailed cls e =>
      "Failed to create temporary instance of " +:+ cls_name (classes cls)
        +:+ " to get number attribute: " +:+ exn_msg e
        +:+ ". Using default group number as '0'."
  | MsgNotFound tc_id =>
      "Test case with ID " +:+ tc_id +:+ " not found"
  end.

Definition logging (lvl : Level) (m : LogMsg) {S} : M S unit := tell (ELog lvl m).

(** [tc_id = getattr(obj, "number", None)], falling back to the last
    underscore-separated part of the module name when it is falsy. *)
Definition tc_id_of (module_name : string) (obj : ClassRef) : string :=
  match cls_number (classes obj) with
  | Some tc_id => if String.eqb tc_id "" then split_last "_" module_name else tc_id
  | None => split_last "_" module_name
  end.

(** [self._test_cases[tc_id] = obj] *)
Definition set_test_case (tc_id : string) (obj : ClassRef) (self : TestDiscovery) : TestDiscovery :=
  {| _test_cases := OrderedDict.set tc_id obj (_test_cases self);
     _test_suites := _test_suites self;
     _categories := _categories self |}.

(** [if category not in self._categories: self._categories[category] = set()]
    then [self._categories[category].add(tc_id)] *)
Definition add_to_category (category tc_id : string) (self : TestDiscovery) : TestDiscovery :=
  let ids := match OrderedDict.get category (_categories self) with
             | Some ids => ids
             | None => ∅
             end in
  {| _test_cases := _test_cases self;
     _test_suites := _test_suites self;
     _categories := OrderedDict.set category ({[ tc_id ]} ∪ ids) (_categories self) |}.

(** [if suite_name not in self._test_suites: ... = TestSuite(suite_name)]
    then [self._test_suites[suite_name].add_test_case(obj)] *)
Definition add_to_suite (suite_name : string) (obj : ClassRef) (self : TestDiscovery) : TestDiscovery :=
  let suite := match OrderedDict.get suite_name (_test_suites self) with
               | Some suite => suite
               | None => TestSuite_init suite_name ""
               end in
  {| _test_cases := _test_cases self;
     _test_suites := OrderedDict.set suite_name (add_test_case suite obj) (_test_suites self);
     _categories := _categories self |}.

(** The body of the member loop of [discover_test_cases] for one class
    that passed the [issubclass] test. The loop over [categories] raises
    when the value cannot be iterated, and at [category not in
    self._categories] for a member that cannot be hashed, after the
    members before it were added; [suite_name not in self._test_suites]
    raises for a suite that cannot be hashed. *)
Definition register_member (module_name : string) (obj : ClassRef) : M TestDiscovery unit :=
  let tc_id := tc_id_of module_name obj in
  let* _ := modify (set_test_case tc_id obj) in
  let* _ := logging DEBUG (MsgDiscoveredCase tc_id obj) in
  let* _ :=
    match cls_categories (classes obj) with
    | CatAbsent => ret tt
    | CatList categories =>
        for_each categories (fun category => modify (add_to_category category tc_id))
    | CatNotIterable =>
        raise {| exn_type := TypeError; exn_msg := "object is not iterable" |}
    | CatUnhashable before type_name _ =>
        let* _ := for_each before (fun category =>
                    modify (add_to_category category tc_id)) in
        raise (unhashable type_name)
    end in
  match cls_suite (classes obj) with
  | None => modify (add_to_suite "Default" obj)
  | Some (KeyStr suite_name) => modify (add_to_suite suite_name obj)
  | Some (KeyUnhashable type_name) => raise (unhashable type_name)
  end.

(** The [try] statement of [discover_test_cases] for one module whose
    name starts with [tc_hmp_]. *)
Definition process_module (module_name module_path : string) (m : ModuleImport)
  : M TestDiscovery unit :=
  try_except
    (match m with
     | ImportRaises e => raise e
     | ImportOk members =>
         for_each members (fun member =>
           match snd member with
           | MemTestCase obj => register_member module_name obj
           | MemBase | MemOther => ret tt
           end)
     end)
    (fun e =>
       match exn_type e with
       | ImportError => logging ERROR (MsgImportError module_path e)
       | _ => logging ERROR (MsgProcessError module_path e)
       end).

(** The loop over [pkgutil.iter_modules]; [recurse] is
    [self.discover_test_cases]. *)
Definition scan_entries (recurse : Package -> string -> M TestDiscovery unit)
    (package_name : string) : list (string * Entry) -> M TestDiscovery unit :=
  fix scan entries :=
    match entries with
    | [] => ret tt
    | (module_name, SubPackage p) :: rest =>
        let* _ := recurse p (package_name +:+ "." +:+ module_name) in
        scan rest
    | (module_name, IsModule m) :: rest =>
        let* _ :=
          if String.prefix "tc_hmp_" module_name
          then process_module module_name (package_name +:+ "." +:+ module_name) m
          else ret tt in
        scan rest
    end.

Fixpoint discover_test_cases (package : Package) (package_name : string)
  : M TestDiscovery unit :=
  let* _ := logging INFO (MsgDiscovering package_name) in
  match package with
  | PackageRaises e => raise e
  | PackageOk entries =>
      let* _ := scan_entries discover_test_cases package_name entries in
      let* self := get_state in
      logging INFO (MsgDiscoveredCount (OrderedDict.len (_test_cases self))
                                       (OrderedDict.len (_test_suites self)))
  end.

Definition get_test_case (self : TestDiscovery) (tc_id : string) : option ClassRef :=
  OrderedDict.get tc_id (_test_cases self).

Definition get_all_test_cases (self : TestDiscovery) : list ClassRef :=
  OrderedDict.values (_test_cases self).


Definition get_all_test_suites (self : TestDiscovery) : list TestSuite :=
  OrderedDict.values (_test_suites self).

Definition get_all_categories (self : TestDiscovery) : list string :=
  OrderedDict.keys (_categories self).

(* ===================================================================== *)
(** ** discovery.py: TestExecutionPipeline  *)
(* ===================================================================== *)

Record TestExecutionPipeline := {
  _discovery : TestDiscovery;
  _global_setup_hooks : list HookRef;
  _global_teardown_hooks : list HookRef
}.

Definition TestExecutionPipeline_init (discovery : TestDiscovery) : TestExecutionPipeline :=
  {| _discovery := discovery;
     _global_setup_hooks := [];
     _global_teardown_hooks := [] |}.

Definition add_global_setup_hook (self : TestExecutionPipeline) (hook : HookRef)
  : TestExecutionPipeline :=
  {| _discovery := _discovery self;
     _global_setup_hooks := _global_setup_hooks self ++ [hook];
     _global_teardown_hooks := _global_teardown_hooks self |}.

Definition add_global_teardown_hook (self : TestExecutionPipeline) (hook : HookRef)
  : TestExecutionPipeline :=
  {| _discovery := _discovery self;
     _global_setup_hooks := _global_setup_hooks self;
     _global_teardown_hooks := _global_teardown_hooks self ++ [hook] |}.

(** [test_case_class(controller)] *)
Definition construct (test_case_class : ClassRef) (controller : option Controller)
  : M Env Instance :=
  fun env =>
    match cls_init (classes test_case_class) controller env with
    | (env1, r) => (env1, [EInit test_case_class controller], r)
    end.

(** [test_case.run()], for an object of class [test_case_class] *)
Definition call_run (test_case_class : ClassRef) (test_case : Instance)
  : M Env models.TestCase :=
  fun env =>
    match cls_run (classes test_case_class) test_case env with
    | (env1, r) => (env1, [ERun test_case_class], r)
    end.

Definition run_test_case (test_case_class : ClassRef) (controller : option Controller)
  : M Env models.TestCase :=
  let* test_case := construct test_case_class controller in
  call_run test_case_class test_case.

(** The group number block that [run_test_suite],
    [run_test_cases_by_category] and [run_selected_test_cases] each
    contain: ["0"] unless a temporary instance of the first class, built
    with [None] as controller, gives a number. *)
Definition group_number_of (cases : list ClassRef) : M Env string :=
  match cases with
  | [] => ret "0"
  | first :: _ =>
      try_except
        (let* temp_instance := construct first None in
         match inst_number temp_instance with
         | Some number => ret (split_first "." number)
         | None =>
             raise {| exn_type := AttributeError;
                      exn_msg := "object has no attribute 'number'" |}
         end)
        (fun e =>
           let* _ := logging WARNING (MsgTempInstanceFailed first e) in
           ret "0")
  end.

(** The [try ... finally] statement of [run_test_suite]. *)
Definition run_suite_guarded (suite : TestSuite) (controller : option Controller)
  : M Env (list models.TestCase) :=
  try_finally
    (let* _ := run_setup_hooks suite in
     collect (test_cases suite) (fun test_case_class =>
       run_test_case test_case_class controller))
    (run_teardown_hooks suite).

Definition run_test_suite (suite : TestSuite) (controller : option Controller)
  : M Env models.TestGroup :=
  let* results := run_suite_guarded suite controller in
  let* group_number := group_number_of (test_cases suite) in
  ret (models.mkTestGroup group_number (suite_name suite) (suite_description suite)
         (map models.ItemCase results)).

(** The [try] block of [run_all_test_suites]. *)
Definition run_all_body (self : TestExecutionPipeline) (controller : option Controller)
  : M Env (list models.TestGroup) :=
  let* _ := run_hooks (_global_setup_hooks self) in
  collect (OrderedDict.items (_test_suites (_discovery self))) (fun item =>
    run_test_suite (snd item) controller).

Definition run_all_test_suites (self : TestExecutionPipeline) (controller : option Controller)
  : M Env (list models.TestGroup) :=
  try_finally (run_all_body self controller)
              (run_hooks (_global_teardown_hooks self)).

(** The loop of [run_selected_test_cases]: the results and the classes
    found, both in the order of the requested ids. *)
Fixpoint run_selected_loop (discovery : TestDiscovery) (test_case_ids : list string)
    (controller : option Controller)
  : M Env (list models.TestCase * list ClassRef) :=
  match test_case_ids with
  | [] => ret ([], [])
  | tc_id :: rest =>
      match get_test_case discovery tc_id with
      | Some test_case_class =>
          let* result := run_test_case test_case_class controller in
          let* acc := run_selected_loop discovery rest controller in
          ret (result :: fst acc, test_case_class :: snd acc)
      | None =>
          let* _ := logging WARNING (MsgNotFound tc_id) in
          run_selected_loop discovery rest controller
      end
  end.

Definition run_selected_test_cases (self : TestExecutionPipeline)
    (test_case_ids : list string) (controller : option Controller)
  : M Env models.TestGroup :=
  let* acc := run_selected_loop (_discovery self) test_case_ids controller in
  let* group_number := group_number_of (snd acc) in
  ret (models.mkTestGroup group_number "Selected Test Cases"
         ("Test cases with IDs: " +:+ join ", " test_case_ids)
         (map models.ItemCase (fst acc))).

End Runner.

(* ===================================================================== *)
(** ** discovery.py: lookups and runs by category, pipeline creation  *)
(* ===================================================================== *)

Section CategoryRunner.

Context {Env Controller : Type}.
Variable classes : ClassRef -> @TestCaseClass Env Controller.

(** Iterating over a Python [set] yields each element once, in an order
    the language leaves open; [set_iter] is that order. *)
Variable set_iter : gset string -> list string.

Definition get_test_cases_by_category (self : TestDiscovery) (category : string)
  : list ClassRef :=
  match OrderedDict.get category (_categories self) with
  | None => []
  | Some ids =>
      flat_map (fun tc_id =>
                  match OrderedDict.get tc_id (_test_cases self) with
                  | Some test_case_class => [test_case_class]
                  | None => []
                  end)
               (set_iter ids)
  end.

Definition run_test_cases_by_category (self : TestExecutionPipeline)
    (category : string) (controller : option Controller)
  : M Env models.TestGroup :=
  let test_cases := get_test_cases_by_category (_discovery self) category in
  bind (collect test_cases (fun test_case_class =>
          run_test_case classes test_case_class controller))
       (fun results =>
  bind (group_number_of classes test_cases)
       (fun group_number =>
  ret (models.mkTestGroup group_number
         ("Category: " +:+ category)
         ("Test cases in category '" +:+ category +:+ "'")
         (map models.ItemCase results)))).


End CategoryRunner.

(* ===================================================================== *)
(** ** tc_hmp_001.py to tc_hmp_004.py: class attributes and constructors  *)
(* ===================================================================== *)

Module TestCases.

(** [self.tc_model.status = status] *)
Definition set_model_status {Controller} (self : @Instance Controller)
    (status : models.TestStatus) : Instance :=
  let m := inst_tc_model self in
  {| inst_number := inst_number self;
     inst_name := inst_name self;
     inst_description := inst_description self;
     inst_tc_model :=
       {| models.tc_number := models.tc_number m;
          models.tc_name := models.tc_name m;
          models.tc_description := models.tc_description m;
          models.tc_result := models.tc_result m;
          models.tc_status := status;
          models.tc_metrics := models.tc_metrics m;
          models.tc_startDate := models.tc_startDate m;
          models.tc_stopDate := models.tc_stopDate m;
          models.tc_notes := models.tc_notes m |};
     inst_controller := inst_controller self |}.

Definition TestCase_001_init {Controller} (controller : option Controller) : Instance :=
  set_model_status
    (HybridMPlaneTestCase_init "001"
       "Transport and Handshake in IPv4/TLS Environment"
       "Runs basic scenario"
       controller)
    models.conditionally_mandatory.

Definition TestCase_002_init {Controller} (controller : option Controller) : Instance :=
  set_model_status
    (HybridMPlaneTestCase_init "002"
       "Read-Only Data Retrieval (Unfiltered, Filtered, and Config-Only)"
       "Verify that the O-RU exposes operational and configuration data via NETCONF and that the O-RU Controller retrieves and exposes this data using RESTCONF in JSON format."
       controller)
    models.conditionally_mandatory.

Definition TestCase_003_init {Controller} (controller : option Controller) : Instance :=
  set_model_status
    (HybridMPlaneTestCase_init "003"
       "NETCONF Sessions Verification"
       "Verify that the O-RU has at least two active NETCONF sessions (one towards the O-RU Controller and another towards the O-DU)."
       controller)
    models.conditionally_mandatory.

Definition TestCase_004_init {Controller} (controller : option Controller) : Instance :=
  set_model_status
    (HybridMPlaneTestCase_init "004"
       "O-RU Configurability Test (Positive Case)"
       "Verify that the O-RU accepts valid operational-info configuration and that the O-RU Controller applies it via RESTCONF."
       controller)
    models.conditionally_mandatory.

(** A class of the repository: none declares a class attribute [number];
    the constructor only builds the object; [run] is foreign code. *)
Definition repo_class {Env Controller} (name : string) (categories : list string)
    (suite : string) (init : option Controller -> @Instance Controller)
    (run : @Instance Controller -> Env -> Env * Outcome models.TestCase)
  : @TestCaseClass Env Controller :=
  {| cls_name := name;
     cls_number := None;
     cls_categories := CatList categories;
     cls_suite := Some (KeyStr suite);
     cls_init := fun controller env => (env, Returned (init controller));
     cls_run := run |}.

(** The class table of the repository: 1 to 4 are [TestCase_001] to
    [TestCase_004]; [run] gives the [run] method of each. *)
Definition repo_classes {Env Controller}
    (run : ClassRef -> @Instance Controller -> Env -> Env * Outcome models.TestCase)
  : ClassRef -> @TestCaseClass Env Controller :=
  fun c =>
    match c with
    | 1 => repo_class "TestCase_001" ["basic"; "connectivity"; "transport"]
             "Basic Connectivity" TestCase_001_init (run 1)
    | 2 => repo_class "TestCase_002" ["basic"; "data"; "restconf"]
             "Data Retrieval" TestCase_002_init (run 2)
    | 3 => repo_class "TestCase_003" ["basic"; "netconf"; "sessions"]
             "NETCONF Sessions" TestCase_003_init (run 3)
    | _ => repo_class "TestCase_004" ["configuration"; "operational-info"; "restconf"]
             "O-RU Configuration" TestCase_004_init (run c)
    end.

(** The modules of the repository that discovery matches, each with the
    class it defines. *)
Definition repo_modules : list (string * ClassRef) :=
  [("tc_hmp_001", 1); ("tc_hmp_002", 2); ("tc_hmp_003", 3); ("tc_hmp_004", 4)].

End TestCases.

(* ===================================================================== *)
(** ** Reference notions used by the statements  *)
(* ===================================================================== *)

(** The classes of a sequence of additions, each kept at its first
    occurrence. *)
Fixpoint first_occurrences (cs : list ClassRef) : list ClassRef :=
  match cs with
  | [] => []
  | c :: r => c :: List.filter (fun x => negb (Nat.eqb c x)) (first_occurrences r)
  end.

(** Reading a trace: the classes whose [run] was called, and the ids
    reported as not found, both in program order. *)
Fixpoint runs_of {Controller} (tr : list (@Event Controller)) : list ClassRef :=
  match tr with
  | [] => []
  | ERun c :: r => c :: runs_of r
  | _ :: r => runs_of r
  end.

Fixpoint not_found_of {Controller} (tr : list (@Event Controller)) : list string :=
  match tr with
  | [] => []
  | ELog WARNING (MsgNotFound tc_id) :: r => tc_id :: not_found_of r
  | _ :: r => not_found_of r
  end.

(** The log records of a trace at a given level. *)
Fixpoint logged_at {Controller} (lvl : Level) (tr : list (@Event Controller)) : list LogMsg :=
  match tr with
  | [] => []
  | ELog l m :: r =>
      match l, lvl with
      | DEBUG, DEBUG | INFO, INFO | WARNING, WARNING | ERROR, ERROR => m :: logged_at lvl r
      | _, _ => logged_at lvl r
      end
  | _ :: r => logged_at lvl r
  end.

(** Whether an id resolves in the registry, and the classes a list of ids
    resolves to, in the order of the ids. *)
Definition registered (d : TestDiscovery) (tc_id : string) : bool :=
  match get_test_case d tc_id with
  | Some _ => true
  | None => false
  end.

Fixpoint found_classes (d : TestDiscovery) (ids : list string) : list ClassRef :=
  match ids with
  | [] => []
  | tc_id :: r =>
      match get_test_case d tc_id with
      | Some c => c :: found_classes d r
      | None => found_classes d r
      end
  end.

Definition item_number (item : models.GroupItem) : string :=
  match item with
  | models.ItemCase c => models.tc_number c
  | models.ItemGroup g => models.number g
  end.

(** [result] is what [run] returned on an object of class [c] built with
    [controller], in some world. *)
Definition result_of_class {Env Controller}
    (classes : ClassRef -> @TestCaseClass Env Controller) (controller : option Controller)
    (c : ClassRef) (result : models.TestCase) : Prop :=
  exists env env1 test_case env2,
    cls_init (classes c) controller env = (env1, Returned test_case) /\
    cls_run (classes c) test_case env1 = (env2, Returned result).

(** Every registered class, whenever it is built and run to a result,
    reports in the result the id it is registered under (as the classes
    of [tc_hmp_001.py] to [tc_hmp_004.py] do). *)
Definition reports_registered_id {Env Controller}
    (classes : ClassRef -> @TestCaseClass Env Controller) (d : TestDiscovery) : Prop :=
  forall tc_id c controller env env1 test_case env2 result,
    get_test_case d tc_id = Some c ->
    cls_init (classes c) controller env = (env1, Returned test_case) ->
    cls_run (classes c) test_case env1 = (env2, Returned result) ->
    models.tc_number result = tc_id.

(** The suites of a list were run one after the other through
    [run_test_suite], each returning its group: the worlds chain, the
    traces and the groups come in the order of the list. *)
Inductive suites_run_in_order {Env Controller}
    (classes : ClassRef -> @TestCaseClass Env Controller) (hooks : HookRef -> @Hook Env)
    (controller : option Controller)
  : list TestSuite -> Env -> Env -> list (@Event Controller) -> list models.TestGroup -> Prop :=
| suites_run_nil env :
    suites_run_in_order classes hooks controller [] env env [] []
| suites_run_cons suite rest env env1 env2 t1 t2 g gs :
    run_test_suite classes hooks suite controller env = (env1, t1, Returned g) ->
    suites_run_in_order classes hooks controller rest env1 env2 t2 gs ->
    suites_run_in_order classes hooks controller (suite :: rest) env env2 (t1 ++ t2) (g :: gs).

(** The class last recorded for an id by the debug records of discovery
    ([Discovered test case: id (class)]), if any. *)
Fixpoint last_registration {Controller} (tc_id : string) (tr : list (@Event Controller))
  : option ClassRef :=
  match tr with
  | [] => None
  | ev :: r =>
      match last_registration tc_id r with
      | Some obj => Some obj
      | None =>
          match ev with
          | ELog DEBUG (MsgDiscoveredCase i obj) =>
              if String.eqb i tc_id then Some obj else None
          | _ => None
          end
      end
  end.

(** What a piece of discovery does to the id map, read off its trace:
    keys stay unique, each id maps to the class last recorded for it (or
    to what it mapped to before), and no warning is logged. *)
Definition registry_step {Controller} (d0 : TestDiscovery)
    (tr : list (@Event Controller)) (d1 : TestDiscovery) : Prop :=
  (List.NoDup (OrderedDict.keys (_test_cases d0)) ->
   List.NoDup (OrderedDict.keys (_test_cases d1))) /\
  (forall tc_id,
      get_test_case d1 tc_id =
      match last_registration tc_id tr with
      | Some obj => Some obj
      | None => get_test_case d0 tc_id
      end) /\
  logged_at WARNING tr = [].

Definition registers_faithfully {Controller A} (m : @M Controller TestDiscovery A) : Prop :=
  forall d, registry_step d (snd (fst (m d))) (fst (fst (m d))).

(** Every package of the tree can be imported. *)
Fixpoint packages_import (package : Package) : bool :=
  match package with
  | PackageRaises _ => false
  | PackageOk entries =>
      forallb (fun entry =>
                 match snd entry with
                 | SubPackage p => packages_import p
                 | IsModule _ => true
                 end) entries
  end.

(** Reading a trace: the hooks called and the objects built, in program
    order. *)
Fixpoint hooks_of {Controller} (tr : list (@Event Controller)) : list HookRef :=
  match tr with
  | [] => []
  | EHook h :: r => h :: hooks_of r
  | _ :: r => hooks_of r
  end.

Fixpoint inits_of {Controller} (tr : list (@Event Controller))
  : list (ClassRef * option Controller) :=
  match tr with
  | [] => []
  | EInit c controller :: r => (c, controller) :: inits_of r
  | _ :: r => inits_of r
  end.

(** The events of building and running one test case that returns. *)
Definition case_events {Controller} (controller : option Controller) (c : ClassRef)
  : list (@Event Controller) :=
  [EInit c controller; ERun c].

(** What discovery reads from a class. The suite it declares: "Default"
    when it declares none, no suite when the value cannot be hashed. *)
Definition suite_of {Env Controller} (classes : ClassRef -> @TestCaseClass Env Controller)
    (obj : ClassRef) : option string :=
  match cls_suite (classes obj) with
  | None => Some "Default"
  | Some (KeyStr s) => Some s
  | Some (KeyUnhashable _) => None
  end.

(** The categories the loop over [categories] reaches: every member when
    all are strings, the members before the first that cannot be hashed
    otherwise. *)
Definition categories_of {Env Controller}
    (classes : ClassRef -> @TestCaseClass Env Controller) (obj : ClassRef) : list string :=
  match cls_categories (classes obj) with
  | CatList l => l
  | CatUnhashable before _ _ => before
  | CatAbsent | CatNotIterable => []
  end.

(** Whether [categories] can be iterated. *)
Definition categories_readable {Env Controller}
    (classes : ClassRef -> @TestCaseClass Env Controller) (obj : ClassRef) : bool :=
  match cls_categories (classes obj) with
  | CatNotIterable => false
  | CatAbsent | CatList _ | CatUnhashable _ _ _ => true
  end.

(** Whether nothing stops the registration of the class: its
    [categories] are absent or an iterable of strings, and its [suite] is
    absent or a string. *)
Definition registers_fully {Env Controller}
    (classes : ClassRef -> @TestCaseClass Env Controller) (obj : ClassRef) : bool :=
  match cls_categories (classes obj) with
  | CatAbsent | CatList _ =>
      match cls_suite (classes obj) with
      | Some (KeyUnhashable _) => false
      | None | Some (KeyStr _) => true
      end
  | CatNotIterable | CatUnhashable _ _ _ => false
  end.

(** The suite a registration puts the class in, if nothing stops it. *)
Definition suite_joined {Env Controller}
    (classes : ClassRef -> @TestCaseClass Env Controller) (obj : ClassRef) : option string :=
  if registers_fully classes obj then suite_of classes obj else None.

(** The exception that stops the registration of a class that does not
    register fully: the first that iterating [categories], hashing its
    members or hashing [suite] raises. *)
Definition registration_error {Env Controller}
    (classes : ClassRef -> @TestCaseClass Env Controller) (obj : ClassRef) : option Exn :=
  match cls_categories (classes obj) with
  | CatNotIterable =>
      Some {| exn_type := TypeError; exn_msg := "object is not iterable" |}
  | CatUnhashable _ type_name _ => Some (unhashable type_name)
  | CatAbsent | CatList _ =>
      match cls_suite (classes obj) with
      | Some (KeyUnhashable type_name) => Some (unhashable type_name)
      | None | Some (KeyStr _) => None
      end
  end.

(** [l1] is an initial part of [l2]. *)
Definition initial_part {A} (l1 l2 : list A) : Prop := exists tail, l2 = l1 ++ tail.

(** A relation between the registry before, the trace and the registry
    after holds of every run of a computation. *)
Definition respects {Controller A}
    (R : TestDiscovery -> list (@Event Controller) -> TestDiscovery -> Prop)
    (m : @M Controller TestDiscovery A) : Prop :=
  forall d, R d (snd (fst (m d))) (fst (fst (m d))).

(** The registry only grew from [d0] to [d1]: the keys of the three maps
    kept their positions, every suite kept its name, description, hooks
    and categories and the classes it had, in place, and every category
    kept its ids. *)
Definition registry_grows (d0 d1 : TestDiscovery) : Prop :=
  initial_part (OrderedDict.keys (_test_cases d0)) (OrderedDict.keys (_test_cases d1)) /\
  initial_part (OrderedDict.keys (_test_suites d0)) (OrderedDict.keys (_test_suites d1)) /\
  initial_part (OrderedDict.keys (_categories d0)) (OrderedDict.keys (_categories d1)) /\
  (forall name s0,
      OrderedDict.get name (_test_suites d0) = Some s0 ->
      exists s1,
        OrderedDict.get name (_test_suites d1) = Some s1 /\
        initial_part (test_cases s0) (test_cases s1) /\
        suite_name s1 = suite_name s0 /\
        suite_description s1 = suite_description s0 /\
        suite_categories s1 = suite_categories s0 /\
        _setup_hooks s1 = _setup_hooks s0 /\
        _teardown_hooks s1 = _teardown_hooks s0) /\
  (forall category ids0,
      OrderedDict.get category (_categories d0) = Some ids0 ->
      exists ids1,
        OrderedDict.get category (_categories d1) = Some ids1 /\ ids0 ⊆ ids1).

(** Every suite of the registry is stored under its own name, lists each
    class once, and holds only classes that declare it. *)
Definition suites_well_formed {Env Controller}
    (classes : ClassRef -> @TestCaseClass Env Controller) (d : TestDiscovery) : Prop :=
  List.NoDup (OrderedDict.keys (_test_suites d)) /\
  forall name s,
    OrderedDict.get name (_test_suites d) = Some s ->
    suite_name s = name /\
    List.NoDup (test_cases s) /\
    forall c, In c (test_cases s) -> suite_of classes c = Some name.

(** A suite as discovery creates it: no description, no categories, no
    hooks. *)
Definition bare_suite (s : TestSuite) : Prop :=
  suite_description s = "" /\ suite_categories s = ∅ /\
  _setup_hooks s = [] /\ _teardown_hooks s = [].

(** Every registration the trace records has landed in the registry: the
    id is in every category the class reaches, and a class that registers
    fully is in the suite it declares. *)
Definition registrations_land {Env Controller}
    (classes : ClassRef -> @TestCaseClass Env Controller)
    (d0 : TestDiscovery) (tr : list (@Event Controller)) (d1 : TestDiscovery) : Prop :=
  registry_grows d0 d1 /\
  forall tc_id obj,
    In (ELog DEBUG (MsgDiscoveredCase tc_id obj)) tr ->
    (forall name,
        suite_joined classes obj = Some name ->
        exists s, OrderedDict.get name (_test_suites d1) = Some s /\
                  In obj (test_cases s)) /\
    (forall category,
        In category (categories_of classes obj) ->
        exists ids, OrderedDict.get category (_categories d1) = Some ids /\ tc_id ∈ ids).

(** Whatever the registry holds was there before or comes from a
    registration the trace records. *)
Definition members_come_from {Env Controller}
    (classes : ClassRef -> @TestCaseClass Env Controller)
    (d0 : TestDiscovery) (tr : list (@Event Controller)) (d1 : TestDiscovery) : Prop :=
  (forall tc_id c,
      OrderedDict.get tc_id (_test_cases d1) = Some c ->
      OrderedDict.get tc_id (_test_cases d0) = Some c \/
      In (ELog DEBUG (MsgDiscoveredCase tc_id c)) tr) /\
  (forall name s c,
      OrderedDict.get name (_test_suites d1) = Some s -> In c (test_cases s) ->
      (exists s0, OrderedDict.get name (_test_suites d0) = Some s0 /\ In c (test_cases s0)) \/
      (exists tc_id, In (ELog DEBUG (MsgDiscoveredCase tc_id c)) tr /\
                     suite_joined classes c = Some name)) /\
  (forall category ids tc_id,
      OrderedDict.get category (_categories d1) = Some ids -> tc_id ∈ ids ->
      (exists ids0, OrderedDict.get category (_categories d0) = Some ids0 /\ tc_id ∈ ids0) \/
      (exists obj, In (ELog DEBUG (MsgDiscoveredCase tc_id obj)) tr /\
                   In category (categories_of classes obj))).

(** Suites stay well formed, and a suite that was not there before is as
    discovery creates it. *)
Definition keeps_suites_well_formed {Env Controller}
    (classes : ClassRef -> @TestCaseClass Env Controller)
    (d0 : TestDiscovery) (tr : list (@Event Controller)) (d1 : TestDiscovery) : Prop :=
  registry_grows d0 d1 /\
  (suites_well_formed classes d0 -> suites_well_formed classes d1) /\
  (forall name s,
      OrderedDict.get name (_test_suites d1) = Some s ->
      OrderedDict.get name (_test_suites d0) = None ->
      bare_suite s).

(** A call of one of the registration methods of a suite, and the suite
    after a sequence of such calls. *)
Inductive SuiteCall :=
| CallAddTestCase (test_case_class : ClassRef)
| CallAddCategory (category : string)
| CallAddSetupHook (hook : HookRef)
| CallAddTeardownHook (hook : HookRef).

Definition apply_call (s : TestSuite) (call : SuiteCall) : TestSuite :=
  match call with
  | CallAddTestCase c => add_test_case s c
  | CallAddCategory category => add_category s category
  | CallAddSetupHook h => add_setup_hook s h
  | CallAddTeardownHook h => add_teardown_hook s h
  end.

Fixpoint cases_of_calls (calls : list SuiteCall) : list ClassRef :=
  match calls with
  | [] => []
  | CallAddTestCase c :: r => c :: cases_of_calls r
  | _ :: r => cases_of_calls r
  end.

Fixpoint categories_of_calls (calls : list SuiteCall) : list string :=
  match calls with
  | [] => []
  | CallAddCategory category :: r => category :: categories_of_calls r
  | _ :: r => categories_of_calls r
  end.

Fixpoint setup_of_calls (calls : list SuiteCall) : list HookRef :=
  match calls with
  | [] => []
  | CallAddSetupHook h :: r => h :: setup_of_calls r
  | _ :: r => setup_of_calls r
  end.

Fixpoint teardown_of_calls (calls : list SuiteCall) : list HookRef :=
  match calls with
  | [] => []
  | CallAddTeardownHook h :: r => h :: teardown_of_calls r
  | _ :: r => teardown_of_calls r
  end.

(** The strings of [l] that are not in [seen], each at its first
    occurrence. *)
Fixpoint fresh_strings (seen l : list string) : list string :=
  match l with
  | [] => []
  | x :: r =>
      if existsb (String.eqb x) seen then fresh_strings seen r
      else x :: fresh_strings (seen ++ [x]) r
  end.

(** What the debug records of a discovery trace say, in trace order: the
    ids assigned, the suites joined (by the classes that register fully)
    and the categories reached. *)
Fixpoint recorded_ids {Controller} (tr : list (@Event Controller)) : list string :=
  match tr with
  | [] => []
  | ELog DEBUG (MsgDiscoveredCase tc_id _) :: r => tc_id :: recorded_ids r
  | _ :: r => recorded_ids r
  end.

Fixpoint recorded_suites {Env Controller}
    (classes : ClassRef -> @TestCaseClass Env Controller) (tr : list (@Event Controller))
  : list string :=
  match tr with
  | [] => []
  | ELog DEBUG (MsgDiscoveredCase _ obj) :: r =>
      match suite_joined classes obj with
      | Some name => name :: recorded_suites classes r
      | None => recorded_suites classes r
      end
  | _ :: r => recorded_suites classes r
  end.

Fixpoint recorded_categories {Env Controller}
    (classes : ClassRef -> @TestCaseClass Env Controller) (tr : list (@Event Controller))
  : list string :=
  match tr with
  | [] => []
  | ELog DEBUG (MsgDiscoveredCase _ obj) :: r =>
      categories_of classes obj ++ recorded_categories classes r
  | _ :: r => recorded_categories classes r
  end.

(** The keys of the three maps after a piece of discovery: the keys
    before, then the new ones in the order the trace records them. *)
Definition keeps_discovery_order {Env Controller}
    (classes : ClassRef -> @TestCaseClass Env Controller)
    (d0 : TestDiscovery) (tr : list (@Event Controller)) (d1 : TestDiscovery) : Prop :=
  OrderedDict.keys (_test_cases d1) =
    OrderedDict.keys (_test_cases d0)
      ++ fresh_strings (OrderedDict.keys (_test_cases d0)) (recorded_ids tr) /\
  OrderedDict.keys (_test_suites d1) =
    OrderedDict.keys (_test_suites d0)
      ++ fresh_strings (OrderedDict.keys (_test_suites d0)) (recorded_suites classes tr) /\
  OrderedDict.keys (_categories d1) =
    OrderedDict.keys (_categories d0)
      ++ fresh_strings (OrderedDict.keys (_categories d0)) (recorded_categories classes tr).

(** Two runs of discovery went the same way: same debug records, same
    end (both returned, or both raised the same exception). *)
Definition same_flow {Controller A}
    (x y : TestDiscovery * list (@Event Controller) * Outcome A) : Prop :=
  logged_at DEBUG (snd (fst x)) = logged_at DEBUG (snd (fst y)) /\
  match snd x, snd y with
  | Returned _, Returned _ => True
  | Raised e, Raised e' => e = e'
  | _, _ => False
  end.

(** A computation goes the same way from every registry. *)
Definition flow_independent {Controller A} (m : @M Controller TestDiscovery A) : Prop :=
  forall d d', same_flow (m d) (m d').

(** A registry as discovery leaves it: keys unique in the three maps and
    well formed suites. *)
Definition registry_well_formed {Env Controller}
    (classes : ClassRef -> @TestCaseClass Env Controller) (d : TestDiscovery) : Prop :=
  List.NoDup (OrderedDict.keys (_test_cases d)) /\
  List.NoDup (OrderedDict.keys (_categories d)) /\
  suites_well_formed classes d.

(** The id map that the debug records of [tr] make of [cases]: an entry
    of [cases] stays in place, with the class last recorded under its id
    if there is one; the ids recorded and not in [cases] follow, in the
    order of their first record, each with the class last recorded under
    it. *)
Definition id_map_after {Controller} (cases : OrderedDict.t ClassRef)
    (tr : list (@Event Controller)) : OrderedDict.t ClassRef :=
  map (fun entry =>
         (fst entry,
          match last_registration (fst entry) tr with
          | Some obj => obj
          | None => snd entry
          end))
      cases
  ++ flat_map (fun tc_id =>
                 match last_registration tc_id tr with
                 | Some obj => [(tc_id, obj)]
                 | None => []
                 end)
       (fresh_strings (OrderedDict.keys cases) (recorded_ids tr)).

(** [segment] is the leading dotted segment of [number]: it holds no
    dot, and [number] is [segment] alone, or [segment], a dot, and the
    rest. *)
Definition leading_segment (number segment : string) : Prop :=
  ~ In "."%char (list_ascii_of_string segment) /\
  (number = segment \/ exists rest, number = segment +:+ "." +:+ rest).

(** The hooks of a list were called one after the other, each in the
    world the one before left, and all returned. *)
Inductive hooks_return_in_order {Env} (hooks : HookRef -> @Hook Env)
  : list HookRef -> Env -> Env -> Prop :=
| hooks_return_nil env :
    hooks_return_in_order hooks [] env env
| hooks_return_cons h rest env env1 env2 :
    hooks h env = (env1, Returned tt) ->
    hooks_return_in_order hooks rest env1 env2 ->
    hooks_return_in_order hooks (h :: rest) env env2.

(* ===================================================================== *)
(** ** Fixtures  *)
(* ===================================================================== *)

(** Concrete classes, hooks and registries on which the statements are
    exercised. The world is a counter of the foreign calls that returned. *)
Module Fixtures.

Definition setup_failed : Exn := {| exn_type := RuntimeError; exn_msg := "setup failed" |}.
Definition teardown_failed : Exn := {| exn_type := RuntimeError; exn_msg := "teardown failed" |}.
Definition run_failed : Exn := {| exn_type := RuntimeError; exn_msg := "run failed" |}.
Definition init_failed : Exn := {| exn_type := TypeError; exn_msg := "controller is None" |}.

(** Hook 0 raises [setup_failed], hook 1 raises [teardown_failed], every
    other hook returns. *)
Definition fx_hooks : HookRef -> @Hook nat :=
  fun h env =>
    match h with
    | 0 => (env, Raised setup_failed)
    | 1 => (env, Raised teardown_failed)
    | _ => (S env, Returned tt)
    end.

(** A class in the style of [tc_hmp_001.py]: the constructor calls the
    base constructor with a fixed number, [run] returns the model with
    the result set to PASS. *)
Definition passing_run (self : @Instance unit) (env : nat)
  : nat * Outcome models.TestCase :=
  let m := inst_tc_model self in
  (S env,
   Returned {| models.tc_number := models.tc_number m;
               models.tc_name := models.tc_name m;
               models.tc_description := models.tc_description m;
               models.tc_result := models.PASS;
               models.tc_status := models.tc_status m;
               models.tc_metrics := models.tc_metrics m;
               models.tc_startDate := models.tc_startDate m;
               models.tc_stopDate := models.tc_stopDate m;
               models.tc_notes := models.tc_notes m |}).

Definition numbered_class (name number suite : string) : @TestCaseClass nat unit :=
  {| cls_name := name;
     cls_number := None;
     cls_categories := CatList ["basic"];
     cls_suite := Some (KeyStr suite);
     cls_init := fun controller env =>
       (S env, Returned (HybridMPlaneTestCase_init number name "" controller));
     cls_run := passing_run |}.

(** Classes 0-3 are well behaved, with numbers 001, 002, 004 and 004.2;
    the constructor of class 4 needs a controller; [run] of class 5
    raises and its [categories] cannot be iterated; class 7 has the
    categories ["a", ["b"], "c"], whose second member cannot be hashed;
    class 8 has a list as [suite]; every other class never sets
    [number]. *)
Definition fx_classes : ClassRef -> @TestCaseClass nat unit :=
  fun c =>
    match c with
    | 0 => numbered_class "TestCase_001" "001" "Basic Connectivity"
    | 1 => numbered_class "TestCase_002" "002" "Data Retrieval"
    | 2 => numbered_class "TestCase_004" "004" "O-RU Configuration"
    | 3 => numbered_class "TestCase_004_2" "004.2" "O-RU Configuration"
    | 4 =>
        {| cls_name := "NeedsController";
           cls_number := None;
           cls_categories := CatAbsent;
           cls_suite := None;
           cls_init := fun controller env =>
             match controller with
             | Some _ =>
                 (S env, Returned (HybridMPlaneTestCase_init "005" "NeedsController" "" controller))
             | None => (env, Raised init_failed)
             end;
           cls_run := passing_run |}
    | 5 =>
        {| cls_name := "Violating";
           cls_number := None;
           cls_categories := CatNotIterable;
           cls_suite := None;
           cls_init := fun controller env =>
             (S env, Returned (HybridMPlaneTestCase_init "006" "Violating" "" controller));
           cls_run := fun _ env => (env, Raised run_failed) |}
    | 7 =>
        {| cls_name := "MixedCategories";
           cls_number := None;
           cls_categories := CatUnhashable ["a"] "list" [KeyStr "c"];
           cls_suite := Some (KeyStr "Mixed");
           cls_init := fun controller env =>
             (S env, Returned (HybridMPlaneTestCase_init "007" "MixedCategories" "" controller));
           cls_run := passing_run |}
    | 8 =>
        {| cls_name := "ListSuite";
           cls_number := None;
           cls_categories := CatList ["a"];
           cls_suite := Some (KeyUnhashable "list");
           cls_init := fun controller env =>
             (S env, Returned (HybridMPlaneTestCase_init "008" "ListSuite" "" controller));
           cls_run := passing_run |}
    | _ =>
        {| cls_name := "Unnumbered";
           cls_number := Some "";
           cls_categories := CatAbsent;
           cls_suite := None;
           cls_init := fun controller env =>
             (S env,
              Returned {| inst_number := None;
                          inst_name := "Unnumbered";
                          inst_description := "";
                          inst_tc_model :=
                            inst_tc_model (HybridMPlaneTestCase_init "" "" "" controller);
                          inst_controller := controller |});
           cls_run := passing_run |}
    end.

Definition suite_with (cases : list ClassRef) (setup teardown : list HookRef) : TestSuite :=
  {| suite_name := "S";
     suite_description := "";
     test_cases := cases;
     suite_categories := ∅;
     _setup_hooks := setup;
     _teardown_hooks := teardown |}.

(** A registry that lists 001 before 002, and the same with the two
    registered in the other order. *)
Definition fx_discovery : TestDiscovery :=
  set_test_case "002" 1 (set_test_case "001" 0 TestDiscovery_init).

Definition fx_discovery_swapped : TestDiscovery :=
  set_test_case "001" 0 (set_test_case "002" 1 TestDiscovery_init).

Definition fx_pipeline : TestExecutionPipeline :=
  TestExecutionPipeline_init fx_discovery.

(** A registry with the suites A (class 0) and B (classes 1 and 2), and one
    whose second suite holds the class whose [run] raises. *)
Definition fx_suites : TestDiscovery :=
  add_to_suite "B" 2 (add_to_suite "B" 1 (add_to_suite "A" 0 TestDiscovery_init)).

Definition fx_suites_violating : TestDiscovery :=
  add_to_suite "C" 1 (add_to_suite "B" 5 (add_to_suite "A" 0 TestDiscovery_init)).

Definition pipeline_with (d : TestDiscovery) (setup teardown : list HookRef)
  : TestExecutionPipeline :=
  {| _discovery := d;
     _global_setup_hooks := setup;
     _global_teardown_hooks := teardown |}.

(** A package in which the module [tc_hmp_001] holds two test case
    classes: neither declares a number, so both get the id 001. A module
    that does not match the pattern and one that fails to import sit next
    to it. *)
Definition fx_package : Package :=
  PackageOk
    [ ("base", IsModule (ImportOk [("HybridMPlaneTestCase", MemBase)]));
      ("tc_hmp_001",
       IsModule (ImportOk [("ABC", MemOther);
                           ("HybridMPlaneTestCase", MemBase);
                           ("TestCase_001", MemTestCase 0);
                           ("TestCase_002", MemTestCase 1)]));
      ("tc_hmp_009",
       IsModule (ImportRaises {| exn_type := ImportError; exn_msg := "No module named 'x'" |}));
      ("extra", SubPackage (PackageOk [("tc_hmp_004", IsModule (ImportOk [("T", MemTestCase 2)]))])) ].

(** The registry that discovery builds from [fx_package]. *)
Definition fx_discovered : TestDiscovery :=
  fst (fst (discover_test_cases fx_classes fx_package "pkg" TestDiscovery_init)).

(** Two modules with one test case class each, a module that the pattern
    does not match, and the exception of an import that fails. *)
Definition fx_module_001 : string * Entry :=
  ("tc_hmp_001", IsModule (ImportOk [("TestCase_001", MemTestCase 0)])).

Definition fx_module_002 : string * Entry :=
  ("tc_hmp_002", IsModule (ImportOk [("TestCase_002", MemTestCase 1)])).

Definition fx_helpers : ModuleImport := ImportOk [("Helper", MemTestCase 3)].

Definition fx_import_error : Exn :=
  {| exn_type := ImportError; exn_msg := "No module named 'y'" |}.

(** The [run] methods of the repository's classes are foreign code;
    this table gives every class one that passes. *)
Definition fx_repo_run (_ : ClassRef) : @Instance unit -> nat -> nat * Outcome models.TestCase :=
  passing_run.

(** A package with class 2, class 7 (whose second category cannot be
    hashed) followed by class 0 in one module, and class 8 (whose suite
    cannot be hashed). *)
Definition fx_package_unhashable : Package :=
  PackageOk
    [ ("tc_hmp_004", IsModule (ImportOk [("TestCase_004", MemTestCase 2)]));
      ("tc_hmp_007", IsModule (ImportOk [("MixedCategories", MemTestCase 7);
                                         ("TestCase_001", MemTestCase 0)]));
      ("tc_hmp_008", IsModule (ImportOk [("ListSuite", MemTestCase 8)])) ].

End Fixtures.

(* ===================================================================== *)
(** * Properties  *)
(* ===================================================================== *)

(** ** Strings and dictionaries  *)

Example split_first_no_dot : split_first "." "004" = "004".
Proof. reflexivity. Qed.

Example split_first_dotted : split_first "." "004.2" = "004".
Proof. reflexivity. Qed.

Example split_last_module : split_last "_" "tc_hmp_001" = "001".
Proof. reflexivity. Qed.

Lemma od_get_set_eq {V} (k : string) (v : V) (d : OrderedDict.t V) :
  OrderedDict.get k (OrderedDict.set k v d) = Some v.
Proof.
  induction d as [|[k' v'] d IH]; simpl.
  - now rewrite String.eqb_refl.
  - destruct (String.eqb k k') eqn:E; simpl.
    + now rewrite String.eqb_refl.
    + now rewrite E.
Qed.

Lemma od_get_set_ne {V} (k k0 : string) (v : V) (d : OrderedDict.t V) :
  k0 <> k -> OrderedDict.get k0 (OrderedDict.set k v d) = OrderedDict.get k0 d.
Proof.
  intros Hne. induction d as [|[k' v'] d IH]; simpl.
  - destruct (String.eqb k0 k) eqn:E; [apply String.eqb_eq in E; congruence | reflexivity].
  - destruct (String.eqb k k') eqn:E; simpl.
    + apply String.eqb_eq in E. subst k'.
      destruct (String.eqb k0 k) eqn:E'; [apply String.eqb_eq in E'; congruence | reflexivity].
    + now rewrite IH.
Qed.

Lemma od_get_In_keys {V} (k : string) (d : OrderedDict.t V) :
  In k (OrderedDict.keys d) <-> OrderedDict.get k d <> None.
Proof.
  induction d as [|[k' v'] d IH]; simpl.
  - tauto.
  - destruct (String.eqb k k') eqn:E.
    + apply String.eqb_eq in E. split; [discriminate | auto].
    + apply String.eqb_neq in E. rewrite <- IH. split; [intros [H|H]; congruence | auto].
Qed.

(** Assignment keeps the order of the keys and appends a new key. *)
Lemma od_keys_set {V} (k : string) (v : V) (d : OrderedDict.t V) :
  OrderedDict.keys (OrderedDict.set k v d) =
  if OrderedDict.mem k d then OrderedDict.keys d else OrderedDict.keys d ++ [k].
Proof.
  unfold OrderedDict.mem.
  induction d as [|[k' v'] d IH]; simpl; [reflexivity|].
  destruct (String.eqb k k') eqn:E; simpl.
  - apply String.eqb_eq in E. now subst.
  - rewrite IH. now destruct (OrderedDict.get k d).
Qed.

Lemma od_NoDup_keys_set {V} (k : string) (v : V) (d : OrderedDict.t V) :
  List.NoDup (OrderedDict.keys d) -> List.NoDup (OrderedDict.keys (OrderedDict.set k v d)).
Proof.
  intros Hnd. rewrite od_keys_set. unfold OrderedDict.mem.
  destruct (OrderedDict.get k d) eqn:E; [assumption|].
  apply List.NoDup_app; [assumption | repeat constructor; intros [] | ].
  intros x Hin [Hx|[]]. subst x. apply od_get_In_keys in Hin. congruence.
Qed.


(** ** The base constructor  *)

(** C10. A test case built through the base constructor has a [tc_model]
    with result FAIL and status optional, carrying exactly one metric,
    'Generic metric', itself FAIL, with a single measurement whose values
    are ["None"]; the controller is stored as given, whatever it is
    ([None] included), since the constructor inspects nothing. *)
Theorem base_init_default_model {Controller : Type}
    (number name description : string) (controller : option Controller) :
  let self := HybridMPlaneTestCase_init number name description controller in
  let model := get_test_case_model self in
  models.tc_result model = models.FAIL /\
  models.tc_status model = models.optional /\
  (exists metric measurement,
      models.tc_metrics model = [metric] /\
      models.metric_description metric = "Generic metric" /\
      models.metric_result metric = models.FAIL /\
      models.metric_measurements metric = [measurement] /\
      models.m_values measurement = ["None"]) /\
  inst_controller self = controller /\
  inst_number self = Some number /\
  models.tc_number model = number.
Proof.
  cbn. repeat split.
  eexists _, _. repeat split; reflexivity.
Qed.

(** ** TestSuite.add_test_case  *)

Lemma class_in_In (c : ClassRef) (l : list ClassRef) :
  class_in c l = true <-> In c l.
Proof.
  unfold class_in. rewrite existsb_exists. split.
  - intros (x & Hx & E). apply Nat.eqb_eq in E. now subst.
  - intros H. exists c. split; [assumption | apply Nat.eqb_refl].
Qed.

Lemma class_in_app (c : ClassRef) (l k : list ClassRef) :
  class_in c (l ++ k) = class_in c l || class_in c k.
Proof. unfold class_in. apply existsb_app. Qed.

Lemma test_cases_add (s : TestSuite) (c : ClassRef) :
  test_cases (add_test_case s c) =
  if class_in c (test_cases s) then test_cases s else test_cases s ++ [c].
Proof. unfold add_test_case. now destruct (class_in c (test_cases s)). Qed.

Lemma add_test_case_present (s : TestSuite) (c : ClassRef) :
  In c (test_cases s) -> add_test_case s c = s.
Proof.
  intros H. apply class_in_In in H. unfold add_test_case. now rewrite H.
Qed.

Lemma add_test_case_In (s : TestSuite) (c : ClassRef) :
  In c (test_cases (add_test_case s c)).
Proof.
  rewrite test_cases_add. destruct (class_in c (test_cases s)) eqn:E.
  - now apply class_in_In.
  - apply in_or_app. right. now left.
Qed.

Lemma add_test_case_NoDup (s : TestSuite) (c : ClassRef) :
  List.NoDup (test_cases s) -> List.NoDup (test_cases (add_test_case s c)).
Proof.
  intros Hnd. rewrite test_cases_add.
  destruct (class_in c (test_cases s)) eqn:E; [assumption|].
  apply List.NoDup_app; [assumption | repeat constructor; intros [] |].
  intros x Hin [Hx|[]]. subst x. apply class_in_In in Hin. congruence.
Qed.

Lemma filter_absent_app (seen l : list ClassRef) (c : ClassRef) :
  List.filter (fun x => negb (class_in x (seen ++ [c]))) l =
  List.filter (fun x => negb (class_in x seen))
              (List.filter (fun x => negb (Nat.eqb c x)) l).
Proof.
  induction l as [|x l IH]; simpl; [reflexivity|].
  rewrite class_in_app. simpl. rewrite orb_false_r, (Nat.eqb_sym x c).
  destruct (Nat.eqb c x); simpl.
  - rewrite orb_true_r. simpl. exact IH.
  - rewrite orb_false_r. destruct (class_in x seen); simpl; now rewrite IH.
Qed.

Lemma filter_absent_present (seen l : list ClassRef) (c : ClassRef) :
  class_in c seen = true ->
  List.filter (fun x => negb (class_in x seen))
              (List.filter (fun x => negb (Nat.eqb c x)) l) =
  List.filter (fun x => negb (class_in x seen)) l.
Proof.
  intros Hc. induction l as [|x l IH]; simpl; [reflexivity|].
  destruct (Nat.eqb c x) eqn:E; simpl.
  - apply Nat.eqb_eq in E. subst x. rewrite Hc. simpl. exact IH.
  - destruct (class_in x seen); simpl; now rewrite IH.
Qed.

Lemma test_cases_fold_add (cs : list ClassRef) (s : TestSuite) :
  test_cases (fold_left add_test_case cs s) =
  test_cases s ++
  List.filter (fun x => negb (class_in x (test_cases s))) (first_occurrences cs).
Proof.
  revert s. induction cs as [|c cs IH]; intros s; simpl.
  - now rewrite app_nil_r.
  - rewrite IH, test_cases_add.
    destruct (class_in c (test_cases s)) eqn:E; simpl.
    + now rewrite filter_absent_present.
    + rewrite filter_absent_app, <- app_assoc. reflexivity.
Qed.

(** C9. Adding a class that the suite already contains changes nothing
    (so adding twice is adding once); an addition never reorders or
    repeats what is there, a new class goes to the end; hence a list
    without repetition stays so, and the suite built by any sequence of
    additions lists each class once, at its first insertion. *)
Theorem add_test_case_idempotent (s : TestSuite) (c : ClassRef) :
  (In c (test_cases s) -> add_test_case s c = s) /\
  add_test_case (add_test_case s c) c = add_test_case s c /\
  test_cases (add_test_case s c) =
    (if class_in c (test_cases s) then test_cases s else test_cases s ++ [c]) /\
  (List.NoDup (test_cases s) -> List.NoDup (test_cases (add_test_case s c))) /\
  (forall (name description : string) (cs : list ClassRef),
      let built := fold_left add_test_case cs (TestSuite_init name description) in
      test_cases built = first_occurrences cs /\ List.NoDup (test_cases built)).
Proof.
  split; [apply add_test_case_present|].
  split; [apply add_test_case_present, add_test_case_In|].
  split; [apply test_cases_add|].
  split; [apply add_test_case_NoDup|].
  intros name description cs built. split.
  - unfold built. rewrite test_cases_fold_add. simpl.
    induction (first_occurrences cs) as [|x l IH]; simpl; [reflexivity | now rewrite IH].
  - assert (H : forall s0, List.NoDup (test_cases s0) ->
                List.NoDup (test_cases (fold_left add_test_case cs s0))).
    { induction cs as [|x cs IH]; intros s0 Hnd; simpl; [assumption|].
      apply IH, add_test_case_NoDup, Hnd. }
    apply H. simpl. constructor.
Qed.

(** C9, on a suite that holds the classes 0 and 1, and on a sequence of
    additions with repetitions. *)
Lemma add_test_case_idempotent_witness :
  let s := Fixtures.suite_with [0; 1] [] [] in
  In 1 (test_cases s) /\
  add_test_case s 1 = s /\
  test_cases (fold_left add_test_case [2; 0; 2; 1; 0] (TestSuite_init "S" "")) = [2; 0; 1].
Proof.
  intros s.
  destruct (add_test_case_idempotent s 1) as (Hpresent & _ & _ & _ & Hbuilt).
  split; [simpl; auto|].
  split; [apply Hpresent; simpl; auto|].
  exact (proj1 (Hbuilt "S" "" [2; 0; 2; 1; 0])).
Defined.

(** ** Hook loops  *)

Section HookLoops.

Context {Env Controller : Type}.
Variable hooks : HookRef -> @Hook Env.

Lemma run_hooks_nil (env : Env) :
  run_hooks (Controller := Controller) hooks [] env = (env, [], Returned tt).
Proof. reflexivity. Qed.

Lemma run_hooks_cons (h : HookRef) (hs : list HookRef) (env : Env) :
  run_hooks (Controller := Controller) hooks (h :: hs) env =
  match hooks h env with
  | (env1, Returned _) =>
      match run_hooks hooks hs env1 with
      | (env2, t, r) => (env2, EHook h :: t, r)
      end
  | (env1, Raised e) => (env1, [EHook h], Raised e)
  end.
Proof.
  unfold run_hooks. simpl. unfold bind, call_hook.
  destruct (hooks h env) as [env1 [u|e]]; [|reflexivity].
  now destruct (for_each hs _ env1) as [[env2 t] r].
Qed.

(** A hook loop calls the hooks in list order. When all return, each was
    called once; when one raises, the calls stop with it and its exception
    is the outcome of the loop. Nothing else is emitted: no log record. *)
Lemma run_hooks_outcome (hs : list HookRef) (env env' : Env)
    (tr : list (@Event Controller)) (r : Outcome unit) :
  run_hooks hooks hs env = (env', tr, r) ->
  match r with
  | Returned _ => tr = map EHook hs
  | Raised e =>
      exists before h after env1,
        hs = before ++ h :: after /\
        tr = map EHook (before ++ [h]) /\
        hooks h env1 = (env', Raised e)
  end.
Proof.
  revert env env' tr r. induction hs as [|h hs IH]; intros env env' tr r.
  - rewrite run_hooks_nil. intros [= <- <- <-]. reflexivity.
  - rewrite run_hooks_cons.
    destruct (hooks h env) as [env1 [u|e]] eqn:Eh.
    + destruct (run_hooks hooks hs env1) as [[env2 t] r'] eqn:Er.
      intros [= <- <- <-]. specialize (IH _ _ _ _ Er).
      destruct r' as [u'|e'].
      * simpl. now rewrite IH.
      * destruct IH as (before & h' & after & env3 & -> & -> & Hh).
        exists (h :: before), h', after, env3. auto.
    + intros [= <- <- <-]. exists [], h, hs, env. auto.
Qed.

Lemma logged_at_hooks (lvl : Level) (hs : list HookRef) :
  logged_at lvl (map (@EHook Controller) hs) = [].
Proof. induction hs as [|h hs IH]; [reflexivity | exact IH]. Qed.

(** Hooks that never raise are all called, once each, in order. *)
Lemma run_hooks_all_return (hs : list HookRef) (env : Env) :
  (forall h env0, In h hs -> snd (hooks h env0) = Returned tt) ->
  exists env', run_hooks (Controller := Controller) hooks hs env
               = (env', map EHook hs, Returned tt).
Proof.
  revert env. induction hs as [|h hs IH]; intros env Hok.
  - exists env. reflexivity.
  - rewrite run_hooks_cons.
    pose proof (Hok h env (or_introl eq_refl)) as Hh.
    destruct (hooks h env) as [env1 r]. simpl in Hh. subst r.
    destruct (IH env1) as [env' ->]; [intros; apply Hok; now right|].
    exists env'. reflexivity.
Qed.

(** The worlds of a hook loop: each hook is called in the world the one
    before it left; the loop ends in the world the last hook called left,
    be it by returning or by raising. *)
Lemma run_hooks_world (hs : list HookRef) (env env' : Env)
    (tr : list (@Event Controller)) (r : Outcome unit) :
  run_hooks hooks hs env = (env', tr, r) ->
  match r with
  | Returned _ => hooks_return_in_order hooks hs env env' /\ tr = map EHook hs
  | Raised e =>
      exists before h after env_mid,
        hs = before ++ h :: after /\
        hooks_return_in_order hooks before env env_mid /\
        hooks h env_mid = (env', Raised e) /\
        tr = map EHook (before ++ [h])
  end.
Proof.
  revert env env' tr r. induction hs as [|h hs IH]; intros env env' tr r.
  - rewrite run_hooks_nil. intros [= <- <- <-]. split; [constructor | reflexivity].
  - rewrite run_hooks_cons.
    destruct (hooks h env) as [env1 [[]|e]] eqn:Eh.
    + destruct (run_hooks hooks hs env1) as [[env2 t] r'] eqn:Er.
      intros [= <- <- <-]. specialize (IH _ _ _ _ Er).
      destruct r' as [u'|e'].
      * destruct IH as [Hworld ->]. split; [|reflexivity].
        econstructor; eassumption.
      * destruct IH as (before & h' & after & env_mid & -> & Hworld & Hh & ->).
        exists (h :: before), h', after, env_mid.
        repeat split; [|exact Hh]. econstructor; eassumption.
    + intros [= <- <- <-]. exists [], h, hs, env.
      repeat split; [constructor | exact Eh].
Qed.

End HookLoops.

(** ** Suites and single test cases  *)

Section SuiteExecution.

Context {Env Controller : Type}.
Variable classes : ClassRef -> @TestCaseClass Env Controller.
Variable hooks : HookRef -> @Hook Env.

(** C1 (as the code has it). [run_teardown_hooks] calls the teardown
    hooks in registration order and logs nothing. When every hook
    returns, each was called once, and hooks that never raise all return.
    When a hook raises, the hooks registered after it are not called and
    its exception is the outcome the caller gets. *)
Theorem run_teardown_hooks_stops_at_raise (suite : TestSuite) (env env' : Env)
    (tr : list (@Event Controller)) (r : Outcome unit) :
  run_teardown_hooks hooks suite env = (env', tr, r) ->
  match r with
  | Returned _ => tr = map EHook (_teardown_hooks suite)
  | Raised e =>
      exists before h after env1,
        _teardown_hooks suite = before ++ h :: after /\
        tr = map EHook (before ++ [h]) /\
        hooks h env1 = (env', Raised e)
  end /\
  (forall lvl, logged_at lvl tr = []) /\
  ((forall h env0, In h (_teardown_hooks suite) -> snd (hooks h env0) = Returned tt) ->
   r = Returned tt).
Proof.
  intros Hrun. pose proof (run_hooks_outcome hooks _ _ _ _ _ Hrun) as Hout.
  split; [exact Hout|]. split.
  - intros lvl. destruct r as [u|e].
    + rewrite Hout. apply logged_at_hooks.
    + destruct Hout as (before & h & after & env1 & _ & -> & _). apply logged_at_hooks.
  - intros Hquiet.
    destruct (run_hooks_all_return (Controller := Controller) hooks _ env Hquiet)
      as [env2 Hall].
    unfold run_teardown_hooks in Hrun. rewrite Hall in Hrun. now injection Hrun.
Qed.

(** C5. [run_test_case] builds the object with the controller it was
    given and returns what [run] returns. It handles nothing: an exception
    raised by the constructor, or by [run], is its own outcome, unchanged. *)
Theorem run_test_case_propagates (c : ClassRef) (controller : option Controller) (env : Env) :
  (forall env1 e,
      cls_init (classes c) controller env = (env1, Raised e) ->
      run_test_case classes c controller env = (env1, [EInit c controller], Raised e)) /\
  (forall env1 test_case env2 r,
      cls_init (classes c) controller env = (env1, Returned test_case) ->
      cls_run (classes c) test_case env1 = (env2, r) ->
      run_test_case classes c controller env = (env2, [EInit c controller; ERun c], r)).
Proof.
  unfold run_test_case, bind, construct, call_run. split.
  - intros env1 e ->. reflexivity.
  - intros env1 test_case env2 r -> ->. reflexivity.
Qed.

Lemma run_suite_guarded_setup_raises (suite : TestSuite) (controller : option Controller)
    (env env1 env2 : Env) (tr1 tr2 : list (@Event Controller)) (e : Exn) (r2 : Outcome unit) :
  run_setup_hooks hooks suite env = (env1, tr1, Raised e) ->
  run_teardown_hooks hooks suite env1 = (env2, tr2, r2) ->
  run_suite_guarded classes hooks suite controller env =
  (env2, tr1 ++ tr2, Raised match r2 with Returned _ => e | Raised e' => e' end).
Proof.
  intros Hs Ht. unfold run_suite_guarded, try_finally, bind.
  rewrite Hs, Ht. now destruct r2.
Qed.

Lemma not_In_map_EHook_init (hs : list HookRef) (c : ClassRef) (ctl : option Controller) :
  ~ In (EInit c ctl) (map EHook hs).
Proof. intros H. apply in_map_iff in H. destruct H as (h & Hh & _). discriminate. Qed.

Lemma not_In_map_EHook_run (hs : list HookRef) (c : ClassRef) :
  ~ In (@ERun Controller c) (map EHook hs).
Proof. intros H. apply in_map_iff in H. destruct H as (h & Hh & _). discriminate. Qed.

(** C3 (as the code has it). When a setup hook raises, [run_test_suite]
    constructs and runs no test case and goes on to the teardown loop.
    If every teardown hook returns, each was called once, in registration
    order, and the setup exception is the outcome. If a teardown hook
    raises, the teardown hooks after it are not called and its exception,
    not the setup exception, is the outcome. *)
Theorem setup_failure_runs_teardown (suite : TestSuite) (controller : option Controller)
    (env env1 env2 : Env) (tr1 tr2 : list (@Event Controller)) (e : Exn) (r2 : Outcome unit) :
  run_setup_hooks hooks suite env = (env1, tr1, Raised e) ->
  run_teardown_hooks hooks suite env1 = (env2, tr2, r2) ->
  run_test_suite classes hooks suite controller env =
    (env2, tr1 ++ tr2, Raised match r2 with Returned _ => e | Raised e' => e' end) /\
  (forall c ctl, ~ In (EInit c ctl) (tr1 ++ tr2) /\ ~ In (ERun c) (tr1 ++ tr2)) /\
  (exists before h after,
      _setup_hooks suite = before ++ h :: after /\ tr1 = map EHook (before ++ [h])) /\
  match r2 with
  | Returned _ => tr2 = map EHook (_teardown_hooks suite)
  | Raised _ =>
      exists before h after,
        _teardown_hooks suite = before ++ h :: after /\ tr2 = map EHook (before ++ [h])
  end.
Proof.
  intros Hs Ht.
  pose proof (run_hooks_outcome hooks _ _ _ _ _ Hs) as (sb & sh & sa & senv & Hsl & Htr1 & _).
  pose proof (run_hooks_outcome hooks _ _ _ _ _ Ht) as Htd.
  assert (Htr2 : exists l, tr2 = map EHook l).
  { destruct r2; [eauto|]. destruct Htd as (b & h & a & ? & _ & -> & _). eauto. }
  destruct Htr2 as [l2 Hl2].
  split; [|split; [|split]].
  - unfold run_test_suite, bind.
    rewrite (run_suite_guarded_setup_raises _ _ _ _ _ _ _ _ _ Hs Ht). reflexivity.
  - intros c ctl. rewrite Htr1, Hl2, <- map_app.
    split; [apply not_In_map_EHook_init | apply not_In_map_EHook_run].
  - eauto.
  - destruct r2; [exact Htd|].
    destruct Htd as (b & h & a & ? & -> & -> & _). eauto.
Qed.

End SuiteExecution.

(** C1, on a suite whose first teardown hook raises. *)
Lemma run_teardown_hooks_stops_at_raise_witness :
  run_teardown_hooks (Controller := unit) Fixtures.fx_hooks
    (Fixtures.suite_with [] [] [2; 1; 3]) 0
  = (1, [EHook 2; EHook 1], Raised Fixtures.teardown_failed) /\
  exists before h after env1,
    [2; 1; 3] = before ++ h :: after /\
    [@EHook unit 2; EHook 1] = map EHook (before ++ [h]) /\
    Fixtures.fx_hooks h env1 = (1, Raised Fixtures.teardown_failed).
Proof.
  split; [reflexivity|].
  exact (proj1 (run_teardown_hooks_stops_at_raise Fixtures.fx_hooks
                  (Fixtures.suite_with [] [] [2; 1; 3]) 0 _ _ _ eq_refl)).
Defined.

(** C1 as stated fails: with teardown hooks 1 and 2 registered, hook 1
    raising, hook 2 is never called, nothing is logged and the caller gets
    the exception. *)
Lemma teardown_hook_after_raise_not_run :
  let suite := Fixtures.suite_with [] [] [1; 2] in
  In 2 (_teardown_hooks suite) /\
  run_teardown_hooks (Controller := unit) Fixtures.fx_hooks suite 0
  = (0, [EHook 1], Raised Fixtures.teardown_failed) /\
  ~ In (@EHook unit 2) [EHook 1].
Proof.
  cbn. split; [auto|]. split; [reflexivity|].
  intros [H|[]]. discriminate.
Qed.

(** C5, on a class whose [run] raises and on one whose constructor does. *)
Lemma run_test_case_propagates_witness :
  run_test_case Fixtures.fx_classes 5 (Some tt) 0
    = (1, [EInit 5 (Some tt); ERun 5], Raised Fixtures.run_failed) /\
  run_test_case Fixtures.fx_classes 4 None 0
    = (0, [EInit 4 None], Raised Fixtures.init_failed).
Proof.
  split.
  - exact (proj2 (run_test_case_propagates Fixtures.fx_classes 5 (Some tt) 0)
             _ _ _ _ eq_refl eq_refl).
  - exact (proj1 (run_test_case_propagates Fixtures.fx_classes 4 None 0)
             _ _ eq_refl).
Defined.

(** C3, on a suite whose only setup hook raises and whose teardown hooks
    return. *)
Lemma setup_failure_runs_teardown_witness :
  let suite := Fixtures.suite_with [0; 1] [2; 0; 3] [4; 5] in
  run_test_suite Fixtures.fx_classes Fixtures.fx_hooks suite (Some tt) 0
  = (3, [EHook 2; EHook 0; EHook 4; EHook 5], Raised Fixtures.setup_failed).
Proof.
  exact (proj1 (setup_failure_runs_teardown Fixtures.fx_classes Fixtures.fx_hooks
                  (Fixtures.suite_with [0; 1] [2; 0; 3] [4; 5]) (Some tt)
                  0 1 3 [EHook 2; EHook 0] [EHook 4; EHook 5]
                  Fixtures.setup_failed (Returned tt) eq_refl eq_refl)).
Defined.

(** C3 as stated fails: the setup hook raises, the first teardown hook
    raises too, and then the second teardown hook is never called and the
    caller gets the teardown exception instead of the setup exception. *)
Lemma setup_failure_teardown_cut_short :
  let suite := Fixtures.suite_with [0] [0] [1; 2] in
  In 2 (_teardown_hooks suite) /\
  run_test_suite Fixtures.fx_classes Fixtures.fx_hooks suite (Some tt) 0
  = (0, [EHook 0; EHook 1], Raised Fixtures.teardown_failed) /\
  ~ In (@EHook unit 2) [EHook 0; EHook 1] /\
  Fixtures.teardown_failed <> Fixtures.setup_failed.
Proof.
  cbn. split; [auto|]. split; [reflexivity|]. split.
  - intros [H|[H|[]]]; discriminate.
  - discriminate.
Qed.

(** ** The group number  *)

Section GroupNumber.

Context {Env Controller : Type}.
Variable classes : ClassRef -> @TestCaseClass Env Controller.
Variable hooks : HookRef -> @Hook Env.

(** What the group number block computes, case by case. It returns in
    every case. *)
Lemma group_number_of_cases (cases : list ClassRef) (env : Env) :
  exists env' tr group_number,
    group_number_of classes cases env = (env', tr, Returned group_number) /\
    match cases with
    | [] => group_number = "0" /\ tr = [] /\ env' = env
    | first :: _ =>
        match cls_init (classes first) None env with
        | (env1, Returned temp_instance) =>
            env' = env1 /\
            match inst_number temp_instance with
            | Some number =>
                group_number = split_first "." number /\ tr = [EInit first None]
            | None =>
                group_number = "0" /\
                exists e, tr = [EInit first None; ELog WARNING (MsgTempInstanceFailed first e)]
            end
        | (env1, Raised e) =>
            env' = env1 /\ group_number = "0" /\
            tr = [EInit first None; ELog WARNING (MsgTempInstanceFailed first e)]
        end
    end.
Proof.
  destruct cases as [|first rest].
  - exists env, [], "0". simpl. auto.
  - unfold group_number_of, try_except, bind, construct, logging, tell, ret, raise.
    destruct (cls_init (classes first) None env) as [env1 [temp|e]].
    + destruct (inst_number temp) as [number|]; simpl.
      * eexists _, _, _. split; [reflexivity|]. auto.
      * eexists _, _, _. split; [reflexivity|]. eauto.
    + simpl. eexists _, _, _. split; [reflexivity|]. auto.
Qed.

(** The text before the first dot is the leading dotted segment, and
    nothing else is. *)
Lemma split_first_leading_segment (number : string) :
  leading_segment number (split_first "." number).
Proof.
  induction number as [|c r IH]; simpl.
  - split; [intros [] | now left].
  - destruct (Ascii.eqb c ".") eqn:E.
    + apply Ascii.eqb_eq in E. subst c. split; [intros [] | right; now exists r].
    + apply Ascii.eqb_neq in E. destruct IH as [Hdot Hrest]. split.
      * simpl. intros [H|H]; [congruence | exact (Hdot H)].
      * destruct Hrest as [Hr|[rest Hr]].
        -- left. simpl. now rewrite <- Hr.
        -- right. exists rest.
           transitivity (String c (split_first "." r +:+ "." +:+ rest));
             [now f_equal | reflexivity].
Qed.

Lemma leading_segment_unique (number s1 s2 : string) :
  leading_segment number s1 -> leading_segment number s2 -> s1 = s2.
Proof.
  revert s1 s2. induction number as [|c r IH]; intros s1 s2 [D1 H1] [D2 H2].
  - assert (E : forall s, (EmptyString = s \/ exists rest, EmptyString = s +:+ "." +:+ rest) ->
                          s = EmptyString).
    { intros [|a s]; [reflexivity|]. intros [H|[rest H]]; discriminate. }
    now rewrite (E s1 H1), (E s2 H2).
  - assert (E : forall s, ~ In "."%char (list_ascii_of_string s) ->
                (String c r = s \/ exists rest, String c r = s +:+ "." +:+ rest) ->
                (c = "."%char /\ s = EmptyString) \/
                (c <> "."%char /\ exists s', s = String c s' /\ leading_segment r s')).
    { intros [|a s] D H.
      - left. split; [|reflexivity]. destruct H as [H|[rest H]]; [discriminate|].
        simpl in H. now injection H.
      - right. simpl in D.
        assert (Ha : a = c) by (destruct H as [H|[rest H]]; simpl in H; now injection H).
        subst a. split; [intros ->; apply D; now left|].
        exists s. split; [reflexivity|]. split; [intros Hin; apply D; now right|].
        destruct H as [H|[rest H]]; simpl in H; injection H as H; eauto. }
    destruct (E s1 D1 H1) as [[Hc ->]|[Hc (s1' & -> & L1)]],
             (E s2 D2 H2) as [[Hc' ->]|[Hc' (s2' & -> & L2)]];
      try reflexivity; try contradiction.
    f_equal. exact (IH _ _ L1 L2).
Qed.

(** C2. Once the guarded part of [run_test_suite] (hooks and cases) has
    returned, [run_test_suite] returns a group: computing the number
    never raises. For an empty suite the number is "0". Otherwise it is
    the leading dotted segment of the [number] of an object of the first
    class, built with [None] as controller: the text before the first
    dot, which holds no dot and is followed in [number] by nothing or by a
    dot. When that object cannot be built, or has no such attribute, the
    number is "0" and a warning is logged. *)
Theorem run_test_suite_group_number (suite : TestSuite) (controller : option Controller)
    (env env1 : Env) (tr1 : list (@Event Controller)) (results : list models.TestCase) :
  run_suite_guarded classes hooks suite controller env = (env1, tr1, Returned results) ->
  exists env2 tr2 group_number,
    run_test_suite classes hooks suite controller env =
      (env2, tr1 ++ tr2,
       Returned (models.mkTestGroup group_number (suite_name suite)
                   (suite_description suite) (map models.ItemCase results))) /\
    match test_cases suite with
    | [] => group_number = "0"
    | first :: _ =>
        match cls_init (classes first) None env1 with
        | (_, Returned temp_instance) =>
            match inst_number temp_instance with
            | Some number =>
                group_number = split_first "." number /\
                leading_segment number group_number /\
                (forall segment, leading_segment number segment -> segment = group_number)
            | None => group_number = "0"
            end
        | (_, Raised _) => group_number = "0"
        end
    end.
Proof.
  intros Hg.
  destruct (group_number_of_cases (test_cases suite) env1)
    as (env2 & tr2 & n & Hn & Hcases).
  exists env2, tr2, n. split.
  - unfold run_test_suite, bind. rewrite Hg, Hn. unfold ret.
    now rewrite app_nil_r.
  - destruct (test_cases suite) as [|first rest]; [tauto|].
    destruct (cls_init (classes first) None env1) as [env' [temp|e]]; [|tauto].
    destruct (inst_number temp) as [number|]; [|tauto].
    destruct Hcases as (_ & -> & _).
    pose proof (split_first_leading_segment number) as Hseg.
    split; [reflexivity|]. split; [exact Hseg|].
    intros segment Hs. exact (leading_segment_unique _ _ _ Hs Hseg).
Qed.

End GroupNumber.

(** C2, on a suite whose first case has the dotted id 004.2, followed by
    004: the number is "004", the segment before the dot, and so it is for
    the suite with the two cases the other way round. *)
Lemma run_test_suite_group_number_witness :
  let dotted_first := Fixtures.suite_with [3; 2] [] [] in
  let plain_first := Fixtures.suite_with [2; 3] [] [] in
  (exists env1 tr1 results env2 tr2,
      run_suite_guarded Fixtures.fx_classes Fixtures.fx_hooks dotted_first (Some tt) 0
        = (env1, tr1, Returned results) /\
      map models.tc_number results = ["004.2"; "004"] /\
      run_test_suite Fixtures.fx_classes Fixtures.fx_hooks dotted_first (Some tt) 0
        = (env2, tr1 ++ tr2,
           Returned (models.mkTestGroup "004" "S" "" (map models.ItemCase results))) /\
      leading_segment "004.2" "004") /\
  (exists env1 tr1 results env2 tr2,
      run_suite_guarded Fixtures.fx_classes Fixtures.fx_hooks plain_first (Some tt) 0
        = (env1, tr1, Returned results) /\
      map models.tc_number results = ["004"; "004.2"] /\
      run_test_suite Fixtures.fx_classes Fixtures.fx_hooks plain_first (Some tt) 0
        = (env2, tr1 ++ tr2,
           Returned (models.mkTestGroup "004" "S" "" (map models.ItemCase results)))).
Proof.
  intros dotted_first plain_first. split.
  - destruct (run_test_suite_group_number Fixtures.fx_classes Fixtures.fx_hooks
                dotted_first (Some tt) 0 _ _ _ eq_refl)
      as (env2 & tr2 & n & Hrun & Hn).
    cbn in Hn. destruct Hn as (-> & Hseg & _).
    eexists _, _, _, env2, tr2. split; [reflexivity|]. split; [reflexivity|].
    split; [exact Hrun | exact Hseg].
  - destruct (run_test_suite_group_number Fixtures.fx_classes Fixtures.fx_hooks
                plain_first (Some tt) 0 _ _ _ eq_refl)
      as (env2 & tr2 & n & Hrun & Hn).
    cbn in Hn. destruct Hn as (-> & _).
    eexists _, _, _, env2, tr2. split; [reflexivity|]. split; [reflexivity | exact Hrun].
Defined.

Example group_number_empty_suite :
  models.number
    (match run_test_suite Fixtures.fx_classes Fixtures.fx_hooks
             (Fixtures.suite_with [] [] []) (Some tt) 0 with
     | (_, _, Returned g) => g
     | (_, _, Raised _) => models.mkTestGroup "raised" "" "" []
     end) = "0".
Proof. reflexivity. Qed.

Example group_number_constructor_needs_controller :
  run_test_suite Fixtures.fx_classes Fixtures.fx_hooks
    (Fixtures.suite_with [] [] []) (Some tt) 0
  = (0, [], Returned (models.mkTestGroup "0" "S" "" [])) /\
  (exists results tr,
      run_test_suite Fixtures.fx_classes Fixtures.fx_hooks
        (Fixtures.suite_with [4] [] []) (Some tt) 0
      = (2, tr ++ [EInit 4 None;
                   ELog WARNING (MsgTempInstanceFailed 4 Fixtures.init_failed)],
         Returned (models.mkTestGroup "0" "S" "" results))).
Proof. split; [reflexivity|]. eexists _, [_; _]. reflexivity. Qed.

(** ** Running selected test cases  *)

Lemma runs_of_app {Controller} (a b : list (@Event Controller)) :
  runs_of (a ++ b) = runs_of a ++ runs_of b.
Proof.
  induction a as [|ev a IH]; simpl; [reflexivity|].
  destruct ev; simpl; now rewrite ?IH.
Qed.

Lemma not_found_of_app {Controller} (a b : list (@Event Controller)) :
  not_found_of (a ++ b) = not_found_of a ++ not_found_of b.
Proof.
  induction a as [|ev a IH]; simpl; [reflexivity|].
  destruct ev as [[] []| | |]; simpl; now rewrite ?IH.
Qed.

Section SelectedExecution.

Context {Env Controller : Type}.
Variable classes : ClassRef -> @TestCaseClass Env Controller.
Variable d : TestDiscovery.
Variable controller : option Controller.

Lemma run_test_case_cases (c : ClassRef) (env env' : Env)
    (tr : list (@Event Controller)) (r : Outcome models.TestCase) :
  run_test_case classes c controller env = (env', tr, r) ->
  (exists e, r = Raised e /\ tr = [EInit c controller] /\
             cls_init (classes c) controller env = (env', Raised e)) \/
  (exists env1 test_case,
      cls_init (classes c) controller env = (env1, Returned test_case) /\
      cls_run (classes c) test_case env1 = (env', r) /\
      tr = [EInit c controller; ERun c]).
Proof.
  unfold run_test_case, bind, construct, call_run.
  destruct (cls_init (classes c) controller env) as [env1 [test_case|e]].
  - destruct (cls_run (classes c) test_case env1) as [env2 r'] eqn:Erun.
    intros [= <- <- <-]. right. exists env1, test_case. auto.
  - intros [= <- <- <-]. left. exists e. auto.
Qed.

Lemma run_selected_loop_cons (tc_id : string) (rest : list string) (env : Env) :
  run_selected_loop classes d (tc_id :: rest) controller env =
  match get_test_case d tc_id with
  | Some c =>
      match run_test_case classes c controller env with
      | (env1, t1, Returned result) =>
          match run_selected_loop classes d rest controller env1 with
          | (env2, t2, Returned acc) =>
              (env2, t1 ++ t2, Returned (result :: fst acc, c :: snd acc))
          | (env2, t2, Raised e) => (env2, t1 ++ t2, Raised e)
          end
      | (env1, t1, Raised e) => (env1, t1, Raised e)
      end
  | None =>
      match run_selected_loop classes d rest controller env with
      | (env2, t2, r) => (env2, ELog WARNING (MsgNotFound tc_id) :: t2, r)
      end
  end.
Proof.
  simpl. destruct (get_test_case d tc_id) as [c|].
  - unfold bind at 1.
    destruct (run_test_case classes c controller env) as [[env1 t1] [result|e]];
      [|reflexivity].
    unfold bind.
    destruct (run_selected_loop classes d rest controller env1) as [[env2 t2] [acc|e]];
      simpl; [now rewrite app_nil_r | reflexivity].
  - unfold bind, logging, tell.
    now destruct (run_selected_loop classes d rest controller env) as [[env2 t2] r].
Qed.

(** When the loop returns: the classes found and run are those the ids
    resolve to, in the order of the ids; one warning was logged for each
    id that does not resolve; there is one result per id that resolves. *)
Lemma run_selected_loop_returned (ids : list string) (env env' : Env)
    (tr : list (@Event Controller)) (acc : list models.TestCase * list ClassRef) :
  run_selected_loop classes d ids controller env = (env', tr, Returned acc) ->
  snd acc = found_classes d ids /\
  runs_of tr = found_classes d ids /\
  not_found_of tr = List.filter (fun i => negb (registered d i)) ids /\
  length (fst acc) = length (List.filter (registered d) ids) /\
  (reports_registered_id classes d ->
   map models.tc_number (fst acc) = List.filter (registered d) ids) /\
  Forall2 (result_of_class classes controller) (found_classes d ids) (fst acc).
Proof.
  revert env env' tr acc. induction ids as [|tc_id rest IH]; intros env env' tr acc.
  - intros [= <- <- <-]. simpl. repeat split; auto.
  - rewrite run_selected_loop_cons. unfold registered. simpl.
    destruct (get_test_case d tc_id) as [c|] eqn:Eget.
    + destruct (run_test_case classes c controller env) as [[env1 t1] [result|e]] eqn:Erun;
        [|discriminate].
      destruct (run_selected_loop classes d rest controller env1)
        as [[env2 t2] [acc'|e]] eqn:Eloop; [|discriminate].
      intros [= <- <- <-].
      destruct (IH _ _ _ _ Eloop) as (H1 & H2 & H3 & H4 & H5 & H6).
      destruct (run_test_case_cases _ _ _ _ _ Erun)
        as [(e & [=] & _)|(env0 & tcase & Hinit & Hrun & ->)].
      simpl. split; [congruence|]. split; [congruence|]. split; [now rewrite H3|].
      split; [now rewrite H4|]. split.
      * intros Hrep. rewrite (H5 Hrep).
        now rewrite (Hrep _ _ _ _ _ _ _ _ Eget Hinit Hrun).
      * constructor; [|exact H6]. exists env, env0, tcase, env1. auto.
    + destruct (run_selected_loop classes d rest controller env)
        as [[env2 t2] r] eqn:Eloop.
      intros [= <- <- ->].
      destruct (IH _ _ _ _ Eloop) as (H1 & H2 & H3 & H4 & H5 & H6).
      simpl. repeat split; try assumption. now rewrite H3.
Qed.

(** When the loop raises, the exception was raised by the constructor or
    by [run] of a class that a requested id resolves to. *)
Lemma run_selected_loop_raised (ids : list string) (env env' : Env)
    (tr : list (@Event Controller)) (e : Exn) :
  run_selected_loop classes d ids controller env = (env', tr, Raised e) ->
  exists tc_id c env1,
    In tc_id ids /\ get_test_case d tc_id = Some c /\
    (cls_init (classes c) controller env1 = (env', Raised e) \/
     exists test_case, cls_run (classes c) test_case env1 = (env', Raised e)).
Proof.
  revert env env' tr. induction ids as [|tc_id rest IH]; intros env env' tr.
  - discriminate.
  - rewrite run_selected_loop_cons.
    destruct (get_test_case d tc_id) as [c|] eqn:Eget.
    + destruct (run_test_case classes c controller env) as [[env1 t1] [result|e1]] eqn:Erun.
      * destruct (run_selected_loop classes d rest controller env1)
          as [[env2 t2] [acc'|e2]] eqn:Eloop; [discriminate|].
        intros [= <- <- <-].
        destruct (IH _ _ _ Eloop) as (i & c' & env0 & Hin & Hget & Hsrc).
        exists i, c', env0. split; [now right | auto].
      * intros [= <- <- <-].
        destruct (run_test_case_cases _ _ _ _ _ Erun)
          as [(e & [= <-] & _ & Hinit)|(env0 & tcase & Hinit & Hrun & _)].
        -- exists tc_id, c, env. split; [now left | auto].
        -- exists tc_id, c, env0. split; [now left | eauto].
    + destruct (run_selected_loop classes d rest controller env)
        as [[env2 t2] r] eqn:Eloop.
      intros [= <- <- ->].
      destruct (IH _ _ _ Eloop) as (i & c' & env0 & Hin & Hget & Hsrc).
      exists i, c', env0. split; [now right | auto].
Qed.

(** With no id resolving, the loop only logs. *)
Lemma run_selected_loop_all_missing (ids : list string) (env : Env) :
  (forall tc_id, In tc_id ids -> get_test_case d tc_id = None) ->
  run_selected_loop classes d ids controller env =
  (env, map (fun tc_id => ELog WARNING (MsgNotFound tc_id)) ids, Returned ([], [])).
Proof.
  intros Hnone. induction ids as [|tc_id rest IH]; [reflexivity|].
  rewrite run_selected_loop_cons, (Hnone tc_id (or_introl eq_refl)).
  rewrite IH; [reflexivity | intros; apply Hnone; now right].
Qed.

End SelectedExecution.

Section SelectedPipeline.

Context {Env Controller : Type}.
Variable classes : ClassRef -> @TestCaseClass Env Controller.

Lemma group_number_of_trace (cases : list ClassRef) (env env' : Env)
    (tr : list (@Event Controller)) (r : Outcome string) :
  group_number_of classes cases env = (env', tr, r) ->
  runs_of tr = [] /\ not_found_of tr = [] /\ exists group_number, r = Returned group_number.
Proof.
  destruct (group_number_of_cases classes cases env) as (env2 & tr2 & n & Hn & Hcases).
  rewrite Hn. intros [= <- <- <-].
  destruct cases as [|first rest].
  - destruct Hcases as (_ & -> & _). simpl. eauto.
  - destruct (cls_init (classes first) None env) as [env1 [temp|e]].
    + destruct Hcases as (_ & Hnum). destruct (inst_number temp).
      * destruct Hnum as (_ & ->). simpl. eauto.
      * destruct Hnum as (_ & e & ->). simpl. eauto.
    + destruct Hcases as (_ & _ & ->). simpl. eauto.
Qed.

Lemma run_selected_loop_ext (d1 d2 : TestDiscovery) (ids : list string)
    (controller : option Controller) (env : Env) :
  (forall tc_id, get_test_case d1 tc_id = get_test_case d2 tc_id) ->
  run_selected_loop classes d1 ids controller env =
  run_selected_loop classes d2 ids controller env.
Proof.
  intros Hsame. revert env. induction ids as [|tc_id rest IH]; intros env; [reflexivity|].
  rewrite !run_selected_loop_cons, Hsame.
  destruct (get_test_case d2 tc_id) as [c|].
  - destruct (run_test_case classes c controller env) as [[env1 t1] [result|e]];
      [|reflexivity].
    now rewrite IH.
  - now rewrite IH.
Qed.

Lemma run_selected_unfold (self : TestExecutionPipeline) (ids : list string)
    (controller : option Controller) (env : Env) :
  run_selected_test_cases classes self ids controller env =
  match run_selected_loop classes (_discovery self) ids controller env with
  | (env1, t1, Returned acc) =>
      match group_number_of classes (snd acc) env1 with
      | (env2, t2, Returned group_number) =>
          (env2, t1 ++ t2,
           Returned (models.mkTestGroup group_number "Selected Test Cases"
                       ("Test cases with IDs: " +:+ join ", " ids)
                       (map models.ItemCase (fst acc))))
      | (env2, t2, Raised e) => (env2, t1 ++ t2, Raised e)
      end
  | (env1, t1, Raised e) => (env1, t1, Raised e)
  end.
Proof.
  unfold run_selected_test_cases, bind at 1.
  destruct (run_selected_loop classes (_discovery self) ids controller env)
    as [[env1 t1] [acc|e]]; [|reflexivity].
  unfold bind, ret.
  destruct (group_number_of classes (snd acc) env1) as [[env2 t2] [n|e]];
    [now rewrite app_nil_r | reflexivity].
Qed.

(** C6. The [groupItems] of the group returned by
    [run_selected_test_cases] are, position by position, the results that
    [run] returned for the classes the requested ids resolve to, in the
    order of the request; the classes were run in that order. So, when
    every registered class reports the id it is registered under, the
    numbers of the items are the requested ids that resolve, in request
    order, and the request itself when all of it resolves. The order of
    the entries of the registry plays no part: a pipeline whose registry
    resolves every id to the same class gives the same outcome. *)
Theorem run_selected_keeps_request_order (self : TestExecutionPipeline)
    (ids : list string) (controller : option Controller) (env env' : Env)
    (tr : list (@Event Controller)) (g : models.TestGroup) :
  run_selected_test_cases classes self ids controller env = (env', tr, Returned g) ->
  (exists results,
      models.groupItems g = map models.ItemCase results /\
      Forall2 (result_of_class classes controller)
              (found_classes (_discovery self) ids) results) /\
  runs_of tr = found_classes (_discovery self) ids /\
  (reports_registered_id classes (_discovery self) ->
   map item_number (models.groupItems g) = List.filter (registered (_discovery self)) ids /\
   (Forall (fun tc_id => registered (_discovery self) tc_id = true) ids ->
    map item_number (models.groupItems g) = ids)) /\
  (forall other : TestExecutionPipeline,
      (forall tc_id, get_test_case (_discovery other) tc_id
                     = get_test_case (_discovery self) tc_id) ->
      run_selected_test_cases classes other ids controller env = (env', tr, Returned g)).
Proof.
  intros Hrun.
  assert (Hext : forall other : TestExecutionPipeline,
             (forall tc_id, get_test_case (_discovery other) tc_id
                            = get_test_case (_discovery self) tc_id) ->
             run_selected_test_cases classes other ids controller env = (env', tr, Returned g)).
  { intros other Hsame. rewrite <- Hrun, !run_selected_unfold.
    now rewrite (run_selected_loop_ext _ _ _ _ _ Hsame). }
  rewrite run_selected_unfold in Hrun.
  destruct (run_selected_loop classes (_discovery self) ids controller env)
    as [[env1 t1] [acc|e]] eqn:Eloop; [|discriminate].
  destruct (group_number_of classes (snd acc) env1) as [[env2 t2] [n|e]] eqn:Egn;
    [|discriminate].
  injection Hrun as <- <- <-.
  destruct (run_selected_loop_returned _ _ _ _ _ _ _ _ Eloop)
    as (_ & Hruns & _ & _ & Hnum & Hpos).
  destruct (group_number_of_trace _ _ _ _ _ Egn) as (Hr2 & _ & _).
  split; [exists (fst acc); split; [reflexivity | exact Hpos]|].
  split; [now rewrite runs_of_app, Hr2, app_nil_r|].
  split; [|exact Hext].
  intros Hrep.
  assert (Hitems : map item_number (models.groupItems
            (models.mkTestGroup n "Selected Test Cases"
               ("Test cases with IDs: " +:+ join ", " ids)
               (map models.ItemCase (fst acc))))
          = List.filter (registered (_discovery self)) ids).
  { simpl. rewrite map_map. simpl. apply Hnum, Hrep. }
  split; [exact Hitems|].
  intros Hall. rewrite Hitems. clear -Hall.
  induction Hall as [|i l Hi Hl IH]; simpl; [reflexivity|]. now rewrite Hi, IH.
Qed.

(** C7. Ids that do not resolve are logged and skipped. When no requested
    id resolves, [run_selected_test_cases] returns a group with number
    "0" and no [groupItems], having logged one warning per id and done
    nothing else. In general, when it returns, it has logged exactly one
    not-found warning per id that does not resolve, in request order, and
    the group has one item per id that resolves; when it raises, the
    exception comes from the constructor or [run] of a class that a
    requested id resolves to, never from an id that does not resolve. *)
Theorem run_selected_skips_unknown_ids (self : TestExecutionPipeline)
    (ids : list string) (controller : option Controller) (env : Env) :
  ((forall tc_id, In tc_id ids -> get_test_case (_discovery self) tc_id = None) ->
   run_selected_test_cases classes self ids controller env =
   (env, map (fun tc_id => ELog WARNING (MsgNotFound tc_id)) ids,
    Returned (models.mkTestGroup "0" "Selected Test Cases"
                ("Test cases with IDs: " +:+ join ", " ids) []))) /\
  (forall env' tr r,
      run_selected_test_cases classes self ids controller env = (env', tr, r) ->
      match r with
      | Returned g =>
          not_found_of tr
            = List.filter (fun i => negb (registered (_discovery self) i)) ids /\
          length (models.groupItems g)
            = length (List.filter (registered (_discovery self)) ids)
      | Raised e =>
          exists tc_id c env1,
            In tc_id ids /\ get_test_case (_discovery self) tc_id = Some c /\
            (cls_init (classes c) controller env1 = (env', Raised e) \/
             exists test_case, cls_run (classes c) test_case env1 = (env', Raised e))
      end).
Proof.
  split.
  - intros Hnone. rewrite run_selected_unfold.
    rewrite (run_selected_loop_all_missing _ _ _ _ _ Hnone). simpl.
    now rewrite app_nil_r.
  - intros env' tr r. rewrite run_selected_unfold.
    destruct (run_selected_loop classes (_discovery self) ids controller env)
      as [[env1 t1] [acc|e]] eqn:Eloop.
    + destruct (group_number_of classes (snd acc) env1) as [[env2 t2] r2] eqn:Egn.
      destruct (group_number_of_trace _ _ _ _ _ Egn) as (_ & Hnf & n & ->).
      intros [= <- <- <-].
      destruct (run_selected_loop_returned _ _ _ _ _ _ _ _ Eloop) as (_ & _ & H3 & H4 & _).
      simpl. rewrite not_found_of_app, Hnf, app_nil_r, length_map. auto.
    + intros [= <- <- <-]. exact (run_selected_loop_raised _ _ _ _ _ _ _ _ Eloop).
Qed.

End SelectedPipeline.

(** C6, on the request 002 then 001 against a registry that lists 001
    first. *)
Lemma fixtures_report_registered_id :
  reports_registered_id Fixtures.fx_classes Fixtures.fx_discovery.
Proof.
  intros tc_id c controller env env1 test_case env2 result Hget Hinit Hrun.
  unfold get_test_case in Hget. simpl in Hget.
  destruct (String.eqb tc_id "001") eqn:E1.
  - apply String.eqb_eq in E1. injection Hget as <-. subst tc_id.
    simpl in Hinit. injection Hinit as <- <-.
    simpl in Hrun. injection Hrun as _ <-. reflexivity.
  - destruct (String.eqb tc_id "002") eqn:E2; [|discriminate].
    apply String.eqb_eq in E2. injection Hget as <-. subst tc_id.
    simpl in Hinit. injection Hinit as <- <-.
    simpl in Hrun. injection Hrun as _ <-. reflexivity.
Qed.

Lemma run_selected_keeps_request_order_witness :
  exists env' tr g,
    run_selected_test_cases Fixtures.fx_classes Fixtures.fx_pipeline
      ["002"; "001"] (Some tt) 0 = (env', tr, Returned g) /\
    map item_number (models.groupItems g) = ["002"; "001"] /\
    runs_of tr = [1; 0] /\
    run_selected_test_cases Fixtures.fx_classes
      (TestExecutionPipeline_init Fixtures.fx_discovery_swapped)
      ["002"; "001"] (Some tt) 0 = (env', tr, Returned g).
Proof.
  eexists _, _, _. split; [reflexivity|].
  destruct (run_selected_keeps_request_order Fixtures.fx_classes Fixtures.fx_pipeline
              ["002"; "001"] (Some tt) 0 _ _ _ eq_refl)
    as (_ & Hruns & Hnumbers & Hext).
  split; [apply (Hnumbers fixtures_report_registered_id); repeat constructor|].
  split; [exact Hruns|].
  apply Hext. intros tc_id. unfold get_test_case. simpl.
  destruct (String.eqb tc_id "002") eqn:E2; [|reflexivity].
  apply String.eqb_eq in E2. subst tc_id. reflexivity.
Defined.

(** C7, on the request 999. *)
Lemma run_selected_skips_unknown_ids_witness :
  run_selected_test_cases Fixtures.fx_classes Fixtures.fx_pipeline ["999"] (Some tt) 0
  = (0, [ELog WARNING (MsgNotFound "999")],
     Returned (models.mkTestGroup "0" "Selected Test Cases"
                 "Test cases with IDs: 999" [])).
Proof.
  apply (proj1 (run_selected_skips_unknown_ids Fixtures.fx_classes Fixtures.fx_pipeline
                  ["999"] (Some tt) 0)).
  intros tc_id [<-|[]]. reflexivity.
Defined.

Example not_found_message :
  render Fixtures.fx_classes (MsgNotFound "999") = "Test case with ID 999 not found".
Proof. reflexivity. Qed.

Example run_selected_partial_match :
  exists env' tr g,
    run_selected_test_cases Fixtures.fx_classes Fixtures.fx_pipeline
      ["999"; "002"; "abc"] (Some tt) 0 = (env', tr, Returned g) /\
    logged_at WARNING tr = [MsgNotFound "999"; MsgNotFound "abc"] /\
    map item_number (models.groupItems g) = ["002"] /\
    models.number g = "002".
Proof. eexists _, _, _. split; [reflexivity|]. repeat split. Qed.

(** ** Running all suites  *)

Section AllSuites.

Context {Env Controller : Type}.
Variable classes : ClassRef -> @TestCaseClass Env Controller.
Variable hooks : HookRef -> @Hook Env.
Variable controller : option Controller.

Lemma collect_suites_returned (items : list (string * TestSuite)) (env env1 : Env)
    (t : list (@Event Controller)) (gs : list models.TestGroup) :
  collect items (fun item => run_test_suite classes hooks (snd item) controller) env
    = (env1, t, Returned gs) ->
  suites_run_in_order classes hooks controller (map snd items) env env1 t gs.
Proof.
  revert env env1 t gs. induction items as [|item rest IH]; intros env env1 t gs.
  - intros [= <- <- <-]. constructor.
  - simpl. unfold bind at 1.
    destruct (run_test_suite classes hooks (snd item) controller env)
      as [[env2 t2] [g|e]] eqn:Esuite; [|discriminate].
    unfold bind, ret.
    destruct (collect rest _ env2) as [[env3 t3] [gs'|e]] eqn:Erest; [|discriminate].
    intros [= <- <- <-]. rewrite app_nil_r.
    econstructor; [exact Esuite | apply IH, Erest].
Qed.

Lemma collect_suites_raised (items : list (string * TestSuite)) (env env1 : Env)
    (t : list (@Event Controller)) (e : Exn) :
  collect items (fun item => run_test_suite classes hooks (snd item) controller) env
    = (env1, t, Raised e) ->
  exists finished suite rest env_mid tr_finished groups tr_last,
    map snd items = finished ++ suite :: rest /\
    suites_run_in_order classes hooks controller finished env env_mid tr_finished groups /\
    run_test_suite classes hooks suite controller env_mid = (env1, tr_last, Raised e) /\
    t = tr_finished ++ tr_last.
Proof.
  revert env env1 t. induction items as [|item rest IH]; intros env env1 t; [discriminate|].
  simpl. unfold bind at 1.
  destruct (run_test_suite classes hooks (snd item) controller env)
    as [[env2 t2] [g|e2]] eqn:Esuite.
  - unfold bind, ret.
    destruct (collect rest _ env2) as [[env3 t3] [gs'|e3]] eqn:Erest; [discriminate|].
    intros [= <- <- <-].
    destruct (IH _ _ _ Erest)
      as (finished & suite & rest' & env_mid & trf & groups & trl & Hsplit & Hfin & Hlast & ->).
    exists (snd item :: finished), suite, rest', env_mid, (t2 ++ trf), (g :: groups), trl.
    rewrite Hsplit, app_assoc. repeat split; [|exact Hlast].
    econstructor; eassumption.
  - intros [= <- <- <-].
    exists [], (snd item), (map snd rest), env, [], [], t2.
    repeat split; [constructor | exact Esuite].
Qed.

Lemma suites_run_in_order_groups (suites : list TestSuite) (env env1 : Env)
    (t : list (@Event Controller)) (gs : list models.TestGroup) :
  suites_run_in_order classes hooks controller suites env env1 t gs ->
  map models.name gs = map suite_name suites.
Proof.
  induction 1 as [|suite rest env env1 env2 t1 t2 g gs Hrun _ IH]; [reflexivity|].
  simpl. rewrite IH. f_equal.
  unfold run_test_suite, bind in Hrun.
  destruct (run_suite_guarded classes hooks suite controller env) as [[e1 u1] [res|e]];
    [|discriminate].
  destruct (group_number_of classes (test_cases suite) e1) as [[e2 u2] [n|e]];
    [|discriminate].
  unfold ret in Hrun. injection Hrun as _ _ <-. reflexivity.
Qed.

(** C8 (as the code has it). [run_all_test_suites] is its [try] block
    followed, however the block ended, by the loop over the global
    teardown hooks, started in the world the block left. In the block the
    global setup hooks are called in order, each in the world the one
    before left, before any suite; when they all returned, the suites of
    the registry are run through [run_test_suite] in the insertion order
    of the registry: all of them when the block returns, giving one group
    per suite in that order, or up to the suite an exception escapes from.
    When every global teardown hook returns, each was called once, in
    order, and the outcome is the block's: its groups, or the exception
    that escaped. When a global teardown hook raises, the hooks after it
    are not called and its exception is the outcome, in place of the
    groups or of the exception that had escaped. *)
Theorem run_all_test_suites_phases (self : TestExecutionPipeline) (env env' : Env)
    (tr : list (@Event Controller)) (r : Outcome (list models.TestGroup)) :
  run_all_test_suites classes hooks self controller env = (env', tr, r) ->
  let suites := OrderedDict.values (_test_suites (_discovery self)) in
  let setup := _global_setup_hooks self in
  let teardown := _global_teardown_hooks self in
  exists env1 tr_body r_body tr_teardown r_teardown,
    run_all_body classes hooks self controller env = (env1, tr_body, r_body) /\
    run_hooks hooks teardown env1 = (env', tr_teardown, r_teardown) /\
    tr = tr_body ++ tr_teardown /\
    match r_teardown with
    | Returned _ =>
        hooks_return_in_order hooks teardown env1 env' /\
        tr_teardown = map EHook teardown /\ r = r_body
    | Raised e =>
        r = Raised e /\
        exists before h after env_mid,
          teardown = before ++ h :: after /\
          hooks_return_in_order hooks before env1 env_mid /\
          hooks h env_mid = (env', Raised e) /\
          tr_teardown = map EHook (before ++ [h])
    end /\
    match r_body with
    | Returned groups =>
        exists env0 tr_suites,
          hooks_return_in_order hooks setup env env0 /\
          suites_run_in_order classes hooks controller suites env0 env1 tr_suites groups /\
          tr_body = map EHook setup ++ tr_suites /\
          map models.name groups = map suite_name suites
    | Raised e =>
        (exists before h after env_mid,
            setup = before ++ h :: after /\
            hooks_return_in_order hooks before env env_mid /\
            hooks h env_mid = (env1, Raised e) /\
            tr_body = map EHook (before ++ [h])) \/
        (exists env0 finished suite rest env_mid tr_finished groups tr_last,
            hooks_return_in_order hooks setup env env0 /\
            suites = finished ++ suite :: rest /\
            suites_run_in_order classes hooks controller
              finished env0 env_mid tr_finished groups /\
            run_test_suite classes hooks suite controller env_mid
              = (env1, tr_last, Raised e) /\
            tr_body = map EHook setup ++ tr_finished ++ tr_last)
    end.
Proof.
  unfold run_all_test_suites, try_finally.
  destruct (run_all_body classes hooks self controller env) as [[env1 tr_body] r_body] eqn:Ebody.
  destruct (run_hooks hooks (_global_teardown_hooks self) env1)
    as [[env2 tr_td] r_td] eqn:Etd.
  intros Hrun. cbv zeta. exists env1, tr_body, r_body, tr_td, r_td.
  pose proof (run_hooks_world hooks _ _ _ _ _ Etd) as Htd.
  assert (Hres : env' = env2 /\ tr = tr_body ++ tr_td /\
                 r = match r_td with Returned _ => r_body | Raised e => Raised e end).
  { destruct r_td; injection Hrun as <- <- <-; auto. }
  destruct Hres as (-> & -> & ->).
  split; [reflexivity|]. split; [exact Etd|]. split; [reflexivity|]. split.
  - destruct r_td as [u|e]; [tauto|].
    destruct Htd as (before & h & after & env_mid & ? & ? & ? & ?). eauto 10.
  - unfold run_all_body, bind in Ebody.
    destruct (run_hooks hooks (_global_setup_hooks self) env)
      as [[env0 tr_setup] [[]|e0]] eqn:Esetup.
    + destruct (collect _ _ env0) as [[env3 tr_suites] r3] eqn:Ecollect.
      injection Ebody as -> <- ->.
      destruct (run_hooks_world hooks _ _ _ _ _ Esetup) as [Hworld ->].
      destruct r_body as [groups|e].
      * pose proof (collect_suites_returned _ _ _ _ _ Ecollect) as Hsuites.
        exists env0, tr_suites. repeat split; try assumption.
        exact (suites_run_in_order_groups _ _ _ _ _ Hsuites).
      * right.
        destruct (collect_suites_raised _ _ _ _ _ Ecollect)
          as (finished & suite & rest & env_mid & trf & groups & trl
              & Hsplit & Hfin & Hlast & ->).
        exists env0, finished, suite, rest, env_mid, trf, groups, trl. auto.
    + injection Ebody as <- <- <-. left.
      destruct (run_hooks_world hooks _ _ _ _ _ Esetup)
        as (before & h & after & env_mid & ? & ? & ? & ?). eauto 10.
Qed.

End AllSuites.

(** C8, on a registry whose second suite lets an exception escape: the
    global setup hook 2 and the suites A and B are run, the third suite
    is not, and the global teardown hooks 3 and 4 are called after the
    exception escaped, each in the world the call before it left (the
    world counts the foreign calls that returned: one hook, two
    constructors and one [run], one temporary instance, then the two
    teardown hooks). *)
Lemma run_all_test_suites_phases_witness :
  let self := Fixtures.pipeline_with Fixtures.fx_suites_violating [2] [3; 4] in
  exists tr_body,
    run_all_test_suites Fixtures.fx_classes Fixtures.fx_hooks self (Some tt) 0
      = (7, tr_body ++ [EHook 3; EHook 4], Raised Fixtures.run_failed) /\
    hooks_return_in_order Fixtures.fx_hooks [3; 4] 5 7 /\
    hooks_of tr_body = [2] /\
    runs_of tr_body = [0; 5].
Proof.
  intros self.
  destruct (run_all_test_suites_phases Fixtures.fx_classes Fixtures.fx_hooks (Some tt)
              self 0 _ _ _ eq_refl)
    as (env1 & tr_body & r_body & tr_td & r_td & Hbody & Htd & Htr & Hout & _).
  vm_compute in Hbody. injection Hbody as <- <- <-.
  vm_compute in Htd. injection Htd as <- <-.
  destruct Hout as (Hworld & _ & _).
  eexists. split; [reflexivity|]. split; [exact Hworld|]. split; reflexivity.
Defined.

(** C8 as stated fails: the global setup hook and both suites return,
    the first global teardown hook raises, and then the second global
    teardown hook is never called and the caller gets the exception
    instead of the two groups. *)
Lemma global_teardown_cut_short :
  let self := Fixtures.pipeline_with Fixtures.fx_suites [2] [1; 5] in
  In 5 (_global_teardown_hooks self) /\
  (exists env1 tr_body groups,
      run_all_body Fixtures.fx_classes Fixtures.fx_hooks self (Some tt) 0
        = (env1, tr_body, Returned groups) /\
      map models.name groups = ["A"; "B"]) /\
  exists env' tr,
    run_all_test_suites Fixtures.fx_classes Fixtures.fx_hooks self (Some tt) 0
      = (env', tr, Raised Fixtures.teardown_failed) /\
    hooks_of tr = [2; 1] /\
    runs_of tr = [0; 1; 2] /\
    ~ In (@EHook unit 5) tr.
Proof.
  cbn zeta. split; [simpl; auto|]. split.
  - eexists _, _, _. split; [reflexivity|]. reflexivity.
  - eexists _, _. split; [reflexivity|]. split; [reflexivity|]. split; [reflexivity|].
    intros H. repeat (destruct H as [H|H]; [discriminate|]). exact H.
Qed.

Example run_all_normal_completion :
  let self := Fixtures.pipeline_with Fixtures.fx_suites [2] [3; 4] in
  exists env' tr groups,
    run_all_test_suites Fixtures.fx_classes Fixtures.fx_hooks self (Some tt) 0
      = (env', tr, Returned groups) /\
    map models.name groups = ["A"; "B"] /\
    map models.number groups = ["001"; "002"] /\
    map (fun g => map item_number (models.groupItems g)) groups = [["001"]; ["002"; "004"]] /\
    tr = [EHook 2;
          EInit 0 (Some tt); ERun 0; EInit 0 None;
          EInit 1 (Some tt); ERun 1; EInit 2 (Some tt); ERun 2; EInit 1 None;
          EHook 3; EHook 4].
Proof. eexists _, _, _. split; [reflexivity|]. repeat split. Qed.

(** ** Discovery  *)

Lemma Package_nested_ind (P : Package -> Prop) :
  (forall e, P (PackageRaises e)) ->
  (forall entries,
      Forall (fun entry => match snd entry with
                           | SubPackage p => P p
                           | IsModule _ => True
                           end) entries ->
      P (PackageOk entries)) ->
  forall package, P package.
Proof.
  intros Hraise Hok. fix IH 1. intros [e|entries]; [apply Hraise|].
  apply Hok. induction entries as [|[module_name [p|m]] rest IHrest].
  - constructor.
  - constructor; [apply IH | exact IHrest].
  - constructor; [exact I | exact IHrest].
Qed.

Lemma last_registration_app {Controller} (tc_id : string) (a b : list (@Event Controller)) :
  last_registration tc_id (a ++ b) =
  match last_registration tc_id b with
  | Some obj => Some obj
  | None => last_registration tc_id a
  end.
Proof.
  induction a as [|ev a IH]; simpl.
  - now destruct (last_registration tc_id b).
  - rewrite IH. now destruct (last_registration tc_id b).
Qed.


Lemma logged_at_app {Controller} (lvl : Level) (a b : list (@Event Controller)) :
  logged_at lvl (a ++ b) = logged_at lvl a ++ logged_at lvl b.
Proof.
  induction a as [|ev a IH]; simpl; [reflexivity|].
  destruct ev as [l m| | |]; [|assumption..].
  destruct l, lvl; simpl; now rewrite ?IH.
Qed.

Section RegistrySteps.

Context {Controller : Type}.

Lemma registry_step_refl (d : TestDiscovery) : registry_step (Controller := Controller) d [] d.
Proof. repeat split; auto. Qed.

Lemma registry_step_trans (d0 d1 d2 : TestDiscovery) (t1 t2 : list (@Event Controller)) :
  registry_step d0 t1 d1 -> registry_step d1 t2 d2 -> registry_step d0 (t1 ++ t2) d2.
Proof.
  intros (N1 & G1 & W1) (N2 & G2 & W2). repeat split.
  - auto.
  - intros tc_id. rewrite G2, last_registration_app.
    destruct (last_registration tc_id t2); [reflexivity | apply G1].
  - now rewrite logged_at_app, W1, W2.
Qed.

Lemma faithful_ret {A} (a : A) : registers_faithfully (Controller := Controller) (ret a).
Proof. intros d. apply registry_step_refl. Qed.

Lemma faithful_raise {A} (e : Exn) :
  registers_faithfully (Controller := Controller) (raise (A := A) e).
Proof. intros d. apply registry_step_refl. Qed.

Lemma faithful_get_state : registers_faithfully (Controller := Controller) get_state.
Proof. intros d. apply registry_step_refl. Qed.

Lemma faithful_bind {A B} (m : @M Controller TestDiscovery A) (k : A -> M TestDiscovery B) :
  registers_faithfully m -> (forall a, registers_faithfully (k a)) ->
  registers_faithfully (bind m k).
Proof.
  intros Hm Hk d. specialize (Hm d). unfold bind.
  destruct (m d) as [[d1 t1] [a|e]]; simpl in *; [|exact Hm].
  specialize (Hk a d1). destruct (k a d1) as [[d2 t2] r]. simpl in *.
  eapply registry_step_trans; eassumption.
Qed.

Lemma faithful_try_except {A} (body : @M Controller TestDiscovery A)
    (handler : Exn -> M TestDiscovery A) :
  registers_faithfully body -> (forall e, registers_faithfully (handler e)) ->
  registers_faithfully (try_except body handler).
Proof.
  intros Hb Hh d. specialize (Hb d). unfold try_except.
  destruct (body d) as [[d1 t1] [a|e]]; simpl in *; [exact Hb|].
  specialize (Hh e d1). destruct (handler e d1) as [[d2 t2] r]. simpl in *.
  eapply registry_step_trans; eassumption.
Qed.

Lemma faithful_for_each {A} (xs : list A) (body : A -> @M Controller TestDiscovery unit) :
  (forall x, registers_faithfully (body x)) -> registers_faithfully (for_each xs body).
Proof.
  intros Hbody. induction xs as [|x xs IH]; simpl.
  - apply faithful_ret.
  - apply faithful_bind; auto.
Qed.

(** A state change that leaves the id map alone. *)
Lemma faithful_modify (f : TestDiscovery -> TestDiscovery) :
  (forall d, _test_cases (f d) = _test_cases d) ->
  registers_faithfully (Controller := Controller) (modify f).
Proof.
  intros Hf d. unfold modify, registry_step, get_test_case. simpl. rewrite Hf. auto.
Qed.

(** A log record that is neither a warning nor a registration. *)
Lemma faithful_logging (lvl : Level) (m : LogMsg) :
  lvl <> WARNING -> (forall tc_id obj, m <> MsgDiscoveredCase tc_id obj) ->
  registers_faithfully (Controller := Controller) (logging lvl m).
Proof.
  intros Hl Hm d. unfold logging, tell, registry_step. simpl. repeat split; auto.
  - intros tc_id. destruct lvl; try reflexivity. destruct m; try reflexivity.
    now destruct (Hm tc_id0 obj).
  - now destruct lvl.
Qed.

(** The assignment [self._test_cases[tc_id] = obj] with its debug record. *)
Lemma faithful_register {A} (tc_id : string) (obj : ClassRef)
    (rest : @M Controller TestDiscovery A) :
  registers_faithfully rest ->
  registers_faithfully
    (bind (modify (set_test_case tc_id obj))
          (fun _ => bind (logging DEBUG (MsgDiscoveredCase tc_id obj)) (fun _ => rest))).
Proof.
  intros Hrest d. unfold bind, modify, logging, tell.
  specialize (Hrest (set_test_case tc_id obj d)).
  destruct (rest (set_test_case tc_id obj d)) as [[d2 t2] r]. simpl in *.
  apply (registry_step_trans d (set_test_case tc_id obj d) d2
           [ELog DEBUG (MsgDiscoveredCase tc_id obj)] t2);
    [|exact Hrest].
  unfold registry_step, get_test_case, set_test_case. simpl. repeat split.
  - apply od_NoDup_keys_set.
  - intros i. destruct (String.eqb tc_id i) eqn:E.
    + apply String.eqb_eq in E. subst i. apply od_get_set_eq.
    + apply String.eqb_neq in E. apply od_get_set_ne. congruence.
Qed.

End RegistrySteps.

Section DiscoveryProperties.

Context {Env Controller : Type}.
Variable classes : ClassRef -> @TestCaseClass Env Controller.

Lemma faithful_register_member (module_name : string) (obj : ClassRef) :
  registers_faithfully (Controller := Controller) (register_member classes module_name obj).
Proof.
  unfold register_member. apply faithful_register.
  apply faithful_bind.
  - destruct (cls_categories (classes obj)).
    + apply faithful_ret.
    + apply faithful_for_each. intros category. now apply faithful_modify.
    + apply faithful_raise.
    + apply faithful_bind; [|intros _; apply faithful_raise].
      apply faithful_for_each. intros category. now apply faithful_modify.
  - intros _. destruct (cls_suite (classes obj)) as [[suite_name|type_name]|].
    + now apply faithful_modify.
    + apply faithful_raise.
    + now apply faithful_modify.
Qed.

Lemma faithful_process_module (module_name module_path : string) (m : ModuleImport) :
  registers_faithfully (Controller := Controller)
    (process_module classes module_name module_path m).
Proof.
  unfold process_module. apply faithful_try_except.
  - destruct m as [e|members]; [apply faithful_raise|].
    apply faithful_for_each. intros [member_name [obj| |]]; simpl.
    + apply faithful_register_member.
    + apply faithful_ret.
    + apply faithful_ret.
  - intros e. destruct (exn_type e); now apply faithful_logging.
Qed.

Lemma faithful_discover (package : Package) :
  forall package_name,
    registers_faithfully (Controller := Controller)
      (discover_test_cases classes package package_name).
Proof.
  induction package as [e|entries IH] using Package_nested_ind; intros package_name; simpl.
  - apply faithful_bind; [now apply faithful_logging | intros _; apply faithful_raise].
  - apply faithful_bind; [now apply faithful_logging | intros _].
    apply faithful_bind.
    + induction IH as [|[module_name [p|m]] rest Hentry _ IHrest]; simpl.
      * apply faithful_ret.
      * apply faithful_bind; [apply Hentry | intros _; exact IHrest].
      * apply faithful_bind; [|intros _; exact IHrest].
        destruct (String.prefix "tc_hmp_" module_name);
          [apply faithful_process_module | apply faithful_ret].
    + intros _. apply faithful_bind; [apply faithful_get_state|].
      intros self. now apply faithful_logging.
Qed.

(** Only the import of a package can make discovery raise. *)
Lemma discover_returns (package : Package) :
  forall package_name d,
    packages_import package = true ->
    snd (discover_test_cases (Controller := Controller) classes package package_name d)
    = Returned tt.
Proof.
  assert (Hmod : forall module_name module_path m d,
             exists d1 t1,
               process_module (Controller := Controller) classes module_name module_path m d
               = (d1, t1, Returned tt)).
  { intros module_name module_path m d. unfold process_module, try_except.
    destruct m as [e|members].
    - unfold raise. destruct (exn_type e); simpl; eauto.
    - destruct (for_each members _ d) as [[d1 t1] [[]|e]]; [eauto|].
      destruct (exn_type e); simpl; eauto. }
  induction package as [e|entries IH] using Package_nested_ind;
    intros package_name d; simpl; [discriminate|].
  intros Himp. unfold bind at 1. simpl. unfold bind at 1.
  assert (Hscan : forall d0, exists d1 t1,
             scan_entries (Controller := Controller) classes (discover_test_cases classes)
               package_name entries d0 = (d1, t1, Returned tt)).
  { clear d. revert Himp.
    induction IH as [|[module_name [p|m]] rest Hentry _ IHrest]; intros Himp d0; simpl.
    - eexists _, _. reflexivity.
    - simpl in Himp. apply andb_prop in Himp. destruct Himp as [Hp Hrest].
      unfold bind. specialize (Hentry (package_name +:+ "." +:+ module_name) d0 Hp).
      destruct (discover_test_cases classes p _ d0) as [[d1 t1] r]. simpl in Hentry. subst r.
      destruct (IHrest Hrest d1) as (d2 & t2 & ->). eauto.
    - simpl in Himp. unfold bind.
      destruct (String.prefix "tc_hmp_" module_name).
      + destruct (Hmod module_name (package_name +:+ "." +:+ module_name) m d0)
          as (d1 & t1 & ->).
        destruct (IHrest Himp d1) as (d2 & t2 & ->). eauto.
      + simpl. destruct (IHrest Himp d0) as (d2 & t2 & ->). eauto. }
  destruct (Hscan d) as (d1 & t1 & ->). reflexivity.
Qed.


End DiscoveryProperties.



Example discovery_log :
  exists d1 tr,
    discover_test_cases Fixtures.fx_classes Fixtures.fx_package "pkg" TestDiscovery_init
    = (d1, tr, Returned tt) /\
    map (render Fixtures.fx_classes) (logged_at INFO tr ++ logged_at ERROR tr) =
      [ "Discovering test cases in package: pkg";
        "Discovering test cases in package: pkg.extra";
        "Discovered 2 test cases in 3 suites";
        "Discovered 2 test cases in 3 suites";
        "Error importing module pkg.tc_hmp_009: No module named 'x'" ] /\
    OrderedDict.keys (_test_suites d1)
      = ["Basic Connectivity"; "Data Retrieval"; "O-RU Configuration"].
Proof. eexists _, _. split; [reflexivity|]. split; reflexivity. Qed.

(* ===================================================================== *)
(** * Further properties of discovery  *)
(* ===================================================================== *)

(** ** Relations that every step of discovery keeps  *)

Section StepClosure.

Context {Env Controller : Type}.
Variable classes : ClassRef -> @TestCaseClass Env Controller.
Variable R : TestDiscovery -> list (@Event Controller) -> TestDiscovery -> Prop.
Hypothesis R_refl : forall d, R d [] d.
Hypothesis R_trans : forall d0 d1 d2 t1 t2, R d0 t1 d1 -> R d1 t2 d2 -> R d0 (t1 ++ t2) d2.

Lemma respects_ret {A} (a : A) : respects R (ret a).
Proof. intros d. apply R_refl. Qed.

Lemma respects_raise {A} (e : Exn) : respects R (raise (A := A) e).
Proof. intros d. apply R_refl. Qed.

Lemma respects_get_state : respects R get_state.
Proof. intros d. apply R_refl. Qed.

Lemma respects_bind {A B} (m : M TestDiscovery A) (k : A -> M TestDiscovery B) :
  respects R m -> (forall a, respects R (k a)) -> respects R (bind m k).
Proof.
  intros Hm Hk d. specialize (Hm d). unfold bind.
  destruct (m d) as [[d1 t1] [a|e]]; simpl in *; [|exact Hm].
  specialize (Hk a d1). destruct (k a d1) as [[d2 t2] r]. simpl in *.
  eapply R_trans; eassumption.
Qed.

Lemma respects_try_except {A} (body : M TestDiscovery A) (handler : Exn -> M TestDiscovery A) :
  respects R body -> (forall e, respects R (handler e)) ->
  respects R (try_except body handler).
Proof.
  intros Hb Hh d. specialize (Hb d). unfold try_except.
  destruct (body d) as [[d1 t1] [a|e]]; simpl in *; [exact Hb|].
  specialize (Hh e d1). destruct (handler e d1) as [[d2 t2] r]. simpl in *.
  eapply R_trans; eassumption.
Qed.

Lemma respects_for_each {A} (xs : list A) (body : A -> M TestDiscovery unit) :
  (forall x, respects R (body x)) -> respects R (for_each xs body).
Proof.
  intros Hbody. induction xs as [|x xs IH]; simpl.
  - apply respects_ret.
  - apply respects_bind; auto.
Qed.

(** Log records other than the debug record of a registration change
    nothing; registering one class keeps the relation. *)
Hypothesis R_log :
  forall d lvl m, (forall tc_id obj, m <> MsgDiscoveredCase tc_id obj) -> R d [ELog lvl m] d.
Hypothesis R_register :
  forall module_name obj, respects R (register_member classes module_name obj).

Lemma respects_logging (lvl : Level) (m : LogMsg) :
  (forall tc_id obj, m <> MsgDiscoveredCase tc_id obj) -> respects R (logging lvl m).
Proof. intros Hm d. apply R_log, Hm. Qed.

Lemma respects_process_module (module_name module_path : string) (m : ModuleImport) :
  respects R (process_module classes module_name module_path m).
Proof.
  unfold process_module. apply respects_try_except.
  - destruct m as [e|members]; [apply respects_raise|].
    apply respects_for_each. intros [member_name [obj| |]]; simpl.
    + apply R_register.
    + apply respects_ret.
    + apply respects_ret.
  - intros e. destruct (exn_type e); now apply respects_logging.
Qed.

Lemma respects_discover (package : Package) :
  forall package_name, respects R (discover_test_cases classes package package_name).
Proof.
  induction package as [e|entries IH] using Package_nested_ind; intros package_name; simpl.
  - apply respects_bind; [now apply respects_logging | intros _; apply respects_raise].
  - apply respects_bind; [now apply respects_logging | intros _].
    apply respects_bind.
    + induction IH as [|[module_name [p|m]] rest Hentry _ IHrest]; simpl.
      * apply respects_ret.
      * apply respects_bind; [apply Hentry | intros _; exact IHrest].
      * apply respects_bind; [|intros _; exact IHrest].
        destruct (String.prefix "tc_hmp_" module_name);
          [apply respects_process_module | apply respects_ret].
    + intros _. apply respects_bind; [apply respects_get_state|].
      intros self. now apply respects_logging.
Qed.

End StepClosure.

(** ** What registering one class does  *)

Section RegisterMember.

Context {Env Controller : Type}.
Variable classes : ClassRef -> @TestCaseClass Env Controller.

Lemma for_each_modify {A} (xs : list A) (f : A -> TestDiscovery -> TestDiscovery)
    (d : TestDiscovery) :
  for_each (Controller := Controller) xs (fun x => modify (f x)) d
  = (fold_left (fun acc x => f x acc) xs d, [], Returned tt).
Proof.
  revert d. induction xs as [|x xs IH]; intros d; [reflexivity|].
  simpl. unfold bind, modify at 1. now rewrite IH.
Qed.

(** The registry and outcome after one registration: the id is assigned,
    then the categories are walked as far as they can be, then the class
    joins its suite, unless an exception stopped the registration before:
    then the exception is the outcome. *)
Lemma register_member_run (module_name : string) (obj : ClassRef) (d : TestDiscovery) :
  let tc_id := tc_id_of classes module_name obj in
  let d2 := fold_left (fun acc category => add_to_category category tc_id acc)
                      (categories_of classes obj) (set_test_case tc_id obj d) in
  register_member (Controller := Controller) classes module_name obj d =
  (match suite_joined classes obj with
   | Some name => add_to_suite name obj d2
   | None => d2
   end,
   [ELog DEBUG (MsgDiscoveredCase tc_id obj)],
   match registration_error classes obj with
   | Some e => Raised e
   | None => Returned tt
   end).
Proof.
  cbv zeta.
  unfold register_member, suite_joined, registers_fully, registration_error,
    categories_of, suite_of.
  unfold bind at 1. unfold modify at 1. unfold bind at 1. unfold logging, tell.
  destruct (cls_categories (classes obj)) as [|l| |before member_type after]; unfold bind.
  - destruct (cls_suite (classes obj)) as [[suite_name|type_name]|]; reflexivity.
  - rewrite for_each_modify.
    destruct (cls_suite (classes obj)) as [[suite_name|type_name]|]; reflexivity.
  - reflexivity.
  - rewrite for_each_modify. reflexivity.
Qed.

Lemma suite_joined_spec (obj : ClassRef) (name : string) :
  suite_joined classes obj = Some name <->
  registers_fully classes obj = true /\ suite_of classes obj = Some name.
Proof.
  unfold suite_joined. destruct (registers_fully classes obj); split;
    intros H; try tauto; try discriminate. now destruct H.
Qed.

Lemma registers_fully_joined (obj : ClassRef) :
  registers_fully classes obj = true ->
  exists name, suite_joined classes obj = Some name /\
               suite_of classes obj = Some name /\
               registration_error classes obj = None.
Proof.
  unfold suite_joined, registers_fully, registration_error, suite_of.
  destruct (cls_categories (classes obj)) as [|l| |before member_type after];
    destruct (cls_suite (classes obj)) as [[suite_name|type_name]|];
    intros H; try discriminate; eauto.
Qed.

Lemma not_fully_stopped (obj : ClassRef) :
  registers_fully classes obj = false ->
  suite_joined classes obj = None /\
  exists e, registration_error classes obj = Some e.
Proof.
  unfold suite_joined, registers_fully, registration_error.
  destruct (cls_categories (classes obj)) as [|l| |before member_type after];
    destruct (cls_suite (classes obj)) as [[suite_name|type_name]|];
    intros H; try discriminate; eauto.
Qed.

End RegisterMember.

(** ** Discovery only adds  *)

Lemma initial_part_refl {A} (l : list A) : initial_part l l.
Proof. exists []. now rewrite app_nil_r. Qed.

Lemma initial_part_trans {A} (l1 l2 l3 : list A) :
  initial_part l1 l2 -> initial_part l2 l3 -> initial_part l1 l3.
Proof. intros [t1 ->] [t2 ->]. exists (t1 ++ t2). now rewrite app_assoc. Qed.

Lemma initial_part_In {A} (l1 l2 : list A) (x : A) :
  initial_part l1 l2 -> In x l1 -> In x l2.
Proof. intros [t ->] H. apply in_or_app. now left. Qed.

Lemma od_keys_set_initial {V} (k : string) (v : V) (d : OrderedDict.t V) :
  initial_part (OrderedDict.keys d) (OrderedDict.keys (OrderedDict.set k v d)).
Proof.
  rewrite od_keys_set. destruct (OrderedDict.mem k d).
  - apply initial_part_refl.
  - now exists [k].
Qed.

Lemma od_get_set {V} (k k0 : string) (v : V) (d : OrderedDict.t V) :
  OrderedDict.get k0 (OrderedDict.set k v d) =
  if String.eqb k0 k then Some v else OrderedDict.get k0 d.
Proof.
  destruct (String.eqb k0 k) eqn:E.
  - apply String.eqb_eq in E. subst. apply od_get_set_eq.
  - apply String.eqb_neq in E. now apply od_get_set_ne.
Qed.

Lemma registry_grows_refl (d : TestDiscovery) : registry_grows d d.
Proof.
  repeat split; try apply initial_part_refl.
  - intros name s0 H. exists s0. repeat split; auto using initial_part_refl.
  - intros category ids0 H. exists ids0. split; [assumption | set_solver].
Qed.

Lemma registry_grows_trans (d0 d1 d2 : TestDiscovery) :
  registry_grows d0 d1 -> registry_grows d1 d2 -> registry_grows d0 d2.
Proof.
  intros (A1 & B1 & C1 & S1 & K1) (A2 & B2 & C2 & S2 & K2).
  repeat split; try (eapply initial_part_trans; eassumption).
  - intros name s0 H0.
    destruct (S1 _ _ H0) as (s1 & H1 & P1 & N1 & D1 & G1 & U1 & T1).
    destruct (S2 _ _ H1) as (s2 & H2 & P2 & N2 & D2 & G2 & U2 & T2).
    exists s2. repeat split; try congruence.
    eapply initial_part_trans; eassumption.
  - intros category ids0 H0.
    destruct (K1 _ _ H0) as (ids1 & H1 & I1).
    destruct (K2 _ _ H1) as (ids2 & H2 & I2).
    exists ids2. split; [assumption | set_solver].
Qed.

Lemma registry_grows_set_test_case (tc_id : string) (obj : ClassRef) (d : TestDiscovery) :
  registry_grows d (set_test_case tc_id obj d).
Proof.
  destruct (registry_grows_refl d) as (_ & B & C & S & K).
  repeat split; try assumption. apply od_keys_set_initial.
Qed.

Lemma registry_grows_add_to_category (category tc_id : string) (d : TestDiscovery) :
  registry_grows d (add_to_category category tc_id d).
Proof.
  destruct (registry_grows_refl d) as (A & B & _ & S & _).
  repeat split; try assumption.
  - apply od_keys_set_initial.
  - intros c ids0 H. unfold add_to_category. simpl. rewrite od_get_set.
    destruct (String.eqb c category) eqn:E.
    + apply String.eqb_eq in E. subst c. rewrite H.
      eexists. split; [reflexivity | set_solver].
    + exists ids0. split; [assumption | set_solver].
Qed.

Lemma add_test_case_fields (s : TestSuite) (c : ClassRef) :
  initial_part (test_cases s) (test_cases (add_test_case s c)) /\
  suite_name (add_test_case s c) = suite_name s /\
  suite_description (add_test_case s c) = suite_description s /\
  suite_categories (add_test_case s c) = suite_categories s /\
  _setup_hooks (add_test_case s c) = _setup_hooks s /\
  _teardown_hooks (add_test_case s c) = _teardown_hooks s.
Proof.
  unfold add_test_case. destruct (class_in c (test_cases s)); simpl.
  - split; [apply initial_part_refl | repeat split].
  - split; [now exists [c] | repeat split].
Qed.

Lemma registry_grows_add_to_suite (name : string) (obj : ClassRef) (d : TestDiscovery) :
  registry_grows d (add_to_suite name obj d).
Proof.
  destruct (registry_grows_refl d) as (A & _ & C & _ & K).
  repeat split; try assumption.
  - apply od_keys_set_initial.
  - intros n s0 H. unfold add_to_suite. simpl. rewrite od_get_set.
    destruct (String.eqb n name) eqn:E.
    + apply String.eqb_eq in E. subst n. rewrite H.
      eexists. split; [reflexivity | apply add_test_case_fields].
    + exists s0. repeat split; auto using initial_part_refl.
Qed.

Lemma registry_grows_categories (categories : list string) (tc_id : string)
    (d : TestDiscovery) :
  registry_grows d
    (fold_left (fun acc category => add_to_category category tc_id acc) categories d).
Proof.
  revert d. induction categories as [|c l IH]; intros d; simpl.
  - apply registry_grows_refl.
  - eapply registry_grows_trans; [apply registry_grows_add_to_category | apply IH].
Qed.

Section DiscoveryGrowth.

Context {Env Controller : Type}.
Variable classes : ClassRef -> @TestCaseClass Env Controller.

Lemma register_member_grows (module_name : string) (obj : ClassRef) :
  respects (Controller := Controller) (fun d0 _ d1 => registry_grows d0 d1)
    (register_member classes module_name obj).
Proof.
  intros d. rewrite register_member_run. simpl.
  eapply registry_grows_trans; [apply registry_grows_set_test_case|].
  destruct (suite_joined classes obj) as [name|].
  - eapply registry_grows_trans; [apply registry_grows_categories|].
    apply registry_grows_add_to_suite.
  - apply registry_grows_categories.
Qed.

(** Discovery never removes or moves anything. Whatever registry it
    starts from and however it ends, the ids, suite names and category
    names that were there keep their positions (new ones come after),
    every suite keeps its classes in place, its name, description,
    categories and hooks, and every category keeps its ids. *)
Theorem discovery_only_adds (package : Package) (package_name : string)
    (d0 d1 : TestDiscovery) (tr : list (@Event Controller)) (r : Outcome unit) :
  discover_test_cases classes package package_name d0 = (d1, tr, r) ->
  registry_grows d0 d1.
Proof.
  intros Hrun.
  pose proof (respects_discover classes (fun d0 _ d1 => registry_grows d0 d1)
                registry_grows_refl
                (fun a b c _ _ => registry_grows_trans a b c)
                (fun d _ _ _ => registry_grows_refl d)
                register_member_grows package package_name d0) as H.
  now rewrite Hrun in H.
Qed.

End DiscoveryGrowth.

(** ** Where discovered classes land  *)

Lemma In_test_cases_add (s : TestSuite) (x c : ClassRef) :
  In c (test_cases (add_test_case s x)) <-> In c (test_cases s) \/ c = x.
Proof.
  rewrite test_cases_add. destruct (class_in x (test_cases s)) eqn:E.
  - apply class_in_In in E. split; [auto | intros [H| ->]; assumption].
  - rewrite in_app_iff. simpl. split; [intros [H|[H|[]]]; auto | intros [H| ->]; auto].
Qed.

Lemma fold_categories_frame (categories : list string) (tc_id : string) (d : TestDiscovery) :
  let d' := fold_left (fun acc category => add_to_category category tc_id acc) categories d in
  _test_cases d' = _test_cases d /\ _test_suites d' = _test_suites d.
Proof.
  revert d. induction categories as [|c l IH]; intros d; simpl; [auto|].
  destruct (IH (add_to_category c tc_id d)) as [H1 H2]. simpl in *. now rewrite H1, H2.
Qed.

Lemma fold_categories_member (categories : list string) (tc_id : string)
    (d : TestDiscovery) (category : string) :
  In category categories ->
  exists ids,
    OrderedDict.get category
      (_categories (fold_left (fun acc c => add_to_category c tc_id acc) categories d))
    = Some ids /\ tc_id ∈ ids.
Proof.
  revert d. induction categories as [|c l IH]; intros d; [intros []|].
  intros [->|Hin]; simpl; [|apply IH, Hin].
  destruct (registry_grows_categories l tc_id (add_to_category category tc_id d))
    as (_ & _ & _ & _ & K).
  destruct (K category ({[ tc_id ]} ∪ match OrderedDict.get category (_categories d) with
                                      | Some ids => ids
                                      | None => ∅
                                      end)) as (ids1 & H1 & Hsub).
  { unfold add_to_category. simpl. apply od_get_set_eq. }
  exists ids1. split; [assumption | set_solver].
Qed.

Lemma fold_categories_origin (categories : list string) (tc_id : string)
    (d : TestDiscovery) (category : string) (ids : gset string) (x : string) :
  OrderedDict.get category
    (_categories (fold_left (fun acc c => add_to_category c tc_id acc) categories d))
  = Some ids ->
  x ∈ ids ->
  (exists ids0, OrderedDict.get category (_categories d) = Some ids0 /\ x ∈ ids0) \/
  (x = tc_id /\ In category categories).
Proof.
  revert d. induction categories as [|c l IH]; intros d; simpl.
  - intros H Hx. left. eauto.
  - intros H Hx. destruct (IH _ H Hx) as [(ids0 & H0 & Hx0)|[-> Hin]]; [|auto].
    unfold add_to_category in H0. simpl in H0. rewrite od_get_set in H0.
    destruct (String.eqb category c) eqn:E.
    + apply String.eqb_eq in E. subst c. injection H0 as <-.
      apply elem_of_union in Hx0. destruct Hx0 as [Hx0|Hx0].
      * apply elem_of_singleton in Hx0. auto.
      * destruct (OrderedDict.get category (_categories d)) as [ids1|]; [|set_solver].
        left. eauto.
    + left. eauto.
Qed.

Section DiscoveryMembership.

Context {Env Controller : Type}.
Variable classes : ClassRef -> @TestCaseClass Env Controller.

Lemma registrations_land_refl (d : TestDiscovery) : registrations_land classes d ([] : list (@Event Controller)) d.
Proof. split; [apply registry_grows_refl | intros ? ? []]. Qed.

Lemma registrations_land_trans (d0 d1 d2 : TestDiscovery) (t1 t2 : list (@Event Controller)) :
  registrations_land classes d0 t1 d1 -> registrations_land classes d1 t2 d2 ->
  registrations_land classes d0 (t1 ++ t2) d2.
Proof.
  intros (G1 & L1) (G2 & L2). split; [eapply registry_grows_trans; eassumption|].
  intros tc_id obj Hin. apply in_app_or in Hin. destruct Hin as [Hin|Hin].
  - destruct (L1 _ _ Hin) as (Hsuite & Hcat).
    destruct G2 as (_ & _ & _ & S2 & K2). split.
    + intros name Hjoined. destruct (Hsuite _ Hjoined) as (s & Hs & Hobj).
      destruct (S2 _ _ Hs) as (s2 & Hs2 & Hpart & _).
      exists s2. split; [assumption | eapply initial_part_In; eassumption].
    + intros category Hc. destruct (Hcat _ Hc) as (ids & Hids & Hid).
      destruct (K2 _ _ Hids) as (ids2 & Hids2 & Hsub).
      exists ids2. split; [assumption | exact (Hsub _ Hid)].
  - exact (L2 _ _ Hin).
Qed.

Lemma registrations_land_log (d : TestDiscovery) (lvl : Level) (m : LogMsg) :
  (forall tc_id obj, m <> MsgDiscoveredCase tc_id obj) ->
  registrations_land classes d ([ELog lvl m] : list (@Event Controller)) d.
Proof.
  intros Hm. split; [apply registry_grows_refl|].
  intros tc_id obj [H|[]]. injection H as _ ->. now destruct (Hm tc_id obj).
Qed.

Lemma register_member_lands (module_name : string) (obj : ClassRef) :
  respects (Controller := Controller) (registrations_land classes)
    (register_member classes module_name obj).
Proof.
  intros d. pose proof (register_member_grows classes module_name obj d) as Hgrow.
  rewrite register_member_run in *. simpl in *.
  split; [exact Hgrow|].
  intros tc_id o [H|[]]. injection H as <- <-. split.
  - intros name Hjoined. rewrite Hjoined.
    unfold add_to_suite. simpl. rewrite od_get_set_eq.
    eexists. split; [reflexivity|]. apply add_test_case_In.
  - intros category Hc.
    destruct (suite_joined classes obj); [unfold add_to_suite; simpl|];
      apply fold_categories_member, Hc.
Qed.

Lemma members_come_from_refl (d : TestDiscovery) : members_come_from classes d ([] : list (@Event Controller)) d.
Proof. repeat split; intros; left; eauto. Qed.

Lemma members_come_from_trans (d0 d1 d2 : TestDiscovery) (t1 t2 : list (@Event Controller)) :
  members_come_from classes d0 t1 d1 -> members_come_from classes d1 t2 d2 ->
  members_come_from classes d0 (t1 ++ t2) d2.
Proof.
  intros (I1 & S1 & K1) (I2 & S2 & K2). repeat split.
  - intros tc_id c H. destruct (I2 _ _ H) as [H1|Hin].
    + destruct (I1 _ _ H1) as [H0|Hin]; [auto | right; apply in_or_app; auto].
    + right. apply in_or_app. auto.
  - intros name s c H Hc. destruct (S2 _ _ _ H Hc) as [(s1 & H1 & Hc1)|(i & Hin & Hr)].
    + destruct (S1 _ _ _ H1 Hc1) as [?|(i & Hin & Hr)]; [auto|].
      right. exists i. split; [apply in_or_app; auto | assumption].
    + right. exists i. split; [apply in_or_app; auto | assumption].
  - intros category ids x H Hx.
    destruct (K2 _ _ _ H Hx) as [(ids1 & H1 & Hx1)|(o & Hin & Hc)].
    + destruct (K1 _ _ _ H1 Hx1) as [?|(o & Hin & Hc)]; [auto|].
      right. exists o. split; [apply in_or_app; auto | assumption].
    + right. exists o. split; [apply in_or_app; auto | assumption].
Qed.

Lemma members_come_from_log (d : TestDiscovery) (lvl : Level) (m : LogMsg) :
  members_come_from classes d ([ELog lvl m] : list (@Event Controller)) d.
Proof. repeat split; intros; left; eauto. Qed.

Lemma register_member_origin (module_name : string) (obj : ClassRef) :
  respects (Controller := Controller) (members_come_from classes)
    (register_member classes module_name obj).
Proof.
  intros d. rewrite register_member_run.
  set (tc_id := tc_id_of classes module_name obj). simpl.
  destruct (fold_categories_frame (categories_of classes obj) tc_id
              (set_test_case tc_id obj d)) as [Hcases Hsuites].
  simpl in Hcases, Hsuites.
  destruct (suite_joined classes obj) as [joined|] eqn:Hjoined; repeat split.
  - intros i c. unfold add_to_suite. simpl. rewrite Hcases, od_get_set.
    destruct (String.eqb i tc_id) eqn:E; [|auto].
    apply String.eqb_eq in E. subst i. intros [= <-]. right. now left.
  - intros name s c. unfold add_to_suite. simpl. rewrite Hsuites, od_get_set.
    destruct (String.eqb name joined) eqn:E; [|left; eauto].
    apply String.eqb_eq in E. subst name. intros [= <-] Hc.
    apply In_test_cases_add in Hc. destruct Hc as [Hc| ->].
    + destruct (OrderedDict.get joined (_test_suites d)) as [s0|];
        [left; eauto | destruct Hc].
    + right. exists tc_id. split; [now left | assumption].
  - intros category ids x. unfold add_to_suite. simpl. intros H Hx.
    destruct (fold_categories_origin _ _ _ _ _ _ H Hx) as [?|[-> Hc]]; [auto|].
    right. exists obj. split; [now left | assumption].
  - intros i c. rewrite Hcases, od_get_set.
    destruct (String.eqb i tc_id) eqn:E; [|auto].
    apply String.eqb_eq in E. subst i. intros [= <-]. right. now left.
  - intros name s c. rewrite Hsuites. intros H Hc. left. eauto.
  - intros category ids x H Hx.
    destruct (fold_categories_origin _ _ _ _ _ _ H Hx) as [?|[-> Hc]]; [auto|].
    right. exists obj. split; [now left | assumption].
Qed.

End DiscoveryMembership.

Section DiscoverySuites.

Context {Env Controller : Type}.
Variable classes : ClassRef -> @TestCaseClass Env Controller.

Lemma keeps_suites_refl (d : TestDiscovery) :
  keeps_suites_well_formed classes d ([] : list (@Event Controller)) d.
Proof.
  split; [apply registry_grows_refl|]. split; [auto|]. intros name s H H0. congruence.
Qed.

Lemma keeps_suites_trans (d0 d1 d2 : TestDiscovery) (t1 t2 : list (@Event Controller)) :
  keeps_suites_well_formed classes d0 t1 d1 -> keeps_suites_well_formed classes d1 t2 d2 ->
  keeps_suites_well_formed classes d0 (t1 ++ t2) d2.
Proof.
  intros (G1 & W1 & B1) (G2 & W2 & B2).
  split; [eapply registry_grows_trans; eassumption|]. split; [auto|].
  intros name s H2 H0.
  destruct (OrderedDict.get name (_test_suites d1)) as [s1|] eqn:H1; [|eauto].
  destruct G2 as (_ & _ & _ & S2 & _).
  destruct (S2 _ _ H1) as (s2 & H2' & _ & _ & D & C & U & T).
  assert (s2 = s) by congruence. subst s2.
  destruct (B1 _ _ H1 H0) as (D1 & C1 & U1 & T1).
  unfold bare_suite. repeat split; congruence.
Qed.

Lemma keeps_suites_frame (d d' : TestDiscovery) (tr : list (@Event Controller)) :
  registry_grows d d' -> _test_suites d' = _test_suites d ->
  keeps_suites_well_formed classes d tr d'.
Proof.
  intros G E. split; [exact G|]. unfold suites_well_formed. rewrite E.
  split; [auto|]. intros name s H H0. congruence.
Qed.

Lemma add_to_suite_well_formed (name : string) (obj : ClassRef) (d : TestDiscovery) :
  suite_of classes obj = Some name ->
  suites_well_formed classes d ->
  suites_well_formed classes (add_to_suite name obj d).
Proof.
  intros Hdeclared (Hkeys & Hsuites). split.
  - unfold add_to_suite. simpl. now apply od_NoDup_keys_set.
  - intros n s. unfold add_to_suite. simpl. rewrite od_get_set.
    destruct (String.eqb n name) eqn:E; [|apply Hsuites].
    apply String.eqb_eq in E. subst n. intros [= <-].
    destruct (add_test_case_fields
                match OrderedDict.get name (_test_suites d) with
                | Some suite => suite
                | None => TestSuite_init name ""
                end obj) as (_ & Hname & _).
    rewrite Hname.
    destruct (OrderedDict.get name (_test_suites d)) as [s0|] eqn:H0.
    + destruct (Hsuites _ _ H0) as (N0 & ND0 & C0).
      split; [assumption|]. split; [now apply add_test_case_NoDup|].
      intros c Hc. apply In_test_cases_add in Hc. destruct Hc as [Hc| ->]; auto.
    + split; [reflexivity|]. split; [apply add_test_case_NoDup; constructor|].
      intros c Hc. apply In_test_cases_add in Hc. destruct Hc as [[]| ->].
      exact Hdeclared.
Qed.

Lemma add_to_suite_bare (name : string) (obj : ClassRef) (d : TestDiscovery) (n : string)
    (s : TestSuite) :
  OrderedDict.get n (_test_suites (add_to_suite name obj d)) = Some s ->
  OrderedDict.get n (_test_suites d) = None ->
  bare_suite s.
Proof.
  unfold add_to_suite. simpl. rewrite od_get_set.
  destruct (String.eqb n name) eqn:E; [|congruence].
  apply String.eqb_eq in E. subst n. intros [= <-] ->.
  destruct (add_test_case_fields (TestSuite_init name "") obj) as (_ & _ & D & C & U & T).
  unfold bare_suite. rewrite D, C, U, T. repeat split.
Qed.

Lemma register_member_keeps_suites (module_name : string) (obj : ClassRef) :
  respects (Controller := Controller) (keeps_suites_well_formed classes)
    (register_member classes module_name obj).
Proof.
  intros d. pose proof (register_member_grows classes module_name obj d) as Hgrow.
  rewrite register_member_run in *.
  set (tc_id := tc_id_of classes module_name obj) in *.
  destruct (fold_categories_frame (categories_of classes obj) tc_id
              (set_test_case tc_id obj d)) as [_ Hsuites].
  simpl in Hsuites.
  set (dc := fold_left (fun acc category => add_to_category category tc_id acc)
               (categories_of classes obj) (set_test_case tc_id obj d)) in *.
  destruct (suite_joined classes obj) as [joined|] eqn:Hjoined; simpl in *.
  - apply suite_joined_spec in Hjoined. destruct Hjoined as [_ Hdeclared].
    split; [exact Hgrow|]. split.
    + intros Hwf. apply add_to_suite_well_formed; [exact Hdeclared|].
      unfold suites_well_formed. rewrite Hsuites. exact Hwf.
    + intros name s H H0. apply (add_to_suite_bare _ _ _ _ _ H). now rewrite Hsuites.
  - now apply keeps_suites_frame.
Qed.


(** After discovery, the id of every class it recorded is in every
    category that the loop over the class's [categories] reaches: every
    member when they are all strings, the members before the first that
    cannot be hashed otherwise (the members after it are never reached).
    And an id is in a category only if it was there before or some
    recorded class with that id reaches the category. *)
Theorem discovered_ids_join_their_categories (package : Package) (package_name : string)
    (d0 d1 : TestDiscovery) (tr : list (@Event Controller)) (r : Outcome unit) :
  discover_test_cases classes package package_name d0 = (d1, tr, r) ->
  (forall tc_id obj category,
      In (ELog DEBUG (MsgDiscoveredCase tc_id obj)) tr ->
      match cls_categories (classes obj) with
      | CatList declared => In category declared
      | CatUnhashable before _ _ => In category before
      | CatAbsent | CatNotIterable => False
      end ->
      exists ids, OrderedDict.get category (_categories d1) = Some ids /\ tc_id ∈ ids) /\
  (forall tc_id obj category,
      In (ELog DEBUG (MsgDiscoveredCase tc_id obj)) tr ->
      In category (categories_of classes obj) ->
      exists ids, OrderedDict.get category (_categories d1) = Some ids /\ tc_id ∈ ids) /\
  (forall category ids tc_id,
      OrderedDict.get category (_categories d1) = Some ids -> tc_id ∈ ids ->
      (exists ids0, OrderedDict.get category (_categories d0) = Some ids0 /\ tc_id ∈ ids0) \/
      (exists obj, In (ELog DEBUG (MsgDiscoveredCase tc_id obj)) tr /\
                   In category (categories_of classes obj))).
Proof.
  intros Hrun.
  pose proof (respects_discover classes (registrations_land classes)
                (registrations_land_refl classes) (registrations_land_trans classes)
                (registrations_land_log classes)
                (register_member_lands classes) package package_name d0) as Hland.
  pose proof (respects_discover classes (members_come_from classes)
                (members_come_from_refl classes) (members_come_from_trans classes)
                (fun d lvl m _ => members_come_from_log classes d lvl m)
                (register_member_origin classes) package package_name d0) as Hfrom.
  rewrite Hrun in Hland, Hfrom. simpl in Hland, Hfrom.
  destruct Hland as (_ & Hland). destruct Hfrom as (_ & _ & Hcats).
  assert (Hreached : forall tc_id obj category,
             In (ELog DEBUG (MsgDiscoveredCase tc_id obj)) tr ->
             In category (categories_of classes obj) ->
             exists ids, OrderedDict.get category (_categories d1) = Some ids /\ tc_id ∈ ids).
  { intros tc_id obj category Hin Hc.
    destruct (Hland _ _ Hin) as (_ & Hcat). exact (Hcat _ Hc). }
  split; [|split; [exact Hreached | exact Hcats]].
  intros tc_id obj category Hin Hc. apply (Hreached _ obj _ Hin).
  unfold categories_of. destruct (cls_categories (classes obj)); tauto.
Qed.

End DiscoverySuites.

(** ** Modules that are skipped, fail, or stop half way  *)

Section MonadLaws.

Context {Controller S : Type}.

Lemma bind_assoc {A B C} (m : @M Controller S A) (k : A -> M S B) (h : B -> M S C) (s : S) :
  bind (bind m k) h s = bind m (fun a => bind (k a) h) s.
Proof.
  unfold bind. destruct (m s) as [[s1 t1] [a|e]]; [|reflexivity].
  destruct (k a s1) as [[s2 t2] [b|e]]; [|reflexivity].
  destruct (h b s2) as [[s3 t3] r]. now rewrite app_assoc.
Qed.

Lemma bind_ext {A B} (m : @M Controller S A) (k1 k2 : A -> M S B) (s : S) :
  (forall a s', k1 a s' = k2 a s') -> bind m k1 s = bind m k2 s.
Proof.
  intros H. unfold bind. destruct (m s) as [[s1 t1] [a|e]]; [|reflexivity].
  now rewrite H.
Qed.

Lemma bind_ret_l {A B} (a : A) (k : A -> @M Controller S B) (s : S) :
  bind (ret a) k s = k a s.
Proof. unfold bind, ret. now destruct (k a s) as [[s1 t1] r]. Qed.

Lemma for_each_app {A} (xs ys : list A) (body : A -> @M Controller S unit) (s : S) :
  for_each (xs ++ ys) body s = bind (for_each xs body) (fun _ => for_each ys body) s.
Proof.
  revert s. induction xs as [|x xs IH]; intros s; simpl.
  - now rewrite bind_ret_l.
  - rewrite bind_assoc. apply bind_ext. intros _ s'. apply IH.
Qed.

End MonadLaws.

Section ModuleEdges.

Context {Env Controller : Type}.
Variable classes : ClassRef -> @TestCaseClass Env Controller.

Lemma scan_entries_app (recurse : Package -> string -> @M Controller TestDiscovery unit)
    (package_name : string) (es1 es2 : list (string * Entry)) (d : TestDiscovery) :
  scan_entries classes recurse package_name (es1 ++ es2) d =
  bind (scan_entries classes recurse package_name es1)
       (fun _ => scan_entries classes recurse package_name es2) d.
Proof.
  revert d. induction es1 as [|[module_name [p|m]] rest IH]; intros d; simpl.
  - now rewrite bind_ret_l.
  - rewrite bind_assoc. apply bind_ext. intros _ s'. apply IH.
  - rewrite bind_assoc. apply bind_ext. intros _ s'. apply IH.
Qed.

(** Discovery of a package that imports: the scan of its entries between
    the two info records, the second only when the scan returns. *)
Lemma discover_ok_unfold (entries : list (string * Entry)) (package_name : string)
    (d : TestDiscovery) :
  discover_test_cases (Controller := Controller) classes (PackageOk entries) package_name d =
  match scan_entries classes (discover_test_cases classes) package_name entries d with
  | (d1, t1, Returned _) =>
      (d1,
       ELog INFO (MsgDiscovering package_name)
         :: t1 ++ [ELog INFO (MsgDiscoveredCount (OrderedDict.len (_test_cases d1))
                                                 (OrderedDict.len (_test_suites d1)))],
       Returned tt)
  | (d1, t1, Raised e) => (d1, ELog INFO (MsgDiscovering package_name) :: t1, Raised e)
  end.
Proof.
  simpl. unfold bind, logging, tell, get_state.
  destruct (scan_entries classes (discover_test_cases classes) package_name entries d)
    as [[d1 t1] [[]|e]]; reflexivity.
Qed.

(** An entry whose step changes nothing and returns can be dropped from
    a scan: registry and outcome are the same, the trace only lacks what
    the step emitted. *)
Lemma scan_entries_neutral (recurse : Package -> string -> @M Controller TestDiscovery unit)
    (package_name : string) (es1 es2 : list (string * Entry)) (entry : string * Entry)
    (emitted : list (@Event Controller)) (d : TestDiscovery) :
  (forall d', scan_entries classes recurse package_name [entry] d' = (d', emitted, Returned tt)) ->
  exists d1 ta tb r,
    scan_entries classes recurse package_name (es1 ++ es2) d = (d1, ta ++ tb, r) /\
    (scan_entries classes recurse package_name (es1 ++ entry :: es2) d
       = (d1, ta ++ emitted ++ tb, r) \/
     (tb = [] /\ (exists e, r = Raised e) /\
      scan_entries classes recurse package_name (es1 ++ entry :: es2) d = (d1, ta, r))).
Proof.
  intros Hneutral.
  assert (H1 : scan_entries classes recurse package_name (es1 ++ es2) d
               = bind (scan_entries classes recurse package_name es1)
                   (fun _ => scan_entries classes recurse package_name es2) d)
    by apply scan_entries_app.
  assert (H2 : scan_entries classes recurse package_name (es1 ++ entry :: es2) d
               = bind (scan_entries classes recurse package_name es1)
                   (fun _ => bind (scan_entries classes recurse package_name [entry])
                               (fun _ => scan_entries classes recurse package_name es2)) d).
  { change (entry :: es2) with ([entry] ++ es2). rewrite scan_entries_app.
    apply bind_ext. intros _ s'. apply scan_entries_app. }
  rewrite H1, H2. unfold bind.
  destruct (scan_entries classes recurse package_name es1 d) as [[d1 t1] [[]|e]].
  - rewrite Hneutral.
    destruct (scan_entries classes recurse package_name es2 d1) as [[d2 t2] r].
    exists d2, t1, t2, r. split; [reflexivity | left; reflexivity].
  - exists d1, t1, [], (Raised e). rewrite app_nil_r.
    split; [reflexivity | right; eauto].
Qed.

(** A module whose name does not start with [tc_hmp_] is not imported:
    discovery of a package goes exactly as if the module were not
    listed, whatever the module holds. *)
Theorem discover_ignores_other_modules (es1 es2 : list (string * Entry))
    (module_name : string) (m : ModuleImport) (package_name : string) (d : TestDiscovery) :
  String.prefix "tc_hmp_" module_name = false ->
  discover_test_cases (Controller := Controller) classes
    (PackageOk (es1 ++ (module_name, IsModule m) :: es2)) package_name d
  = discover_test_cases classes (PackageOk (es1 ++ es2)) package_name d.
Proof.
  intros Hname. rewrite !discover_ok_unfold.
  destruct (scan_entries_neutral (discover_test_cases classes) package_name es1 es2
              (module_name, IsModule m) [] d)
    as (d1 & ta & tb & r & Hwithout & Hwith).
  { intros d'. simpl. rewrite Hname. reflexivity. }
  rewrite Hwithout.
  destruct Hwith as [->|(-> & _ & ->)]; [reflexivity | now rewrite app_nil_r].
Qed.

(** A matching module whose import raises is logged and passed over.
    When the entries listed before it scan without raising, the error
    record comes right after what they emitted and before anything the
    entries after it emit; registry, outcome and every other record are
    those of the package without the module. When the scan raises before
    it, the module is never reached and nothing differs. *)
Theorem discover_survives_failed_import (es1 es2 : list (string * Entry))
    (module_name : string) (e : Exn) (package_name : string) (d : TestDiscovery) :
  String.prefix "tc_hmp_" module_name = true ->
  let module_path := package_name +:+ "." +:+ module_name in
  let record := ELog ERROR match exn_type e with
                           | ImportError => MsgImportError module_path e
                           | _ => MsgProcessError module_path e
                           end in
  let scan := scan_entries (Controller := Controller) classes (discover_test_cases classes)
                package_name in
  let without := discover_test_cases classes (PackageOk (es1 ++ es2)) package_name d in
  let with_module :=
    discover_test_cases classes
      (PackageOk (es1 ++ (module_name, IsModule (ImportRaises e)) :: es2)) package_name d in
  let started := ELog INFO (MsgDiscovering package_name) in
  exists d_mid t1 r1,
    scan es1 d = (d_mid, t1, r1) /\
    match r1 with
    | Raised ex =>
        without = (d_mid, started :: t1, Raised ex) /\ with_module = without
    | Returned _ =>
        exists d1 t2 r2,
          scan es2 d_mid = (d1, t2, r2) /\
          let counted :=
            match r2 with
            | Returned _ =>
                [ELog INFO (MsgDiscoveredCount (OrderedDict.len (_test_cases d1))
                                               (OrderedDict.len (_test_suites d1)))]
            | Raised _ => []
            end in
          without = (d1, started :: t1 ++ t2 ++ counted, r2) /\
          with_module = (d1, started :: t1 ++ record :: t2 ++ counted, r2)
    end.
Proof.
  intros Hname module_path record scan without with_module started.
  subst without with_module started. rewrite !discover_ok_unfold. fold scan.
  assert (H1 : scan (es1 ++ es2) d = bind (scan es1) (fun _ => scan es2) d)
    by apply scan_entries_app.
  assert (H2 : scan (es1 ++ (module_name, IsModule (ImportRaises e)) :: es2) d
               = bind (scan es1)
                   (fun _ => bind (scan [(module_name, IsModule (ImportRaises e))])
                               (fun _ => scan es2)) d).
  { change ((module_name, IsModule (ImportRaises e)) :: es2)
      with ([(module_name, IsModule (ImportRaises e))] ++ es2).
    unfold scan. rewrite scan_entries_app.
    apply bind_ext. intros _ s'. apply scan_entries_app. }
  assert (Hstep : forall d', scan [(module_name, IsModule (ImportRaises e))] d'
                             = (d', [record], Returned tt)).
  { intros d'. unfold scan. simpl. rewrite Hname.
    unfold bind, process_module, try_except, raise.
    subst record module_path. destruct (exn_type e); reflexivity. }
  rewrite H1, H2. unfold bind.
  destruct (scan es1 d) as [[d_mid t1] [[]|ex]].
  - exists d_mid, t1, (Returned tt). split; [reflexivity|].
    rewrite Hstep.
    destruct (scan es2 d_mid) as [[d1 t2] [[]|ex2]].
    + exists d1, t2, (Returned tt). split; [reflexivity|]. cbv zeta.
      simpl. rewrite <- !app_assoc. split; reflexivity.
    + exists d1, t2, (Raised ex2). split; [reflexivity|]. cbv zeta.
      simpl. rewrite !app_nil_r. split; reflexivity.
  - exists d_mid, t1, (Raised ex). split; [reflexivity|]. split; reflexivity.
Qed.

End ModuleEdges.

Section DiscoveryFailures.

Context {Env Controller : Type}.
Variable classes : ClassRef -> @TestCaseClass Env Controller.

Lemma process_module_returns (module_name module_path : string) (m : ModuleImport)
    (d : TestDiscovery) :
  exists d1 t1,
    process_module (Controller := Controller) classes module_name module_path m d
    = (d1, t1, Returned tt).
Proof.
  unfold process_module, try_except.
  destruct m as [e|members].
  - unfold raise. destruct (exn_type e); simpl; eauto.
  - destruct (for_each members _ d) as [[d1 t1] [[]|e]]; [eauto|].
    destruct (exn_type e); simpl; eauto.
Qed.

Lemma discover_raises (package : Package) :
  forall package_name d,
    packages_import package = false ->
    exists e,
      snd (discover_test_cases (Controller := Controller) classes package package_name d)
      = Raised e.
Proof.
  induction package as [e|entries IH] using Package_nested_ind; intros package_name d.
  - intros _. exists e. reflexivity.
  - intros Himp. rewrite discover_ok_unfold.
    assert (Hscan : exists d1 t1 e,
               scan_entries (Controller := Controller) classes (discover_test_cases classes)
                 package_name entries d = (d1, t1, Raised e)).
    { revert d. simpl in Himp. revert Himp.
      induction IH as [|[module_name [p|m]] rest Hentry _ IHrest]; intros Himp d; simpl.
      - discriminate.
      - simpl in Himp. unfold bind.
        destruct (packages_import p) eqn:Hp.
        + pose proof (discover_returns classes p (package_name +:+ "." +:+ module_name) d Hp)
            as Hret.
          destruct (discover_test_cases classes p _ d) as [[d1 t1] r]. simpl in Hret. subst r.
          simpl in Himp. destruct (IHrest Himp d1) as (d2 & t2 & e & ->). eauto.
        + simpl in Hentry.
          destruct (Hentry (package_name +:+ "." +:+ module_name) d Hp) as [e He].
          destruct (discover_test_cases classes p _ d) as [[d1 t1] r]. simpl in He. subst r.
          eauto.
      - simpl in Himp. unfold bind.
        assert (Hstep : exists d1 t1,
                   (if String.prefix "tc_hmp_" module_name
                    then process_module classes module_name
                           (package_name +:+ "." +:+ module_name) m
                    else ret tt) d = (d1, t1, Returned tt)).
        { destruct (String.prefix "tc_hmp_" module_name);
            [apply process_module_returns | eexists _, _; reflexivity]. }
        destruct Hstep as (d1 & t1 & ->).
        destruct (IHrest Himp d1) as (d2 & t2 & e & ->). eauto. }
    destruct Hscan as (d1 & t1 & e & ->). exists e. reflexivity.
Qed.

(** Discovery raises exactly when some package of the tree cannot be
    imported: no module, whatever it holds and whatever [Exception] its
    import raises, makes it fail, and a failing package is always
    reached. *)
Theorem discover_raises_iff_package_fails (package : Package) (package_name : string)
    (d : TestDiscovery) :
  (exists e,
      snd (discover_test_cases (Controller := Controller) classes package package_name d)
      = Raised e)
  <-> packages_import package = false.
Proof.
  split.
  - intros [e He]. destruct (packages_import package) eqn:Himp; [|reflexivity].
    rewrite (discover_returns classes package package_name d Himp) in He. discriminate.
  - apply discover_raises.
Qed.

(** A sub-package that cannot be imported aborts the discovery of the
    package that lists it: when the entries before it scan without
    raising, what they registered stays, the entries after it are never
    looked at, no error is logged and no final count, and the exception
    is the outcome. *)
Theorem failed_subpackage_aborts_discovery (es1 es2 : list (string * Entry))
    (sub_name : string) (e : Exn) (package_name : string) (d d1 : TestDiscovery)
    (t1 : list (@Event Controller)) :
  scan_entries classes (discover_test_cases classes) package_name es1 d
    = (d1, t1, Returned tt) ->
  discover_test_cases classes
    (PackageOk (es1 ++ (sub_name, SubPackage (PackageRaises e)) :: es2)) package_name d
  = (d1,
     ELog INFO (MsgDiscovering package_name)
       :: t1 ++ [ELog INFO (MsgDiscovering (package_name +:+ "." +:+ sub_name))],
     Raised e).
Proof.
  intros Hbefore. rewrite discover_ok_unfold, scan_entries_app.
  unfold bind at 1. rewrite Hbefore. simpl.
  unfold bind, logging, tell, raise. reflexivity.
Qed.

Lemma full_members_return (module_name : string) (members : list (string * Member))
    (d : TestDiscovery) :
  Forall (fun member => match snd member with
                        | MemTestCase c => registers_fully classes c = true
                        | MemBase | MemOther => True
                        end) members ->
  exists d1 t1,
    for_each (Controller := Controller) members
      (fun member => match snd member with
                     | MemTestCase obj => register_member classes module_name obj
                     | MemBase | MemOther => ret tt
                     end) d
    = (d1, t1, Returned tt).
Proof.
  intros Hall. revert d. induction Hall as [|[n [c| |]] rest Hfully _ IH]; intros d; simpl.
  - eexists _, _. reflexivity.
  - unfold bind. simpl in Hfully. rewrite register_member_run.
    destruct (registers_fully_joined classes c Hfully) as (name & -> & _ & ->).
    destruct (IH (add_to_suite name c
                    (fold_left (fun acc category =>
                                  add_to_category category (tc_id_of classes module_name c) acc)
                               (categories_of classes c)
                               (set_test_case (tc_id_of classes module_name c) c d))))
      as (d1 & t1 & ->).
    eauto.
  - rewrite bind_ret_l. apply IH.
  - rewrite bind_ret_l. apply IH.
Qed.

(** A class whose registration is stopped ends the processing of its
    module: the members before it are registered as usual, the class gets
    its id and the categories it reaches, the members after it are never
    looked at, and the exception is logged as an error. *)
Lemma stopped_member_cuts_module (module_name module_path : string)
    (before after : list (string * Member)) (member_name : string) (obj : ClassRef)
    (e : Exn) (d : TestDiscovery) :
  registration_error classes obj = Some e ->
  Forall (fun member => match snd member with
                        | MemTestCase c => registers_fully classes c = true
                        | MemBase | MemOther => True
                        end) before ->
  exists d1 t1,
    process_module (Controller := Controller) classes module_name module_path
      (ImportOk before) d = (d1, t1, Returned tt) /\
    process_module classes module_name module_path
      (ImportOk (before ++ (member_name, MemTestCase obj) :: after)) d
    = (fold_left (fun acc category =>
                    add_to_category category (tc_id_of classes module_name obj) acc)
                 (categories_of classes obj)
                 (set_test_case (tc_id_of classes module_name obj) obj d1),
       t1 ++ [ELog DEBUG (MsgDiscoveredCase (tc_id_of classes module_name obj) obj);
              ELog ERROR (MsgProcessError module_path e)],
       Returned tt).
Proof.
  intros Herror Hbefore.
  destruct (full_members_return module_name before d Hbefore) as (d1 & t1 & Hrun).
  exists d1, t1. unfold process_module, try_except. split.
  - now rewrite Hrun.
  - rewrite for_each_app. unfold bind at 1. rewrite Hrun. simpl.
    unfold bind at 1. rewrite register_member_run, Herror.
    assert (Hjoined : suite_joined classes obj = None).
    { destruct (registers_fully classes obj) eqn:Hfully.
      - destruct (registers_fully_joined classes obj Hfully) as (_ & _ & _ & Hnone).
        congruence.
      - exact (proj1 (not_fully_stopped classes obj Hfully)). }
    rewrite Hjoined. simpl.
    assert (Hkind : exn_type e = TypeError).
    { unfold registration_error in Herror.
      destruct (cls_categories (classes obj)) as [|l| |b member_type a];
        [destruct (cls_suite (classes obj)) as [[s|type_name]|]..| |];
        try discriminate; injection Herror as <-; reflexivity. }
    rewrite Hkind. unfold logging, tell. now rewrite <- app_assoc.
Qed.

(** A class whose [categories] cannot be iterated is registered only half
    way and ends the processing of its module: its id is assigned to it
    in the id map, but it joins no suite and no category, the members
    listed after it are never looked at, and one error is logged. The
    members before it, which register fully, are registered as usual. *)
Theorem unreadable_categories_cut_module_short (module_name module_path : string)
    (before after : list (string * Member)) (member_name : string) (obj : ClassRef)
    (d : TestDiscovery) :
  categories_readable classes obj = false ->
  Forall (fun member => match snd member with
                        | MemTestCase c => registers_fully classes c = true
                        | MemBase | MemOther => True
                        end) before ->
  exists d1 t1,
    process_module (Controller := Controller) classes module_name module_path
      (ImportOk before) d = (d1, t1, Returned tt) /\
    process_module classes module_name module_path
      (ImportOk (before ++ (member_name, MemTestCase obj) :: after)) d
    = (set_test_case (tc_id_of classes module_name obj) obj d1,
       t1 ++ [ELog DEBUG (MsgDiscoveredCase (tc_id_of classes module_name obj) obj);
              ELog ERROR (MsgProcessError module_path
                            {| exn_type := TypeError;
                               exn_msg := "object is not iterable" |})],
       Returned tt).
Proof.
  intros Hobj Hbefore.
  assert (Hstopped : registration_error classes obj
                     = Some {| exn_type := TypeError; exn_msg := "object is not iterable" |}
                     /\ categories_of classes obj = []).
  { unfold categories_readable in Hobj. unfold registration_error, categories_of.
    destruct (cls_categories (classes obj)); try discriminate. auto. }
  destruct Hstopped as [Herror Hnone].
  destruct (stopped_member_cuts_module module_name module_path before after member_name
              obj _ d Herror Hbefore) as (d1 & t1 & Hfirst & Hwhole).
  exists d1, t1. split; [exact Hfirst|]. rewrite Hwhole, Hnone. reflexivity.
Qed.

(** A recorded class that holds a category that cannot be hashed, or a
    suite that cannot be hashed, is registered only in part and ends the
    processing of its module: its id is assigned to it, the id joins the
    categories before the first that cannot be hashed (all of them when
    it is the suite that cannot be hashed), the class joins no suite, the
    members listed after it are never looked at, and the [TypeError] is
    logged as an error. *)
Theorem unhashable_attribute_cuts_module_short (module_name module_path : string)
    (before after : list (string * Member)) (member_name : string) (obj : ClassRef)
    (d : TestDiscovery) :
  categories_readable classes obj = true ->
  registers_fully classes obj = false ->
  Forall (fun member => match snd member with
                        | MemTestCase c => registers_fully classes c = true
                        | MemBase | MemOther => True
                        end) before ->
  exists d1 t1 type_name d2,
    (match cls_categories (classes obj) with
     | CatUnhashable _ member_type _ => type_name = member_type
     | _ => cls_suite (classes obj) = Some (KeyUnhashable type_name)
     end) /\
    process_module (Controller := Controller) classes module_name module_path
      (ImportOk before) d = (d1, t1, Returned tt) /\
    let tc_id := tc_id_of classes module_name obj in
    process_module classes module_name module_path
      (ImportOk (before ++ (member_name, MemTestCase obj) :: after)) d
    = (d2,
       t1 ++ [ELog DEBUG (MsgDiscoveredCase tc_id obj);
              ELog ERROR (MsgProcessError module_path (unhashable type_name))],
       Returned tt) /\
    _test_cases d2 = OrderedDict.set tc_id obj (_test_cases d1) /\
    _test_suites d2 = _test_suites d1 /\
    (forall category,
        In category (categories_of classes obj) ->
        exists ids, OrderedDict.get category (_categories d2) = Some ids /\ tc_id ∈ ids) /\
    (forall category ids x,
        OrderedDict.get category (_categories d2) = Some ids -> x ∈ ids ->
        (exists ids1, OrderedDict.get category (_categories d1) = Some ids1 /\ x ∈ ids1) \/
        (x = tc_id /\ In category (categories_of classes obj))).
Proof.
  intros Hread Hfully Hbefore.
  assert (Herror : exists type_name,
             registration_error classes obj = Some (unhashable type_name) /\
             match cls_categories (classes obj) with
             | CatUnhashable _ member_type _ => type_name = member_type
             | _ => cls_suite (classes obj) = Some (KeyUnhashable type_name)
             end).
  { unfold categories_readable in Hread. unfold registers_fully in Hfully.
    unfold registration_error.
    destruct (cls_categories (classes obj)) as [|l| |b member_type a];
      [destruct (cls_suite (classes obj)) as [[s|type_name]|]..| |];
      try discriminate; eauto. }
  destruct Herror as (type_name & Herror & Hwhere).
  destruct (stopped_member_cuts_module module_name module_path before after member_name
              obj _ d Herror Hbefore) as (d1 & t1 & Hfirst & Hwhole).
  eexists d1, t1, type_name, _. split; [exact Hwhere|]. split; [exact Hfirst|].
  cbv zeta. rewrite Hwhole.
  destruct (fold_categories_frame (categories_of classes obj)
              (tc_id_of classes module_name obj)
              (set_test_case (tc_id_of classes module_name obj) obj d1)) as [Hcases Hsuites].
  split; [reflexivity|]. split; [exact Hcases|]. split; [exact Hsuites|]. split.
  - intros category Hc. apply fold_categories_member, Hc.
  - intros category ids x H Hx.
    exact (fold_categories_origin _ _ _ _ _ _ H Hx).
Qed.

End DiscoveryFailures.

(* ===================================================================== *)
(** * Further properties of the execution pipeline  *)
(* ===================================================================== *)

(** ** Reading traces  *)

Lemma hooks_of_app {Controller} (a b : list (@Event Controller)) :
  hooks_of (a ++ b) = hooks_of a ++ hooks_of b.
Proof.
  induction a as [|ev a IH]; simpl; [reflexivity|].
  destruct ev; simpl; now rewrite ?IH.
Qed.

Lemma inits_of_app {Controller} (a b : list (@Event Controller)) :
  inits_of (a ++ b) = inits_of a ++ inits_of b.
Proof.
  induction a as [|ev a IH]; simpl; [reflexivity|].
  destruct ev; simpl; now rewrite ?IH.
Qed.



Lemma inits_of_hooks {Controller} (hs : list HookRef) :
  inits_of (map (@EHook Controller) hs) = [].
Proof. induction hs as [|h hs IH]; simpl; [reflexivity | exact IH]. Qed.


Lemma hooks_of_cases {Controller} (controller : option Controller) (cs : list ClassRef) :
  hooks_of (flat_map (case_events controller) cs) = [].
Proof. induction cs as [|c cs IH]; simpl; [reflexivity | exact IH]. Qed.

Lemma inits_of_cases {Controller} (controller : option Controller) (cs : list ClassRef) :
  inits_of (flat_map (case_events controller) cs) = map (fun c => (c, controller)) cs.
Proof. induction cs as [|c cs IH]; simpl; [reflexivity | now rewrite IH]. Qed.

(** ** The loop over the cases of a suite  *)

Section CaseLoop.

Context {Env Controller : Type}.
Variable classes : ClassRef -> @TestCaseClass Env Controller.
Variable controller : option Controller.

Lemma collect_cases_returned (cs : list ClassRef) (env env1 : Env)
    (t : list (@Event Controller)) (results : list models.TestCase) :
  collect cs (fun c => run_test_case classes c controller) env = (env1, t, Returned results) ->
  t = flat_map (case_events controller) cs /\
  Forall2 (result_of_class classes controller) cs results.
Proof.
  revert env env1 t results. induction cs as [|c cs IH]; intros env env1 t results.
  - intros [= <- <- <-]. split; [reflexivity | constructor].
  - simpl. unfold bind at 1.
    destruct (run_test_case classes c controller env) as [[env2 t2] [result|e]] eqn:Erun;
      [|discriminate].
    unfold bind, ret.
    destruct (collect cs _ env2) as [[env3 t3] [rs|e]] eqn:Erest; [|discriminate].
    intros [= <- <- <-]. rewrite app_nil_r.
    destruct (IH _ _ _ _ Erest) as [-> Hrs].
    destruct (run_test_case_cases classes controller _ _ _ _ _ Erun)
      as [(e & [=] & _)|(env0 & tcase & Hinit & Hrun & ->)].
    split; [reflexivity|]. constructor; [|exact Hrs]. exists env, env0, tcase, env2. auto.
Qed.

Lemma collect_cases_raised (cs : list ClassRef) (env env1 : Env)
    (t : list (@Event Controller)) (e : Exn) :
  collect cs (fun c => run_test_case classes c controller) env = (env1, t, Raised e) ->
  exists finished failing rest,
    cs = finished ++ failing :: rest /\
    ((t = flat_map (case_events controller) finished ++ [EInit failing controller] /\
      exists env0, cls_init (classes failing) controller env0 = (env1, Raised e)) \/
     (t = flat_map (case_events controller) finished
            ++ [EInit failing controller; ERun failing] /\
      exists env0 test_case, cls_run (classes failing) test_case env0 = (env1, Raised e))).
Proof.
  revert env env1 t. induction cs as [|c cs IH]; intros env env1 t; [discriminate|].
  simpl. unfold bind at 1.
  destruct (run_test_case classes c controller env) as [[env2 t2] [result|e2]] eqn:Erun.
  - unfold bind, ret.
    destruct (collect cs _ env2) as [[env3 t3] [rs|e3]] eqn:Erest; [discriminate|].
    intros [= <- <- <-].
    destruct (run_test_case_cases classes controller _ _ _ _ _ Erun)
      as [(e0 & [=] & _)|(env0 & tcase & Hinit & Hrun & ->)].
    destruct (IH _ _ _ Erest) as (finished & failing & rest & -> & Hshape).
    exists (c :: finished), failing, rest. split; [reflexivity|].
    destruct Hshape as [[-> Hsrc]|[-> Hsrc]]; [left | right]; split; auto.
  - intros [= <- <- <-].
    exists [], c, cs. split; [reflexivity|].
    destruct (run_test_case_cases classes controller _ _ _ _ _ Erun)
      as [(e0 & [= <-] & -> & Hinit)|(env0 & tcase & Hinit & Hrun & ->)].
    + left. split; [reflexivity | eauto].
    + right. split; [reflexivity | eauto].
Qed.

End CaseLoop.

(** ** A whole suite run  *)

Section SuiteRun.

Context {Env Controller : Type}.
Variable classes : ClassRef -> @TestCaseClass Env Controller.
Variable hooks : HookRef -> @Hook Env.

Lemma run_suite_guarded_unfold (suite : TestSuite) (controller : option Controller)
    (env : Env) :
  run_suite_guarded classes hooks suite controller env =
  match run_hooks hooks (_setup_hooks suite) env with
  | (env1, t1, Returned _) =>
      match collect (test_cases suite)
              (fun c => run_test_case classes c controller) env1 with
      | (env2, t2, r2) =>
          match run_hooks hooks (_teardown_hooks suite) env2 with
          | (env3, t3, Returned _) => (env3, (t1 ++ t2) ++ t3, r2)
          | (env3, t3, Raised e) => (env3, (t1 ++ t2) ++ t3, Raised e)
          end
      end
  | (env1, t1, Raised e) =>
      match run_hooks hooks (_teardown_hooks suite) env1 with
      | (env3, t3, Returned _) => (env3, t1 ++ t3, Raised e)
      | (env3, t3, Raised e') => (env3, t1 ++ t3, Raised e')
      end
  end.
Proof.
  unfold run_suite_guarded, try_finally, bind, run_setup_hooks, run_teardown_hooks.
  destruct (run_hooks hooks (_setup_hooks suite) env) as [[env1 t1] [[]|e]]; [|reflexivity].
  now destruct (collect (test_cases suite) _ env1) as [[env2 t2] r2].
Qed.

Lemma run_test_suite_unfold (suite : TestSuite) (controller : option Controller) (env : Env) :
  run_test_suite classes hooks suite controller env =
  match run_suite_guarded classes hooks suite controller env with
  | (env1, t1, Returned results) =>
      match group_number_of classes (test_cases suite) env1 with
      | (env2, t2, Returned group_number) =>
          (env2, t1 ++ t2,
           Returned (models.mkTestGroup group_number (suite_name suite)
                       (suite_description suite) (map models.ItemCase results)))
      | (env2, t2, Raised e) => (env2, t1 ++ t2, Raised e)
      end
  | (env1, t1, Raised e) => (env1, t1, Raised e)
  end.
Proof.
  unfold run_test_suite, bind at 1.
  destruct (run_suite_guarded classes hooks suite controller env) as [[env1 t1] [rs|e]];
    [|reflexivity].
  unfold bind, ret.
  destruct (group_number_of classes (test_cases suite) env1) as [[env2 t2] [n|e]];
    [now rewrite app_nil_r | reflexivity].
Qed.

Lemma group_number_of_events (cases : list ClassRef) (env env' : Env)
    (tr : list (@Event Controller)) (r : Outcome string) :
  group_number_of classes cases env = (env', tr, r) ->
  hooks_of tr = [] /\ runs_of tr = [] /\
  inits_of tr = match cases with
                | [] => []
                | first :: _ => [(first, None)]
                end /\
  exists group_number, r = Returned group_number.
Proof.
  destruct (group_number_of_cases classes cases env) as (env2 & tr2 & n & Hn & Hcases).
  rewrite Hn. intros [= <- <- <-].
  destruct cases as [|first rest].
  - destruct Hcases as (_ & -> & _). simpl. eauto 6.
  - destruct (cls_init (classes first) None env) as [env1 [temp|e]].
    + destruct Hcases as (_ & Hnum). destruct (inst_number temp).
      * destruct Hnum as (_ & ->). simpl. eauto 6.
      * destruct Hnum as (_ & e & ->). simpl. eauto 6.
    + destruct Hcases as (_ & _ & ->). simpl. eauto 6.
Qed.

(** When [run_test_suite] returns, this is all it did, in this order:
    each setup hook once; for each class of the suite, in suite order,
    one object built with the given controller and run; each teardown
    hook once; then, for a suite that is not empty, one more object of the
    first class built with [None] as controller and not run. The group
    carries the suite's name and description and, position by position,
    the results that [run] returned. *)
Theorem run_test_suite_returned (suite : TestSuite) (controller : option Controller)
    (env env' : Env) (tr : list (@Event Controller)) (g : models.TestGroup) :
  run_test_suite classes hooks suite controller env = (env', tr, Returned g) ->
  exists results tr_number,
    tr = map EHook (_setup_hooks suite)
           ++ flat_map (case_events controller) (test_cases suite)
           ++ map EHook (_teardown_hooks suite)
           ++ tr_number /\
    hooks_of tr_number = [] /\ runs_of tr_number = [] /\
    inits_of tr_number = match test_cases suite with
                         | [] => []
                         | first :: _ => [(first, None)]
                         end /\
    models.name g = suite_name suite /\
    models.description g = suite_description suite /\
    models.groupItems g = map models.ItemCase results /\
    Forall2 (result_of_class classes controller) (test_cases suite) results.
Proof.
  rewrite run_test_suite_unfold, run_suite_guarded_unfold.
  destruct (run_hooks hooks (_setup_hooks suite) env) as [[env1 t1] [[]|e]] eqn:Esetup.
  - destruct (collect (test_cases suite) _ env1) as [[env2 t2] r2] eqn:Ecases.
    destruct (run_hooks hooks (_teardown_hooks suite) env2) as [[env3 t3] [[]|e]] eqn:Etd;
      [|discriminate].
    destruct r2 as [results|e]; [|discriminate].
    destruct (group_number_of classes (test_cases suite) env3) as [[env4 t4] r4] eqn:Egn.
    destruct (group_number_of_events _ _ _ _ _ Egn) as (Hh & Hr & Hi & n & ->).
    intros [= <- <- <-].
    pose proof (run_hooks_outcome hooks _ _ _ _ _ Esetup) as Hs. simpl in Hs.
    pose proof (run_hooks_outcome hooks _ _ _ _ _ Etd) as Ht. simpl in Ht.
    destruct (collect_cases_returned classes controller _ _ _ _ _ Ecases) as [Hc Hres].
    subst t1 t2 t3. exists results, t4. rewrite <- !app_assoc. repeat split; auto.
  - destruct (run_hooks hooks (_teardown_hooks suite) env1) as [[env3 t3] [[]|e']];
      discriminate.
Qed.

(** When [run_test_suite] raises, the teardown loop was still started,
    right after the point where the setup hooks or the cases stopped, and
    nothing came after it: no group is built. Either a setup hook raised
    and no class was touched; or the constructor or [run] of a class
    raised and the classes after it were never built; or hooks and cases
    all returned and a teardown hook raised. *)
Theorem run_test_suite_raised (suite : TestSuite) (controller : option Controller)
    (env env' : Env) (tr : list (@Event Controller)) (e : Exn) :
  run_test_suite classes hooks suite controller env = (env', tr, Raised e) ->
  exists tr_try tr_teardown,
    tr = tr_try ++ tr_teardown /\
    (tr_teardown = map EHook (_teardown_hooks suite) \/
     exists before h after,
       _teardown_hooks suite = before ++ h :: after /\
       tr_teardown = map EHook (before ++ [h])) /\
    ((exists before h after,
         _setup_hooks suite = before ++ h :: after /\
         tr_try = map EHook (before ++ [h])) \/
     (exists finished failing rest last,
         test_cases suite = finished ++ failing :: rest /\
         tr_try = map EHook (_setup_hooks suite)
                    ++ flat_map (case_events controller) finished
                    ++ EInit failing controller :: last /\
         (last = [] \/ last = [ERun failing])) \/
     (tr_try = map EHook (_setup_hooks suite)
                 ++ flat_map (case_events controller) (test_cases suite) /\
      exists before h after,
        _teardown_hooks suite = before ++ h :: after /\
        tr_teardown = map EHook (before ++ [h]))).
Proof.
  rewrite run_test_suite_unfold, run_suite_guarded_unfold.
  assert (Htd : forall env2 env3 t3 r3,
             run_hooks hooks (_teardown_hooks suite) env2 = (env3, t3, r3) ->
             (t3 = map (@EHook Controller) (_teardown_hooks suite) /\ r3 = Returned tt) \/
             ((exists e3, r3 = Raised e3) /\
              exists before h after,
                _teardown_hooks suite = before ++ h :: after /\
                t3 = map EHook (before ++ [h]))).
  { intros env2 env3 t3 r3 H. pose proof (run_hooks_outcome hooks _ _ _ _ _ H) as Ho.
    destruct r3 as [[]|e3]; [left; auto|].
    destruct Ho as (b & h & a & ? & -> & -> & _). right. eauto 8. }
  destruct (run_hooks hooks (_setup_hooks suite) env) as [[env1 t1] [[]|es]] eqn:Esetup.
  - pose proof (run_hooks_outcome hooks _ _ _ _ _ Esetup) as Hs. simpl in Hs. subst t1.
    destruct (collect (test_cases suite) _ env1) as [[env2 t2] r2] eqn:Ecases.
    destruct (run_hooks hooks (_teardown_hooks suite) env2) as [[env3 t3] r3] eqn:Etd.
    destruct (Htd _ _ _ _ Etd) as [[-> ->]|[[e3 ->] Hshape]].
    + destruct r2 as [results|e2].
      * destruct (group_number_of classes (test_cases suite) env3) as [[env4 t4] r4] eqn:Egn.
        destruct (group_number_of_events _ _ _ _ _ Egn) as (_ & _ & _ & n & ->).
        discriminate.
      * intros [= <- <- <-].
        destruct (collect_cases_raised classes controller _ _ _ _ _ Ecases)
          as (finished & failing & rest & Hsplit & Hshape).
        eexists _, _. split; [reflexivity|]. split; [left; reflexivity|].
        right. left. exists finished, failing, rest.
        destruct Hshape as [[-> _]|[-> _]].
        -- exists []. auto.
        -- exists [ERun failing]. auto.
    + intros [= <- <- <-].
      eexists _, _. split; [reflexivity|]. split; [right; exact Hshape|].
      destruct r2 as [results|e2].
      * destruct (collect_cases_returned classes controller _ _ _ _ _ Ecases) as [-> _].
        right. right. auto.
      * destruct (collect_cases_raised classes controller _ _ _ _ _ Ecases)
          as (finished & failing & rest & Hsplit & Hcase).
        right. left. exists finished, failing, rest.
        destruct Hcase as [[-> _]|[-> _]].
        -- exists []. auto.
        -- exists [ERun failing]. auto.
  - destruct (run_hooks_outcome hooks _ _ _ _ _ Esetup) as (b & h & a & ? & Hb & -> & _).
    destruct (run_hooks hooks (_teardown_hooks suite) env1) as [[env3 t3] r3] eqn:Etd.
    destruct (Htd _ _ _ _ Etd) as [[-> ->]|[[e3 ->] Hshape]];
      intros [= <- <- <-]; eexists _, _; (split; [reflexivity|]).
    + split; [left; reflexivity | left; eauto].
    + split; [right; exact Hshape | left; eauto].
Qed.

End SuiteRun.

(** ** Runs by id and by category  *)

Section SelectionRuns.

Context {Env Controller : Type}.
Variable classes : ClassRef -> @TestCaseClass Env Controller.
Variable set_iter : gset string -> list string.

Lemma collect_cases_no_hooks (controller : option Controller) (cs : list ClassRef)
    (env env1 : Env) (t : list (@Event Controller)) (r : Outcome (list models.TestCase)) :
  collect cs (fun c => run_test_case classes c controller) env = (env1, t, r) ->
  hooks_of t = [].
Proof.
  intros H. destruct r as [results|e].
  - destruct (collect_cases_returned classes controller _ _ _ _ _ H) as [-> _].
    apply hooks_of_cases.
  - destruct (collect_cases_raised classes controller _ _ _ _ _ H)
      as (finished & failing & rest & _ & [[-> _]|[-> _]]);
      now rewrite hooks_of_app, hooks_of_cases.
Qed.

Lemma run_selected_loop_no_hooks (d : TestDiscovery) (controller : option Controller)
    (ids : list string) (env env1 : Env) (t : list (@Event Controller))
    (r : Outcome (list models.TestCase * list ClassRef)) :
  run_selected_loop classes d ids controller env = (env1, t, r) ->
  hooks_of t = [].
Proof.
  revert env env1 t r. induction ids as [|tc_id rest IH]; intros env env1 t r.
  - intros [= <- <- <-]. reflexivity.
  - rewrite run_selected_loop_cons.
    destruct (get_test_case d tc_id) as [c|].
    + destruct (run_test_case classes c controller env) as [[env2 t2] [result|e]] eqn:Erun.
      * assert (Ht2 : hooks_of t2 = []).
        { destruct (run_test_case_cases classes controller _ _ _ _ _ Erun)
            as [(e0 & _ & -> & _)|(env0 & tcase & _ & _ & ->)]; reflexivity. }
        destruct (run_selected_loop classes d rest controller env2)
          as [[env3 t3] [acc|e]] eqn:Eloop; intros [= <- <- <-];
          now rewrite hooks_of_app, Ht2, (IH _ _ _ _ Eloop).
      * intros [= <- <- <-].
        destruct (run_test_case_cases classes controller _ _ _ _ _ Erun)
          as [(e0 & _ & -> & _)|(env0 & tcase & _ & _ & ->)]; reflexivity.
    + destruct (run_selected_loop classes d rest controller env)
        as [[env3 t3] r3] eqn:Eloop.
      intros [= <- <- <-]. simpl. exact (IH _ _ _ _ Eloop).
Qed.

Lemma run_by_category_unfold (self : TestExecutionPipeline) (category : string)
    (controller : option Controller) (env : Env) :
  let cases := get_test_cases_by_category set_iter (_discovery self) category in
  run_test_cases_by_category classes set_iter self category controller env =
  match collect cases (fun c => run_test_case classes c controller) env with
  | (env1, t1, Returned results) =>
      match group_number_of classes cases env1 with
      | (env2, t2, Returned group_number) =>
          (env2, t1 ++ t2,
           Returned (models.mkTestGroup group_number ("Category: " +:+ category)
                       ("Test cases in category '" +:+ category +:+ "'")
                       (map models.ItemCase results)))
      | (env2, t2, Raised e) => (env2, t1 ++ t2, Raised e)
      end
  | (env1, t1, Raised e) => (env1, t1, Raised e)
  end.
Proof.
  cbv zeta. unfold run_test_cases_by_category, bind at 1.
  destruct (collect _ _ env) as [[env1 t1] [results|e]]; [|reflexivity].
  unfold bind, ret.
  destruct (group_number_of classes _ env1) as [[env2 t2] [n|e]];
    [now rewrite app_nil_r | reflexivity].
Qed.

(** Runs by id and runs by category call no hook at all, neither a
    suite's nor a global one, however they end. *)
Theorem selection_runs_call_no_hook (self : TestExecutionPipeline) (ids : list string)
    (category : string) (controller : option Controller) (env : Env) :
  hooks_of (snd (fst (run_selected_test_cases classes self ids controller env))) = [] /\
  hooks_of (snd (fst (run_test_cases_by_category classes set_iter self category
                        controller env))) = [].
Proof.
  split.
  - rewrite run_selected_unfold.
    destruct (run_selected_loop classes (_discovery self) ids controller env)
      as [[env1 t1] [acc|e]] eqn:Eloop.
    + pose proof (run_selected_loop_no_hooks _ _ _ _ _ _ _ Eloop) as H1.
      destruct (group_number_of classes (snd acc) env1) as [[env2 t2] r2] eqn:Egn.
      destruct (group_number_of_events _ _ _ _ _ _ Egn) as (H2 & _ & _ & n & ->).
      simpl. now rewrite hooks_of_app, H1, H2.
    + exact (run_selected_loop_no_hooks _ _ _ _ _ _ _ Eloop).
  - rewrite run_by_category_unfold.
    destruct (collect _ _ env) as [[env1 t1] [results|e]] eqn:Ecases.
    + pose proof (collect_cases_no_hooks _ _ _ _ _ _ Ecases) as H1.
      destruct (group_number_of classes _ env1) as [[env2 t2] r2] eqn:Egn.
      destruct (group_number_of_events _ _ _ _ _ _ Egn) as (H2 & _ & _ & n & ->).
      simpl. now rewrite hooks_of_app, H1, H2.
    + exact (collect_cases_no_hooks _ _ _ _ _ _ Ecases).
Qed.

(** A category that the registry does not know is not an error and is
    not logged: the run returns at once a group with number "0" and no
    items. When a run by category returns, the group is named after the
    category and its items are, position by position, the results of the
    classes that [get_test_cases_by_category] lists, which were built and
    run in that order before one more object of the first was built with
    [None]. *)
Theorem run_by_category_outcome (self : TestExecutionPipeline) (category : string)
    (controller : option Controller) (env : Env) :
  (OrderedDict.get category (_categories (_discovery self)) = None ->
   run_test_cases_by_category classes set_iter self category controller env =
   (env, [],
    Returned (models.mkTestGroup "0" ("Category: " +:+ category)
                ("Test cases in category '" +:+ category +:+ "'") []))) /\
  (forall env' tr g,
      run_test_cases_by_category classes set_iter self category controller env
        = (env', tr, Returned g) ->
      let cases := get_test_cases_by_category set_iter (_discovery self) category in
      models.name g = "Category: " +:+ category /\
      exists results tr_number,
        models.groupItems g = map models.ItemCase results /\
        Forall2 (result_of_class classes controller) cases results /\
        tr = flat_map (case_events controller) cases ++ tr_number /\
        runs_of tr_number = [] /\
        inits_of tr_number = match cases with
                             | [] => []
                             | first :: _ => [(first, None)]
                             end).
Proof.
  split.
  - intros Hnone. rewrite run_by_category_unfold.
    unfold get_test_cases_by_category. rewrite Hnone. reflexivity.
  - intros env' tr g. rewrite run_by_category_unfold. cbv zeta.
    destruct (collect _ _ env) as [[env1 t1] [results|e]] eqn:Ecases; [|discriminate].
    destruct (group_number_of classes _ env1) as [[env2 t2] r2] eqn:Egn.
    destruct (group_number_of_events _ _ _ _ _ _ Egn) as (_ & Hr & Hi & n & ->).
    intros [= <- <- <-].
    destruct (collect_cases_returned classes controller _ _ _ _ _ Ecases) as [-> Hres].
    split; [reflexivity|]. exists results, t2. auto.
Qed.

Lemma lookup_listing {V} (cases : OrderedDict.t V) (l : list string) :
  Forall2 (fun k v => OrderedDict.get k cases = Some v)
    (List.filter (fun k => OrderedDict.mem k cases) l)
    (flat_map (fun k => match OrderedDict.get k cases with
                        | Some v => [v]
                        | None => []
                        end) l).
Proof.
  induction l as [|k l IH]; simpl; [constructor|].
  unfold OrderedDict.mem at 1.
  destruct (OrderedDict.get k cases) as [v|] eqn:G; simpl; [|exact IH].
  constructor; assumption.
Qed.

(** The classes of a category are the classes that the ids of the
    category resolve to now, one for each id that resolves, in the order
    in which the set of ids is iterated: an id that no longer resolves is
    passed over, no id is used twice, and an unknown category has no
    classes. *)
Theorem by_category_lookup (self : TestDiscovery) (category : string) :
  (forall s, List.NoDup (set_iter s) /\ forall x, In x (set_iter s) <-> x ∈ s) ->
  (OrderedDict.get category (_categories self) = None ->
   get_test_cases_by_category set_iter self category = []) /\
  (forall ids,
      OrderedDict.get category (_categories self) = Some ids ->
      exists found_ids,
        found_ids = List.filter (fun tc_id => OrderedDict.mem tc_id (_test_cases self))
                      (set_iter ids) /\
        List.NoDup found_ids /\
        (forall tc_id,
            In tc_id found_ids <-> tc_id ∈ ids /\ get_test_case self tc_id <> None) /\
        Forall2 (fun tc_id c => get_test_case self tc_id = Some c)
          found_ids (get_test_cases_by_category set_iter self category)) /\
  (forall c,
      In c (get_test_cases_by_category set_iter self category) <->
      exists ids tc_id,
        OrderedDict.get category (_categories self) = Some ids /\
        tc_id ∈ ids /\ get_test_case self tc_id = Some c).
Proof.
  intros Hiter. unfold get_test_cases_by_category, get_test_case. split; [|split].
  - now intros ->.
  - intros ids ->. eexists. split; [reflexivity|]. split; [|split].
    + apply List.NoDup_filter, Hiter.
    + intros tc_id. rewrite filter_In, (proj2 (Hiter ids)). unfold OrderedDict.mem.
      destruct (OrderedDict.get tc_id (_test_cases self));
        split; intros [H1 H2]; split; congruence.
    + apply lookup_listing.
  - intros c. destruct (OrderedDict.get category (_categories self)) as [ids|].
    + rewrite in_flat_map. split.
      * intros (tc_id & Hin & Hc). exists ids, tc_id.
        apply Hiter in Hin. split; [reflexivity|]. split; [assumption|].
        destruct (OrderedDict.get tc_id (_test_cases self)) as [c'|]; [|destruct Hc].
        destruct Hc as [->|[]]. reflexivity.
      * intros (ids' & tc_id & [= <-] & Hin & Hc). exists tc_id.
        split; [now apply Hiter|]. rewrite Hc. now left.
    + split; [intros [] | intros (? & ? & [=] & _)].
Qed.

End SelectionRuns.

(** ** Building a suite  *)

Lemma fold_calls_fields (calls : list SuiteCall) (s : TestSuite) :
  let built := fold_left apply_call calls s in
  test_cases built = test_cases (fold_left add_test_case (cases_of_calls calls) s) /\
  _setup_hooks built = _setup_hooks s ++ setup_of_calls calls /\
  _teardown_hooks built = _teardown_hooks s ++ teardown_of_calls calls /\
  suite_categories built = list_to_set (categories_of_calls calls) ∪ suite_categories s /\
  suite_name built = suite_name s /\
  suite_description built = suite_description s.
Proof.
  revert s. induction calls as [|call calls IH]; intros s; simpl.
  - rewrite !app_nil_r. repeat split. set_solver.
  - destruct (IH (apply_call s call)) as (Hc & Hs & Ht & Hg & Hn & Hd).
    destruct (add_test_case_fields s match call with
                                     | CallAddTestCase c => c
                                     | _ => 0
                                     end) as (_ & An & Ad & Ag & As & At).
    destruct call as [c|category|h|h]; simpl in *.
    + rewrite Hc, Hs, Ht, Hg, Hn, Hd, An, Ad, Ag, As, At. repeat split.
    + rewrite Hs, Ht, Hg, Hn, Hd. split; [|repeat split; set_solver].
      rewrite Hc. clear.
      generalize (cases_of_calls calls) as cs. intros cs.
      rewrite !test_cases_fold_add. reflexivity.
    + rewrite Hs, Ht, Hg, Hn, Hd. simpl. rewrite <- app_assoc.
      split; [|repeat split].
      rewrite Hc, !test_cases_fold_add. reflexivity.
    + rewrite Hs, Ht, Hg, Hn, Hd. simpl. rewrite <- app_assoc.
      split; [|repeat split].
      rewrite Hc, !test_cases_fold_add. reflexivity.
Qed.

(** However the registration calls on a fresh suite are interleaved, the
    suite ends with: each class once, at the place of its first
    [add_test_case]; every setup hook and every teardown hook, in call
    order and as many times as it was added; the categories added, as a
    set; the name and description it was created with. *)
Theorem suite_registration_calls_compose (name description : string)
    (calls : list SuiteCall) :
  let built := fold_left apply_call calls (TestSuite_init name description) in
  test_cases built = first_occurrences (cases_of_calls calls) /\
  _setup_hooks built = setup_of_calls calls /\
  _teardown_hooks built = teardown_of_calls calls /\
  (forall category,
      category ∈ suite_categories built <-> In category (categories_of_calls calls)) /\
  suite_name built = name /\ suite_description built = description.
Proof.
  destruct (fold_calls_fields calls (TestSuite_init name description))
    as (Hc & Hs & Ht & Hg & Hn & Hd).
  cbv zeta in *. simpl in *. split; [|split; [|split; [|split]]]; auto.
  - rewrite Hc, test_cases_fold_add. simpl.
    induction (first_occurrences (cases_of_calls calls)) as [|x l IH]; simpl;
      [reflexivity | now rewrite IH].
  - intros category. rewrite Hg, <- list_elem_of_In. set_solver.
Qed.

(** ** A freshly created pipeline  *)



Section CreatedPipeline.

Context {Env Controller : Type}.
Variable classes : ClassRef -> @TestCaseClass Env Controller.
Variable hooks : HookRef -> @Hook Env.




Lemma init_suites_well_formed : suites_well_formed classes TestDiscovery_init.
Proof. split; [constructor | intros name s; discriminate]. Qed.


End CreatedPipeline.

(** ** Discovery order is insertion order  *)

Lemma fresh_strings_app (seen l1 l2 : list string) :
  fresh_strings seen (l1 ++ l2) =
  fresh_strings seen l1 ++ fresh_strings (seen ++ fresh_strings seen l1) l2.
Proof.
  revert seen. induction l1 as [|x l1 IH]; intros seen; simpl.
  - now rewrite app_nil_r.
  - destruct (existsb (String.eqb x) seen); [apply IH|].
    simpl. rewrite IH, <- app_assoc. reflexivity.
Qed.

Lemma od_mem_existsb {V} (k : string) (d : OrderedDict.t V) :
  OrderedDict.mem k d = existsb (String.eqb k) (OrderedDict.keys d).
Proof.
  unfold OrderedDict.mem. induction d as [|[k' v] d IH]; simpl; [reflexivity|].
  destruct (String.eqb k k'); [reflexivity | exact IH].
Qed.

Lemma od_keys_set_fresh {V} (k : string) (v : V) (d : OrderedDict.t V) :
  OrderedDict.keys (OrderedDict.set k v d) =
  OrderedDict.keys d ++ fresh_strings (OrderedDict.keys d) [k].
Proof.
  rewrite od_keys_set, od_mem_existsb. simpl.
  destruct (existsb (String.eqb k) (OrderedDict.keys d)); [now rewrite app_nil_r | reflexivity].
Qed.

Lemma recorded_ids_app {Controller} (a b : list (@Event Controller)) :
  recorded_ids (a ++ b) = recorded_ids a ++ recorded_ids b.
Proof.
  induction a as [|ev a IH]; simpl; [reflexivity|].
  destruct ev as [[] []| | |]; simpl; now rewrite ?IH.
Qed.

Section DiscoveryOrder.

Context {Env Controller : Type}.
Variable classes : ClassRef -> @TestCaseClass Env Controller.

Lemma recorded_suites_app (a b : list (@Event Controller)) :
  recorded_suites classes (a ++ b) = recorded_suites classes a ++ recorded_suites classes b.
Proof.
  induction a as [|ev a IH]; simpl; [reflexivity|].
  destruct ev as [[] []| | |]; simpl; rewrite ?IH; try reflexivity.
  now destruct (suite_joined classes obj).
Qed.

Lemma recorded_categories_app (a b : list (@Event Controller)) :
  recorded_categories classes (a ++ b)
  = recorded_categories classes a ++ recorded_categories classes b.
Proof.
  induction a as [|ev a IH]; simpl; [reflexivity|].
  destruct ev as [[] []| | |]; simpl; rewrite ?IH; try reflexivity.
  now rewrite app_assoc.
Qed.

Lemma keeps_order_refl (d : TestDiscovery) :
  keeps_discovery_order classes d ([] : list (@Event Controller)) d.
Proof. unfold keeps_discovery_order. simpl. now rewrite !app_nil_r. Qed.

Lemma keeps_order_trans (d0 d1 d2 : TestDiscovery) (t1 t2 : list (@Event Controller)) :
  keeps_discovery_order classes d0 t1 d1 -> keeps_discovery_order classes d1 t2 d2 ->
  keeps_discovery_order classes d0 (t1 ++ t2) d2.
Proof.
  intros (A1 & B1 & C1) (A2 & B2 & C2). unfold keeps_discovery_order.
  rewrite recorded_ids_app, recorded_suites_app, recorded_categories_app.
  rewrite !fresh_strings_app, A2, B2, C2, A1, B1, C1, <- !app_assoc. auto.
Qed.

Lemma keeps_order_log (d : TestDiscovery) (lvl : Level) (m : LogMsg) :
  (forall tc_id obj, m <> MsgDiscoveredCase tc_id obj) ->
  keeps_discovery_order classes d ([ELog lvl m] : list (@Event Controller)) d.
Proof.
  intros Hm. unfold keeps_discovery_order.
  destruct lvl; simpl; rewrite ?app_nil_r; auto.
  destruct m; simpl; rewrite ?app_nil_r; auto. now destruct (Hm tc_id obj).
Qed.

Lemma fold_categories_keys (categories : list string) (tc_id : string) (d : TestDiscovery) :
  OrderedDict.keys
    (_categories (fold_left (fun acc c => add_to_category c tc_id acc) categories d))
  = OrderedDict.keys (_categories d)
      ++ fresh_strings (OrderedDict.keys (_categories d)) categories.
Proof.
  revert d. induction categories as [|c l IH]; intros d; simpl.
  - now rewrite app_nil_r.
  - rewrite IH. unfold add_to_category at 1 2. simpl.
    rewrite od_keys_set, od_mem_existsb.
    destruct (existsb (String.eqb c) (OrderedDict.keys (_categories d))).
    + reflexivity.
    + now rewrite <- app_assoc.
Qed.

Lemma register_member_keeps_order (module_name : string) (obj : ClassRef) :
  respects (Controller := Controller) (keeps_discovery_order classes)
    (register_member classes module_name obj).
Proof.
  intros d. rewrite register_member_run.
  set (tc_id := tc_id_of classes module_name obj).
  unfold keeps_discovery_order.
  destruct (fold_categories_frame (categories_of classes obj) tc_id
              (set_test_case tc_id obj d)) as [Hcases Hsuites].
  simpl in Hcases, Hsuites.
  destruct (suite_joined classes obj) as [joined|] eqn:Hjoined; simpl; rewrite Hjoined;
    rewrite Hcases, ?Hsuites, !app_nil_r.
  - split; [apply od_keys_set_fresh|]. split; [apply od_keys_set_fresh|].
    exact (fold_categories_keys _ tc_id (set_test_case tc_id obj d)).
  - split; [apply od_keys_set_fresh|]. split; [reflexivity|].
    exact (fold_categories_keys _ tc_id (set_test_case tc_id obj d)).
Qed.

(** The order of the registry is the order of discovery. After
    discovery, the ids, the suite names and the category names that were
    in the registry come first, unmoved, followed by the new ones, each at
    the place where discovery first recorded it; so
    [get_all_test_suites], [get_all_categories] and [run_all_test_suites]
    go through suites and categories in the order in which discovery
    first met them. *)
Theorem discovery_order_is_insertion_order (package : Package) (package_name : string)
    (d0 d1 : TestDiscovery) (tr : list (@Event Controller)) (r : Outcome unit) :
  discover_test_cases classes package package_name d0 = (d1, tr, r) ->
  OrderedDict.keys (_test_cases d1) =
    OrderedDict.keys (_test_cases d0)
      ++ fresh_strings (OrderedDict.keys (_test_cases d0)) (recorded_ids tr) /\
  OrderedDict.keys (_test_suites d1) =
    OrderedDict.keys (_test_suites d0)
      ++ fresh_strings (OrderedDict.keys (_test_suites d0)) (recorded_suites classes tr) /\
  get_all_categories d1 =
    get_all_categories d0
      ++ fresh_strings (get_all_categories d0) (recorded_categories classes tr).
Proof.
  intros Hrun.
  pose proof (respects_discover classes (keeps_discovery_order classes)
                keeps_order_refl keeps_order_trans keeps_order_log
                register_member_keeps_order package package_name d0) as H.
  rewrite Hrun in H. exact H.
Qed.

End DiscoveryOrder.

(** ** Discovering twice  *)

Lemma od_ext {V} (a b : OrderedDict.t V) :
  List.NoDup (OrderedDict.keys a) ->
  OrderedDict.keys a = OrderedDict.keys b ->
  (forall k, OrderedDict.get k a = OrderedDict.get k b) ->
  a = b.
Proof.
  revert b. induction a as [|[k v] a IH]; intros [|[k' v'] b]; simpl;
    try discriminate; [reflexivity|].
  intros Hnd [= <- Hkeys] Hget.
  inversion Hnd as [|? ? Hk Hnd']; subst.
  pose proof (Hget k) as Hhead. rewrite String.eqb_refl in Hhead.
  injection Hhead as <-. f_equal. apply IH; [assumption..|].
  intros k0. specialize (Hget k0).
  destruct (String.eqb k0 k) eqn:E; [|exact Hget].
  apply String.eqb_eq in E. subst k0.
  destruct (OrderedDict.get k a) eqn:Ea.
  - exfalso. apply Hk, od_get_In_keys. congruence.
  - destruct (OrderedDict.get k b) eqn:Eb; [|reflexivity].
    exfalso. apply Hk. rewrite Hkeys. apply od_get_In_keys. congruence.
Qed.

Lemma existsb_eqb_In (x : string) (l : list string) :
  existsb (String.eqb x) l = true <-> In x l.
Proof.
  rewrite existsb_exists. split.
  - intros (y & Hy & E). apply String.eqb_eq in E. now subst.
  - intros H. exists x. split; [assumption | apply String.eqb_refl].
Qed.

Lemma fresh_strings_known (seen l : list string) :
  (forall x, In x l -> In x seen) -> fresh_strings seen l = [].
Proof.
  revert seen. induction l as [|x l IH]; intros seen Hall; simpl; [reflexivity|].
  destruct (existsb (String.eqb x) seen) eqn:E.
  - apply IH. intros y Hy. apply Hall. now right.
  - assert (In x seen) by (apply Hall; now left).
    apply existsb_eqb_In in H. congruence.
Qed.

Lemma fresh_strings_In (seen l : list string) (x : string) :
  In x l -> In x (seen ++ fresh_strings seen l).
Proof.
  revert seen. induction l as [|y l IH]; intros seen; [intros []|].
  intros [->|Hin]; simpl.
  - destruct (existsb (String.eqb x) seen) eqn:E.
    + apply in_or_app. left. now apply existsb_eqb_In.
    + apply in_or_app. right. now left.
  - destruct (existsb (String.eqb y) seen) eqn:E; [now apply IH|].
    specialize (IH (seen ++ [y]) Hin). rewrite <- app_assoc in IH. exact IH.
Qed.

Lemma fresh_strings_NoDup (seen l : list string) :
  List.NoDup seen -> List.NoDup (seen ++ fresh_strings seen l).
Proof.
  revert seen. induction l as [|x l IH]; intros seen Hnd; simpl.
  - now rewrite app_nil_r.
  - destruct (existsb (String.eqb x) seen) eqn:E; [now apply IH|].
    specialize (IH (seen ++ [x])). rewrite <- app_assoc in IH. apply IH.
    apply List.NoDup_app; [assumption | repeat constructor; intros [] |].
    intros y Hy [<-|[]].
    apply existsb_eqb_In in Hy. congruence.
Qed.

Lemma In_logged_at {Controller} (lvl : Level) (m : LogMsg) (tr : list (@Event Controller)) :
  In m (logged_at lvl tr) <-> In (ELog lvl m) tr.
Proof.
  induction tr as [|ev tr IH]; simpl; [tauto|].
  destruct ev as [l m'| | |].
  - destruct l, lvl; simpl; rewrite IH; split;
      try (intros [H|H]; [left; congruence | right; assumption]);
      try (intros H; right; exact H);
      try (intros [H|H]; [discriminate | assumption]).
  - rewrite IH. split; [auto | intros [H|H]; [discriminate | assumption]].
  - rewrite IH. split; [auto | intros [H|H]; [discriminate | assumption]].
  - rewrite IH. split; [auto | intros [H|H]; [discriminate | assumption]].
Qed.

Lemma last_registration_records {Controller} (tc_id : string)
    (tr : list (@Event Controller)) :
  last_registration tc_id tr
  = last_registration tc_id (map (@ELog Controller DEBUG) (logged_at DEBUG tr)).
Proof.
  induction tr as [|ev tr IH]; simpl; [reflexivity|].
  destruct ev as [l m| | |]; simpl; rewrite IH;
    try (now destruct (last_registration tc_id (map (ELog DEBUG) (logged_at DEBUG tr)))).
  destruct l; simpl;
    destruct (last_registration tc_id (map (ELog DEBUG) (logged_at DEBUG tr)));
    reflexivity.
Qed.

Lemma recorded_ids_records {Controller} (tr : list (@Event Controller)) :
  recorded_ids tr = recorded_ids (map (@ELog Controller DEBUG) (logged_at DEBUG tr)).
Proof.
  induction tr as [|ev tr IH]; simpl; [reflexivity|].
  destruct ev as [l m| | |]; simpl; try exact IH.
  destruct l; simpl; try exact IH. destruct m; simpl; now rewrite ?IH.
Qed.

Section FlowIndependence.

Context {Env Controller : Type}.
Variable classes : ClassRef -> @TestCaseClass Env Controller.

Lemma recorded_suites_records (tr : list (@Event Controller)) :
  recorded_suites classes tr
  = recorded_suites classes (map (@ELog Controller DEBUG) (logged_at DEBUG tr)).
Proof.
  induction tr as [|ev tr IH]; simpl; [reflexivity|].
  destruct ev as [l m| | |]; simpl; try exact IH.
  destruct l; simpl; try exact IH. destruct m; simpl; now rewrite ?IH.
Qed.

Lemma recorded_categories_records (tr : list (@Event Controller)) :
  recorded_categories classes tr
  = recorded_categories classes (map (@ELog Controller DEBUG) (logged_at DEBUG tr)).
Proof.
  induction tr as [|ev tr IH]; simpl; [reflexivity|].
  destruct ev as [l m| | |]; simpl; try exact IH.
  destruct l; simpl; try exact IH. destruct m; simpl; now rewrite ?IH.
Qed.

Lemma flow_bind {A B} (m : @M Controller TestDiscovery A) (k : A -> M TestDiscovery B) :
  flow_independent m ->
  (forall a a' d d', same_flow (k a d) (k a' d')) ->
  flow_independent (bind m k).
Proof.
  intros Hm Hk d d'. destruct (Hm d d') as [Ht Hr]. unfold bind, same_flow in *.
  destruct (m d) as [[d1 t1] [a|e]], (m d') as [[d1' t1'] [a'|e']]; simpl in *;
    try contradiction.
  - destruct (Hk a a' d1 d1') as [Ht2 Hr2].
    destruct (k a d1) as [[d2 t2] r2], (k a' d1') as [[d2' t2'] r2']. simpl in *.
    now rewrite !logged_at_app, Ht, Ht2.
  - auto.
Qed.

Lemma flow_bind_unit {B} (m : @M Controller TestDiscovery unit) (k : unit -> M TestDiscovery B) :
  flow_independent m -> flow_independent (k tt) -> flow_independent (bind m k).
Proof.
  intros Hm Hk. apply flow_bind; [exact Hm|]. intros [] [] d d'. apply Hk.
Qed.

Lemma flow_simple {A} (m : @M Controller TestDiscovery A) (t : list (@Event Controller))
    (r : Outcome A) :
  (forall d, exists d1, m d = (d1, t, r)) -> flow_independent m.
Proof.
  intros H d d'. destruct (H d) as [d1 ->], (H d') as [d1' ->].
  split; [reflexivity|]. now destruct r.
Qed.

Lemma flow_for_each {A} (xs : list A) (body : A -> @M Controller TestDiscovery unit) :
  (forall x, flow_independent (body x)) -> flow_independent (for_each xs body).
Proof.
  intros Hbody. induction xs as [|x xs IH]; simpl.
  - apply (flow_simple _ [] (Returned tt)). intros d. now exists d.
  - apply flow_bind_unit; auto.
Qed.

Lemma flow_register_member (module_name : string) (obj : ClassRef) :
  flow_independent (Controller := Controller) (register_member classes module_name obj).
Proof.
  intros d d'. rewrite !register_member_run.
  split; [reflexivity|]. simpl. now destruct (registration_error classes obj).
Qed.

Lemma flow_process_module (module_name module_path : string) (m : ModuleImport) :
  flow_independent (Controller := Controller)
    (process_module classes module_name module_path m).
Proof.
  unfold process_module. intros d d'. unfold try_except.
  assert (Hbody : flow_independent
            match m with
            | ImportRaises e => raise e
            | ImportOk members =>
                for_each (Controller := Controller) members
                  (fun member => match snd member with
                                 | MemTestCase obj => register_member classes module_name obj
                                 | MemBase | MemOther => ret tt
                                 end)
            end).
  { destruct m as [e|members].
    - apply (flow_simple _ [] (Raised e)). intros d0. now exists d0.
    - apply flow_for_each. intros [n [obj| |]]; simpl.
      + apply flow_register_member.
      + apply (flow_simple _ [] (Returned tt)). intros d0. now exists d0.
      + apply (flow_simple _ [] (Returned tt)). intros d0. now exists d0. }
  destruct (Hbody d d') as [Ht Hr]. unfold same_flow in *.
  destruct (match m with ImportRaises e => raise e | ImportOk members => _ end d)
    as [[d1 t1] [[]|e]],
    (match m with ImportRaises e => raise e | ImportOk members => _ end d')
    as [[d1' t1'] [[]|e']]; simpl in *; try contradiction.
  - auto.
  - subst e'. destruct (exn_type e); simpl; rewrite !logged_at_app, Ht; auto.
Qed.

Lemma flow_discover (package : Package) :
  forall package_name,
    flow_independent (Controller := Controller)
      (discover_test_cases classes package package_name).
Proof.
  induction package as [e|entries IH] using Package_nested_ind; intros package_name; simpl.
  - apply flow_bind_unit.
    + apply (flow_simple _ [ELog INFO (MsgDiscovering package_name)] (Returned tt)).
      intros d. now exists d.
    + apply (flow_simple _ [] (Raised e)). intros d. now exists d.
  - apply flow_bind_unit.
    + apply (flow_simple _ [ELog INFO (MsgDiscovering package_name)] (Returned tt)).
      intros d. now exists d.
    + apply flow_bind_unit.
      * induction IH as [|[module_name [p|m]] rest Hentry _ IHrest]; simpl.
        -- apply (flow_simple _ [] (Returned tt)). intros d. now exists d.
        -- apply flow_bind_unit; [apply Hentry | exact IHrest].
        -- apply flow_bind_unit; [|exact IHrest].
           destruct (String.prefix "tc_hmp_" module_name).
           ++ apply flow_process_module.
           ++ apply (flow_simple _ [] (Returned tt)). intros d. now exists d.
      * apply flow_bind.
        -- intros d d'. split; [reflexivity | exact I].
        -- intros a a' d d'. split; [reflexivity | exact I].
Qed.

End FlowIndependence.

Section Rediscovery.

Context {Env Controller : Type}.
Variable classes : ClassRef -> @TestCaseClass Env Controller.

Lemma discovery_relations (package : Package) (package_name : string)
    (d0 d1 : TestDiscovery) (tr : list (@Event Controller)) (r : Outcome unit) :
  discover_test_cases classes package package_name d0 = (d1, tr, r) ->
  registry_step d0 tr d1 /\
  keeps_discovery_order classes d0 tr d1 /\
  keeps_suites_well_formed classes d0 tr d1 /\
  registrations_land classes d0 tr d1 /\
  members_come_from classes d0 tr d1.
Proof.
  intros Hrun.
  pose proof (faithful_discover classes package package_name d0) as H1.
  pose proof (respects_discover classes (keeps_discovery_order classes)
                (keeps_order_refl classes) (keeps_order_trans classes)
                (keeps_order_log classes) (register_member_keeps_order classes)
                package package_name d0) as H2.
  pose proof (respects_discover classes (keeps_suites_well_formed classes)
                (keeps_suites_refl classes) (keeps_suites_trans classes)
                (fun d lvl m _ => keeps_suites_frame classes d d [ELog lvl m]
                                    (registry_grows_refl d) eq_refl)
                (register_member_keeps_suites classes) package package_name d0) as H3.
  pose proof (respects_discover classes (registrations_land classes)
                (registrations_land_refl classes) (registrations_land_trans classes)
                (registrations_land_log classes)
                (register_member_lands classes) package package_name d0) as H4.
  pose proof (respects_discover classes (members_come_from classes)
                (members_come_from_refl classes) (members_come_from_trans classes)
                (fun d lvl m _ => members_come_from_log classes d lvl m)
                (register_member_origin classes) package package_name d0) as H5.
  rewrite Hrun in H1, H2, H3, H4, H5. auto.
Qed.

Lemma keys_settled (keys0 keys1 keys2 recorded : list string) :
  keys1 = keys0 ++ fresh_strings keys0 recorded ->
  keys2 = keys1 ++ fresh_strings keys1 recorded ->
  keys2 = keys1.
Proof.
  intros H1 H2. rewrite H2, fresh_strings_known; [apply app_nil_r|].
  intros x Hx. rewrite H1. now apply fresh_strings_In.
Qed.

Lemma NoDup_app_apart {A} (l1 l2 : list A) :
  List.NoDup (l1 ++ l2) -> forall x, In x l1 -> ~ In x l2.
Proof.
  induction l1 as [|a l1 IH]; simpl; intros Hnd x Hx Hx2; [destruct Hx|].
  inversion Hnd as [|? ? Hnot Hrest]; subst.
  destruct Hx as [->|Hx].
  - apply Hnot, in_or_app. now right.
  - exact (IH Hrest x Hx Hx2).
Qed.

Lemma od_get_None_keys {V} (k : string) (a b : OrderedDict.t V) :
  OrderedDict.keys a = OrderedDict.keys b ->
  OrderedDict.get k a = None -> OrderedDict.get k b = None.
Proof.
  intros Hkeys Ha. destruct (OrderedDict.get k b) eqn:Hb; [|reflexivity].
  exfalso. assert (Hin : In k (OrderedDict.keys b)) by (apply od_get_In_keys; congruence).
  rewrite <- Hkeys in Hin. apply od_get_In_keys in Hin. congruence.
Qed.

(** Discovering the same package a second time changes nothing: from a
    registry that discovery left, a second pass over the package ends the
    same way, records the same classes, and leaves the registry exactly
    as it was, order included. *)
Theorem rediscovery_changes_nothing (package : Package) (package_name : string)
    (d0 d1 : TestDiscovery) (tr : list (@Event Controller)) (r : Outcome unit) :
  registry_well_formed classes d0 ->
  discover_test_cases classes package package_name d0 = (d1, tr, r) ->
  exists tr2,
    discover_test_cases classes package package_name d1 = (d1, tr2, r) /\
    logged_at DEBUG tr2 = logged_at DEBUG tr.
Proof.
  intros (Hids0 & Hcats0 & Hwf0) Hrun.
  destruct (discover_test_cases classes package package_name d1) as [[d2 tr2] r2] eqn:Hrun2.
  destruct (flow_discover classes package package_name d0 d1) as [Hdebug Hend].
  rewrite Hrun, Hrun2 in Hdebug, Hend. simpl in Hdebug, Hend.
  assert (Hr : r2 = r).
  { destruct r as [[]|e], r2 as [[]|e2]; try contradiction; congruence. }
  destruct (discovery_relations _ _ _ _ _ _ Hrun)
    as ((N1 & G1 & _) & (KA1 & KB1 & KC1) & (_ & W1 & _) & (_ & L1) & _).
  destruct (discovery_relations _ _ _ _ _ _ Hrun2)
    as ((N2 & G2 & _) & (KA2 & KB2 & KC2) & ((_ & _ & _ & S2 & K2) & W2 & _)
        & _ & (_ & O2 & C2)).
  specialize (W1 Hwf0). specialize (W2 W1).
  assert (Hrec : forall m, In (ELog DEBUG m) tr2 -> In (ELog DEBUG m) tr).
  { intros m Hm. apply In_logged_at. rewrite Hdebug. now apply In_logged_at. }
  rewrite (recorded_ids_records tr2), <- Hdebug, <- recorded_ids_records in KA2.
  rewrite (recorded_suites_records classes tr2), <- Hdebug, <- recorded_suites_records in KB2.
  rewrite (recorded_categories_records classes tr2), <- Hdebug,
    <- recorded_categories_records in KC2.
  pose proof (keys_settled _ _ _ _ KA1 KA2) as KA.
  pose proof (keys_settled _ _ _ _ KB1 KB2) as KB.
  pose proof (keys_settled _ _ _ _ KC1 KC2) as KC.
  assert (Ecases : _test_cases d1 = _test_cases d2).
  { apply od_ext; [auto | auto |].
    intros k. specialize (G1 k). specialize (G2 k). unfold get_test_case in *.
    rewrite (last_registration_records k tr2), <- Hdebug, <- last_registration_records in G2.
    rewrite G2. destruct (last_registration k tr); [exact G1 | reflexivity]. }
  assert (Esuites : _test_suites d1 = _test_suites d2).
  { apply od_ext; [apply W1 | auto |].
    intros name. destruct (OrderedDict.get name (_test_suites d1)) as [s1|] eqn:H1.
    - destruct (S2 _ _ H1) as (s2 & H2 & [tail Htail] & Hn & Hd & Hc & Hs & Ht).
      rewrite H2. f_equal.
      destruct W2 as (_ & W2). destruct (W2 _ _ H2) as (_ & Hnd & Hdecl).
      assert (Htl : tail = []).
      { destruct tail as [|c tail]; [reflexivity|]. exfalso.
        assert (Hc2 : In c (test_cases s2)).
        { rewrite Htail. apply in_or_app. right. now left. }
        assert (Hc1 : In c (test_cases s1)).
        { destruct (O2 _ _ _ H2 Hc2) as [(s0 & H0 & Hin)|(tc_id & Hin & Hjoined)].
          - congruence.
          - destruct (L1 _ _ (Hrec _ Hin)) as (Hsuite & _).
            destruct (Hsuite _ Hjoined) as (s & Hs1 & Hin1). congruence. }
        rewrite Htail in Hnd.
        apply (NoDup_app_apart _ _ Hnd c Hc1). now left. }
      subst tail. rewrite app_nil_r in Htail.
      destruct s1, s2; simpl in *. congruence.
    - symmetry. now apply (od_get_None_keys name (_test_suites d1)). }
  assert (Ecats : _categories d1 = _categories d2).
  { apply od_ext; [|auto|].
    - rewrite KC1. now apply fresh_strings_NoDup.
    - intros category.
      destruct (OrderedDict.get category (_categories d1)) as [ids1|] eqn:H1.
      + destruct (K2 _ _ H1) as (ids2 & H2 & Hsub).
        rewrite H2. f_equal.
        assert (Hback : forall x, x ∈ ids2 -> x ∈ ids1).
        { intros x Hx. destruct (C2 _ _ _ H2 Hx) as [(i0 & H0 & Hin)|(obj & Hin & Hcat)].
          - congruence.
          - destruct (L1 _ _ (Hrec _ Hin)) as (_ & Hl).
            destruct (Hl _ Hcat) as (ids & Hids & Hin1). congruence. }
        apply leibniz_equiv. intros x. split; [apply Hsub | apply Hback].
      + symmetry. now apply (od_get_None_keys category (_categories d1)). }
  exists tr2. split; [|now symmetry].
  subst r2. f_equal. f_equal.
  destruct d1, d2; simpl in *. congruence.
Qed.

End Rediscovery.

(* ===================================================================== *)
(** * The flow of discovery and the classes of the repository  *)
(* ===================================================================== *)

(** What discovery records and how it ends do not depend on the registry
    it starts from: from any two registries, a pass over the same package
    records the same classes under the same ids in the same order, and
    either returns from both or raises the same exception from both. *)
Theorem discovery_flow_ignores_registry {Env Controller : Type}
    (classes : ClassRef -> @TestCaseClass Env Controller)
    (package : Package) (package_name : string) (d d' : TestDiscovery) :
  let run := discover_test_cases classes package package_name in
  logged_at DEBUG (snd (fst (run d))) = logged_at DEBUG (snd (fst (run d'))) /\
  (forall e, snd (run d) = Raised e <-> snd (run d') = Raised e).
Proof.
  intros run. destruct (flow_discover classes package package_name d d') as [Hlog Hend].
  split; [exact Hlog|]. fold run in Hend. intros e.
  destruct (snd (run d)) as [[]|e1], (snd (run d')) as [[]|e2];
    try contradiction; split; intros H; congruence.
Qed.

(** The classes of the repository. The constructor of each takes any
    controller, [None] included, leaves the world alone and returns; the
    object reports as its number the id that discovery derives from the
    name of the module (no class declares a [number] attribute), keeps the
    controller, and its model starts as a FAIL with the status
    conditionally mandatory. So a run whose first class is one of them
    gets that id as group number, and no warning is logged. *)
Theorem repo_constructors_report_module_id {Env Controller : Type}
    (run : ClassRef -> @Instance Controller -> Env -> Env * Outcome models.TestCase)
    (module_name : string) (c : ClassRef) (rest : list ClassRef)
    (controller : option Controller) (env : Env) :
  In (module_name, c) TestCases.repo_modules ->
  let classes := TestCases.repo_classes run in
  let tc_id := tc_id_of classes module_name c in
  String.prefix "tc_hmp_" module_name = true /\
  (exists test_case,
      cls_init (classes c) controller env = (env, Returned test_case) /\
      inst_number test_case = Some tc_id /\
      inst_controller test_case = controller /\
      models.tc_number (get_test_case_model test_case) = tc_id /\
      models.tc_result (get_test_case_model test_case) = models.FAIL /\
      models.tc_status (get_test_case_model test_case) = models.conditionally_mandatory) /\
  group_number_of classes (c :: rest) env = (env, [EInit c None], Returned tc_id).
Proof.
  intros Hin classes tc_id. subst classes tc_id.
  simpl in Hin.
  destruct Hin as [H|[H|[H|[H|[]]]]]; injection H as <- <-;
    (split; [reflexivity|]; split; [eexists; repeat split|reflexivity]).
Qed.

(** The class of [tc_hmp_003.py], built without a controller. *)
Lemma repo_constructors_report_module_id_witness :
  tc_id_of (TestCases.repo_classes Fixtures.fx_repo_run) "tc_hmp_003" 3 = "003" /\
  group_number_of (TestCases.repo_classes Fixtures.fx_repo_run) [3; 1] 7
    = (7, [EInit 3 (None : option unit)], Returned "003").
Proof.
  split; [reflexivity|].
  apply (repo_constructors_report_module_id Fixtures.fx_repo_run "tc_hmp_003" 3 [1] None 7).
  simpl. auto.
Defined.

(* ===================================================================== *)
(** * The further properties on concrete registries, packages and suites  *)
(* ===================================================================== *)

(** Discovery over [fx_package] from a registry that holds the suites A
    and B: both stay in front. *)
Lemma discovery_only_adds_witness :
  exists d1 tr r,
    discover_test_cases Fixtures.fx_classes Fixtures.fx_package "pkg" Fixtures.fx_suites
    = (d1, tr, r) /\
    registry_grows Fixtures.fx_suites d1 /\
    OrderedDict.keys (_test_suites d1)
    = ["A"; "B"; "Basic Connectivity"; "Data Retrieval"; "O-RU Configuration"].
Proof.
  eexists _, _, _. split; [reflexivity|]. split; [|reflexivity].
  exact (discovery_only_adds Fixtures.fx_classes Fixtures.fx_package "pkg"
           Fixtures.fx_suites _ _ _ eq_refl).
Defined.


(** Over the same package: class 7 declares the categories "a", a list
    and "c"; its id 007 is in "a", and the category "c" does not exist. *)
Lemma discovered_ids_join_their_categories_witness :
  exists d1 tr r ids,
    discover_test_cases Fixtures.fx_classes Fixtures.fx_package_unhashable "pkg"
      TestDiscovery_init
    = (d1, tr, r) /\
    OrderedDict.get "a" (_categories d1) = Some ids /\ "007" ∈ ids /\
    get_all_categories d1 = ["basic"; "a"].
Proof.
  destruct (discovered_ids_join_their_categories Fixtures.fx_classes
              Fixtures.fx_package_unhashable "pkg" TestDiscovery_init _ _ _ eq_refl)
    as (Hjoin & _).
  destruct (Hjoin "007" 7 "a") as (ids & Hids & Hin); [simpl; auto 10 | simpl; auto |].
  eexists _, _, _, ids. split; [reflexivity|]. split; [exact Hids|].
  split; [exact Hin | reflexivity].
Defined.

(** A module [helpers] between two matching modules, although it holds a
    test case class. *)
Lemma discover_ignores_other_modules_witness :
  discover_test_cases Fixtures.fx_classes
    (PackageOk [Fixtures.fx_module_001; ("helpers", IsModule Fixtures.fx_helpers);
                Fixtures.fx_module_002])
    "pkg" TestDiscovery_init
  = discover_test_cases Fixtures.fx_classes
      (PackageOk [Fixtures.fx_module_001; Fixtures.fx_module_002]) "pkg" TestDiscovery_init.
Proof.
  exact (discover_ignores_other_modules Fixtures.fx_classes
           [Fixtures.fx_module_001] [Fixtures.fx_module_002] "helpers" Fixtures.fx_helpers
           "pkg" TestDiscovery_init eq_refl).
Defined.

(** A module [tc_hmp_009] that fails to import between two that do not:
    both are registered, and the error is logged between their records. *)
Lemma discover_survives_failed_import_witness :
  exists d1,
    OrderedDict.items (_test_cases d1) = [("001", 0); ("002", 1)] /\
    discover_test_cases Fixtures.fx_classes
      (PackageOk [Fixtures.fx_module_001; Fixtures.fx_module_002]) "pkg" TestDiscovery_init
    = (d1,
       [ELog INFO (MsgDiscovering "pkg");
        ELog DEBUG (MsgDiscoveredCase "001" 0);
        ELog DEBUG (MsgDiscoveredCase "002" 1);
        ELog INFO (MsgDiscoveredCount 2 2)],
       Returned tt) /\
    discover_test_cases Fixtures.fx_classes
      (PackageOk [Fixtures.fx_module_001;
                  ("tc_hmp_009", IsModule (ImportRaises Fixtures.fx_import_error));
                  Fixtures.fx_module_002])
      "pkg" TestDiscovery_init
    = (d1,
       [ELog INFO (MsgDiscovering "pkg");
        ELog DEBUG (MsgDiscoveredCase "001" 0);
        ELog ERROR (MsgImportError "pkg.tc_hmp_009" Fixtures.fx_import_error);
        ELog DEBUG (MsgDiscoveredCase "002" 1);
        ELog INFO (MsgDiscoveredCount 2 2)],
       Returned tt).
Proof.
  destruct (discover_survives_failed_import Fixtures.fx_classes
              [Fixtures.fx_module_001] [Fixtures.fx_module_002] "tc_hmp_009"
              Fixtures.fx_import_error "pkg" TestDiscovery_init eq_refl)
    as (d_mid & t1 & r1 & Hscan1 & H).
  vm_compute in Hscan1. injection Hscan1 as <- <- <-.
  destruct H as (d1 & t2 & r2 & Hscan2 & Hwithout & Hwith).
  vm_compute in Hscan2. injection Hscan2 as <- <- <-.
  eexists. split; [|split; [exact Hwithout | exact Hwith]]. reflexivity.
Defined.

(** A sub-package that cannot be imported, after one module and before
    another: the first is registered, the second never looked at. *)
Lemma failed_subpackage_aborts_discovery_witness :
  exists d1 t1,
    discover_test_cases Fixtures.fx_classes
      (PackageOk [Fixtures.fx_module_001;
                  ("broken", SubPackage (PackageRaises Fixtures.fx_import_error));
                  Fixtures.fx_module_002])
      "pkg" TestDiscovery_init
    = (d1,
       ELog INFO (MsgDiscovering "pkg") :: t1 ++ [ELog INFO (MsgDiscovering "pkg.broken")],
       Raised Fixtures.fx_import_error) /\
    OrderedDict.keys (_test_cases d1) = ["001"].
Proof.
  eexists _, _. split.
  - exact (failed_subpackage_aborts_discovery Fixtures.fx_classes
             [Fixtures.fx_module_001] [Fixtures.fx_module_002] "broken"
             Fixtures.fx_import_error "pkg" TestDiscovery_init _ _ eq_refl).
  - reflexivity.
Defined.

(** Class 5, whose [categories] is not iterable, between two classes of
    one module: it takes the id 006, the class after it stays unknown. *)
Lemma unreadable_categories_cut_module_short_witness :
  exists d1 t1,
    process_module Fixtures.fx_classes "tc_hmp_006" "pkg.tc_hmp_006"
      (ImportOk [("A", MemTestCase 0)]) TestDiscovery_init
    = (d1, t1, Returned tt) /\
    process_module Fixtures.fx_classes "tc_hmp_006" "pkg.tc_hmp_006"
      (ImportOk [("A", MemTestCase 0); ("V", MemTestCase 5); ("Z", MemTestCase 1)])
      TestDiscovery_init
    = (set_test_case "006" 5 d1,
       t1 ++ [ELog DEBUG (MsgDiscoveredCase "006" 5);
              ELog ERROR (MsgProcessError "pkg.tc_hmp_006"
                            {| exn_type := TypeError;
                               exn_msg := "object is not iterable" |})],
       Returned tt).
Proof.
  refine (unreadable_categories_cut_module_short Fixtures.fx_classes
            "tc_hmp_006" "pkg.tc_hmp_006" [("A", MemTestCase 0)] [("Z", MemTestCase 1)]
            "V" 5 TestDiscovery_init eq_refl _).
  repeat constructor.
Defined.

(** Class 7, whose second category is a list, between two classes of one
    module: it takes the id 007, which joins the category "a" and not
    "c"; no suite "Mixed" is made, the class after it stays unknown, and
    the error logged is the one Python raises for the list. *)
Lemma unhashable_attribute_cuts_module_short_witness :
  exists d2,
    process_module Fixtures.fx_classes "tc_hmp_007" "pkg.tc_hmp_007"
      (ImportOk [("A", MemTestCase 0); ("M", MemTestCase 7); ("Z", MemTestCase 1)])
      TestDiscovery_init
    = (d2,
       [ELog DEBUG (MsgDiscoveredCase "007" 0);
        ELog DEBUG (MsgDiscoveredCase "007" 7);
        ELog ERROR (MsgProcessError "pkg.tc_hmp_007"
                      {| exn_type := TypeError; exn_msg := "unhashable type: 'list'" |})],
       Returned tt) /\
    OrderedDict.items (_test_cases d2) = [("007", 7)] /\
    OrderedDict.keys (_test_suites d2) = ["Basic Connectivity"] /\
    get_all_categories d2 = ["basic"; "a"].
Proof.
  destruct (unhashable_attribute_cuts_module_short Fixtures.fx_classes
              "tc_hmp_007" "pkg.tc_hmp_007" [("A", MemTestCase 0)] [("Z", MemTestCase 1)]
              "M" 7 TestDiscovery_init eq_refl eq_refl)
    as (d1 & t1 & type_name & d2 & Hwhere & Hfirst & Hwhole & _).
  { repeat constructor. }
  simpl in Hwhere. subst type_name.
  vm_compute in Hfirst. injection Hfirst as <- <-.
  exists d2. split; [exact Hwhole|].
  vm_compute in Hwhole. injection Hwhole as <-. repeat split.
Defined.

(** A suite of two classes with one setup hook and one teardown hook.
    The world counts the foreign calls that returned: the setup hook, two
    constructors and two [run]s, the teardown hook, and the temporary
    instance. *)
Lemma run_test_suite_returned_witness :
  exists tr g results tr_number,
    run_test_suite Fixtures.fx_classes Fixtures.fx_hooks
      (Fixtures.suite_with [0; 1] [2] [3]) (Some tt) 0
    = (7, tr, Returned g) /\
    tr = [EHook 2; EInit 0 (Some tt); ERun 0; EInit 1 (Some tt); ERun 1; EHook 3]
           ++ tr_number /\
    inits_of tr_number = [(0, None)] /\
    models.groupItems g = map models.ItemCase results /\
    length results = 2.
Proof.
  edestruct (run_test_suite_returned Fixtures.fx_classes Fixtures.fx_hooks
               (Fixtures.suite_with [0; 1] [2] [3]) (Some tt) 0)
    as (results & tr_number & Htr & _ & _ & Hinits & _ & _ & Hitems & _); [reflexivity|].
  eexists _, _, results, tr_number.
  split; [reflexivity|]. split; [exact Htr|]. split; [exact Hinits|].
  split; [exact Hitems|].
  apply (f_equal (@length _)) in Hitems. rewrite length_map in Hitems.
  rewrite <- Hitems. reflexivity.
Defined.

(** A suite whose second class raises from [run]: the third class is
    never built and the teardown hook is still called, in the world that
    the setup hook, the first case and the constructor of the second
    left. *)
Lemma run_test_suite_raised_witness :
  exists tr tr_try tr_teardown,
    run_test_suite Fixtures.fx_classes Fixtures.fx_hooks
      (Fixtures.suite_with [0; 5; 1] [2] [3]) (Some tt) 0
    = (5, tr, Raised Fixtures.run_failed) /\
    tr = tr_try ++ tr_teardown /\
    tr = [EHook 2; EInit 0 (Some tt); ERun 0; EInit 5 (Some tt); ERun 5; EHook 3] /\
    (tr_teardown = map EHook [3] \/
     exists before h after,
       [3] = before ++ h :: after /\ tr_teardown = map EHook (before ++ [h])).
Proof.
  edestruct (run_test_suite_raised Fixtures.fx_classes Fixtures.fx_hooks
               (Fixtures.suite_with [0; 5; 1] [2] [3]) (Some tt) 0)
    as (tr_try & tr_teardown & Htr & Hteardown & _); [reflexivity|].
  eexists _, tr_try, tr_teardown.
  split; [reflexivity|]. split; [exact Htr|]. split; [reflexivity | exact Hteardown].
Defined.

(** The category "basic" of the discovered registry, run with a
    controller. *)
Lemma run_by_category_outcome_witness :
  exists env' tr g results tr_number,
    run_test_cases_by_category Fixtures.fx_classes elements
      (TestExecutionPipeline_init Fixtures.fx_discovered) "basic" (Some tt) 0
    = (env', tr, Returned g) /\
    models.name g = "Category: basic" /\
    models.groupItems g = map models.ItemCase results /\
    length results = 2 /\
    tr = [EInit 1 (Some tt); ERun 1; EInit 2 (Some tt); ERun 2] ++ tr_number.
Proof.
  destruct (run_by_category_outcome Fixtures.fx_classes elements
              (TestExecutionPipeline_init Fixtures.fx_discovered) "basic" (Some tt) 0)
    as [_ H].
  edestruct H as (Hname & results & tr_number & Hitems & Hres & Htr & _); [reflexivity|].
  eexists _, _, _, results, tr_number.
  split; [reflexivity|]. split; [exact Hname|]. split; [exact Hitems|].
  split; [|exact Htr].
  apply Forall2_length in Hres. rewrite <- Hres. reflexivity.
Defined.

(** With the iteration order of stdpp's [elements], on the discovered
    registry, where the category "basic" holds the ids 001 and 004: the
    lookup lists two classes, one for each id, and an unknown category is
    empty. *)
Lemma by_category_lookup_witness :
  (exists found_ids,
      List.NoDup found_ids /\ length found_ids = 2 /\
      In "001" found_ids /\ In "004" found_ids /\
      Forall2 (fun tc_id c => get_test_case Fixtures.fx_discovered tc_id = Some c)
        found_ids (get_test_cases_by_category elements Fixtures.fx_discovered "basic")) /\
  length (get_test_cases_by_category elements Fixtures.fx_discovered "basic") = 2 /\
  get_test_cases_by_category elements Fixtures.fx_discovered "advanced" = [].
Proof.
  assert (Hiter : forall s : gset string,
             List.NoDup (elements s) /\ forall x, In x (elements s) <-> x ∈ s).
  { intros s. split; [apply NoDup_ListNoDup, NoDup_elements|].
    intros x. rewrite <- list_elem_of_In. apply elem_of_elements. }
  destruct (by_category_lookup elements Fixtures.fx_discovered "basic" Hiter)
    as (_ & Hfound & _).
  destruct (by_category_lookup elements Fixtures.fx_discovered "advanced" Hiter)
    as (Hnone & _).
  edestruct Hfound as (found_ids & Hids & Hnd & Hin & Hall); [reflexivity|].
  split; [|split; [|apply Hnone; reflexivity]].
  - exists found_ids. split; [exact Hnd|].
    split; [rewrite Hids; reflexivity|].
    split; [|split; [|exact Hall]].
    + apply Hin. split; [set_solver | discriminate].
    + apply Hin. split; [set_solver | discriminate].
  - apply Forall2_length in Hall. rewrite <- Hall, Hids. reflexivity.
Defined.


(** From a registry that holds the suites A and B, the suites that
    discovery creates follow in the order it met them. *)
Lemma discovery_order_is_insertion_order_witness :
  exists d1 tr r,
    discover_test_cases Fixtures.fx_classes Fixtures.fx_package "pkg" Fixtures.fx_suites
    = (d1, tr, r) /\
    OrderedDict.keys (_test_suites d1)
    = ["A"; "B"] ++ fresh_strings ["A"; "B"] (recorded_suites Fixtures.fx_classes tr) /\
    recorded_suites Fixtures.fx_classes tr
    = ["Basic Connectivity"; "Data Retrieval"; "O-RU Configuration"].
Proof.
  eexists _, _, _. split; [reflexivity|]. split; [|reflexivity].
  exact (proj1 (proj2 (discovery_order_is_insertion_order Fixtures.fx_classes
                         Fixtures.fx_package "pkg" Fixtures.fx_suites _ _ _ eq_refl))).
Defined.

(** A second pass over [fx_package], id collision included. *)
Lemma rediscovery_changes_nothing_witness :
  exists d1 tr r tr2,
    discover_test_cases Fixtures.fx_classes Fixtures.fx_package "pkg" TestDiscovery_init
    = (d1, tr, r) /\
    discover_test_cases Fixtures.fx_classes Fixtures.fx_package "pkg" d1 = (d1, tr2, r) /\
    logged_at DEBUG tr2 = logged_at DEBUG tr /\
    OrderedDict.items (_test_cases d1) = [("001", 1); ("004", 2)].
Proof.
  assert (Hwf : registry_well_formed Fixtures.fx_classes TestDiscovery_init).
  { split; [constructor|]. split; [constructor | apply init_suites_well_formed]. }
  destruct (rediscovery_changes_nothing Fixtures.fx_classes Fixtures.fx_package "pkg"
              TestDiscovery_init _ _ _ Hwf eq_refl) as (tr2 & Hagain & Hlog).
  eexists _, _, _, tr2. split; [reflexivity|].
  split; [exact Hagain|]. split; [exact Hlog | reflexivity].
Defined.

(* ===================================================================== *)
(** * The id map, entry by entry  *)
(* ===================================================================== *)

Lemma od_get_app {V} (k : string) (a b : OrderedDict.t V) :
  OrderedDict.get k (a ++ b) =
  match OrderedDict.get k a with
  | Some v => Some v
  | None => OrderedDict.get k b
  end.
Proof.
  induction a as [|[k' v'] a IH]; simpl; [reflexivity|].
  now destruct (String.eqb k k').
Qed.

Lemma od_get_map {V} (h : string -> V -> V) (k : string) (d : OrderedDict.t V) :
  OrderedDict.get k (map (fun entry => (fst entry, h (fst entry) (snd entry))) d) =
  option_map (h k) (OrderedDict.get k d).
Proof.
  induction d as [|[k' v'] d IH]; simpl; [reflexivity|].
  destruct (String.eqb k k') eqn:E; [|exact IH].
  apply String.eqb_eq in E. now subst k'.
Qed.

Lemma od_get_flat_map {V} (g : string -> option V) (k : string) (l : list string) :
  OrderedDict.get k
    (flat_map (fun x => match g x with Some v => [(x, v)] | None => [] end) l) =
  if existsb (String.eqb k) l then g k else None.
Proof.
  induction l as [|x l IH]; simpl; [reflexivity|].
  destruct (String.eqb k x) eqn:E; simpl.
  - apply String.eqb_eq in E. subst x.
    destruct (g k) eqn:G; simpl.
    + now rewrite String.eqb_refl.
    + rewrite IH. now destruct (existsb (String.eqb k) l).
  - destruct (g x); simpl; [rewrite E|]; exact IH.
Qed.

Lemma fresh_strings_sub (seen l : list string) (x : string) :
  In x (fresh_strings seen l) -> In x l.
Proof.
  revert seen. induction l as [|y l IH]; intros seen; simpl; [auto|].
  destruct (existsb (String.eqb y) seen).
  - intros H. right. exact (IH _ H).
  - intros [->|H]; [now left | right; exact (IH _ H)].
Qed.

Lemma last_registration_recorded {Controller} (tc_id : string)
    (tr : list (@Event Controller)) :
  In tc_id (recorded_ids tr) <-> last_registration tc_id tr <> None.
Proof.
  induction tr as [|ev tr IH]; simpl; [tauto|].
  destruct (last_registration tc_id tr) as [obj|] eqn:L.
  - assert (Hin : In tc_id (recorded_ids tr)) by (apply IH; discriminate).
    split; [discriminate|]. intros _.
    destruct ev as [[] []| | |]; simpl; auto.
  - assert (Hout : ~ In tc_id (recorded_ids tr)) by (rewrite IH; auto).
    destruct ev as [[] []| | |]; simpl; try (split; [contradiction | congruence]).
    destruct (String.eqb tc_id0 tc_id) eqn:E.
    + apply String.eqb_eq in E. split; [discriminate | auto].
    + apply String.eqb_neq in E. split; [intros [H|H]; contradiction | congruence].
Qed.

Lemma id_map_after_keys {Controller} (cases : OrderedDict.t ClassRef)
    (tr : list (@Event Controller)) :
  OrderedDict.keys (id_map_after cases tr) =
  OrderedDict.keys cases ++ fresh_strings (OrderedDict.keys cases) (recorded_ids tr).
Proof.
  unfold id_map_after, OrderedDict.keys. rewrite map_app, map_map. simpl. f_equal.
  assert (Hall : forall x, In x (fresh_strings (map fst cases) (recorded_ids tr)) ->
                           last_registration x tr <> None).
  { intros x Hx. apply last_registration_recorded. exact (fresh_strings_sub _ _ _ Hx). }
  revert Hall. generalize (fresh_strings (map fst cases) (recorded_ids tr)) as l.
  induction l as [|x l IH]; intros Hall; simpl; [reflexivity|].
  destruct (last_registration x tr) eqn:L.
  - simpl. f_equal. apply IH. intros y Hy. apply Hall. now right.
  - exfalso. apply (Hall x); [now left | exact L].
Qed.

Lemma id_map_after_get {Controller} (cases : OrderedDict.t ClassRef)
    (tr : list (@Event Controller)) (tc_id : string) :
  OrderedDict.get tc_id (id_map_after cases tr) =
  match last_registration tc_id tr with
  | Some obj => Some obj
  | None => OrderedDict.get tc_id cases
  end.
Proof.
  unfold id_map_after.
  rewrite od_get_app.
  rewrite (od_get_map (fun k v => match last_registration k tr with
                                  | Some obj => obj
                                  | None => v
                                  end)).
  rewrite (od_get_flat_map (fun k => last_registration k tr)).
  destruct (OrderedDict.get tc_id cases) as [v|] eqn:G; simpl.
  - now destruct (last_registration tc_id tr).
  - destruct (last_registration tc_id tr) as [obj|] eqn:L.
    + assert (Hfresh : In tc_id (fresh_strings (OrderedDict.keys cases) (recorded_ids tr))).
      { assert (Hrec : In tc_id (recorded_ids tr))
          by (apply last_registration_recorded; congruence).
        apply (fresh_strings_In (OrderedDict.keys cases)) in Hrec.
        apply in_app_or in Hrec. destruct Hrec as [Hold|Hnew]; [|exact Hnew].
        apply od_get_In_keys in Hold. congruence. }
      apply existsb_eqb_In in Hfresh. now rewrite Hfresh.
    + now destruct (existsb _ _).
Qed.

Section IdMap.

Context {Env Controller : Type}.
Variable classes : ClassRef -> @TestCaseClass Env Controller.

(** The id map after discovery, entry by entry. An id that was in the map
    keeps its place, and its class unless discovery recorded the id: then
    it holds the class recorded last. The ids that discovery recorded and
    that were not in the map follow, in the order of their first record,
    each with the class recorded last under it. [get_all_test_cases]
    lists the classes in that order; a class appears once for each id it
    holds, and a class that lost its id to a later one does not appear. *)
Theorem discovery_id_map_from_log (package : Package) (package_name : string)
    (d0 d1 : TestDiscovery) (tr : list (@Event Controller)) (r : Outcome unit) :
  List.NoDup (OrderedDict.keys (_test_cases d0)) ->
  discover_test_cases classes package package_name d0 = (d1, tr, r) ->
  _test_cases d1 = id_map_after (_test_cases d0) tr /\
  get_all_test_cases d1 = OrderedDict.values (id_map_after (_test_cases d0) tr).
Proof.
  intros Hnd Hrun.
  assert (Hmap : _test_cases d1 = id_map_after (_test_cases d0) tr).
  { pose proof (faithful_discover classes package package_name d0) as Hstep.
    pose proof (respects_discover classes (keeps_discovery_order classes)
                  (keeps_order_refl classes) (keeps_order_trans classes)
                  (keeps_order_log classes) (register_member_keeps_order classes)
                  package package_name d0) as Horder.
    rewrite Hrun in Hstep, Horder. simpl in Hstep, Horder.
    destruct Hstep as (Hkeys & Hget & _). destruct Horder as (Hids & _).
    apply od_ext; [auto | now rewrite id_map_after_keys |].
    intros k. rewrite id_map_after_get. apply Hget. }
  split; [exact Hmap|]. unfold get_all_test_cases. now rewrite Hmap.
Qed.

End IdMap.

(** Discovery over [fx_package] from a registry that maps 001 to class 0
    and 002 to class 1: 001 is taken over by class 1, 002 stays, 004 is
    appended; class 0 is no longer listed. *)
Lemma discovery_id_map_from_log_witness :
  exists d1 tr r,
    discover_test_cases Fixtures.fx_classes Fixtures.fx_package "pkg" Fixtures.fx_discovery
    = (d1, tr, r) /\
    OrderedDict.items (_test_cases d1) = [("001", 1); ("002", 1); ("004", 2)] /\
    get_all_test_cases d1 = [1; 1; 2].
Proof.
  assert (Hnd : List.NoDup (OrderedDict.keys (_test_cases Fixtures.fx_discovery))).
  { repeat constructor; simpl; intuition discriminate. }
  destruct (discovery_id_map_from_log Fixtures.fx_classes Fixtures.fx_package "pkg"
              Fixtures.fx_discovery _ _ _ Hnd eq_refl) as [Hmap Hall].
  eexists _, _, _. split; [reflexivity|].
  split; [rewrite Hmap | rewrite Hall]; reflexivity.
Defined.
